(** * MindfulBreaks: the break-scheduling core

    A shallow embedding of the scheduling core of the MindfulBreaks desktop
    utility: [timer_manager.py] (the countdown engine), [idle_monitor.py]
    (the idle detector) and the handlers of [mindful_break_app.py] that
    arbitrate between idle pauses and manual timed pauses.

    Modelling conventions.
    - Python integers are [Z].  The [minutes] arguments are Python floats; they
      are modelled as exact rationals ([Q]) and [round] as Python's
      round-half-to-even, so the binary rounding error of [minutes * 60] is
      not represented.
    - The GLib main loop is an explicit value ([GLib.MainContext]): a counter
      of source ids and the list of live sources.  A timer "fires" when the
      loop dispatches a live source; a callback that returns [False] has its
      source removed, as GLib does.
    - GObject signals are returned as the list of emissions of a call, in
      emission order.  [print] diagnostics are not modelled. *)

From Stdlib Require Import ZArith QArith Qround List Bool Lia.
Import ListNotations.
Open Scope Z_scope.

Set Implicit Arguments.

(** ** A state-and-output monad for the methods of the three classes *)

Module SW.
Section Defs.
Context {St Ev : Type}.

Definition M (A : Type) : Type := St -> A * St * list Ev.

Definition ret {A} (a : A) : M A := fun s => (a, s, []).

Definition bind {A B} (m : M A) (k : A -> M B) : M B :=
  fun s =>
    match m s with
    | (a, s1, o1) =>
        match k a s1 with
        | (b, s2, o2) => (b, s2, o1 ++ o2)
        end
    end.

Definition get : M St := fun s => (s, s, []).
Definition put (s : St) : M unit := fun _ => (tt, s, []).
Definition modify (f : St -> St) : M unit := fun s => (tt, f s, []).
Definition emit (e : Ev) : M unit := fun s => (tt, s, [e]).

Definition value {A} (r : A * St * list Ev) : A := fst (fst r).
Definition final {A} (r : A * St * list Ev) : St := snd (fst r).
Definition output {A} (r : A * St * list Ev) : list Ev := snd r.
End Defs.
End SW.

Declare Scope sw_scope.
Delimit Scope sw_scope with sw.
Notation "x <- m ;; k" := (SW.bind m (fun x => k))
(at level 61, m at next level, right associativity) : sw_scope.
Notation "m ;; k" := (SW.bind m (fun _ => k))
(at level 61, right associativity) : sw_scope.

(** ** The GLib main loop, as far as the program uses it *)

Module GLib.

Definition source_id := positive.

(** The three methods this repository registers as source callbacks. *)
Inductive callback : Type :=
| TimerManager_tick          (* TimerManager._tick *)
| App_manual_pause_tick      (* MindfulBreakApp._manual_pause_tick *)
| IdleMonitor_check_idle.    (* IdleMonitor._check_idle *)

(** [src_interval] is [Some n] for [timeout_add_seconds n] and [None] for
    [idle_add]. *)
Record source : Type := {
  src_id : source_id;
  src_interval : option Z;
  src_callback : callback
}.

Record MainContext : Type := {
  next_source_id : source_id;
  sources : list source
}.

Definition new : MainContext := {| next_source_id := 1%positive; sources := [] |}.

Definition attach (interval : option Z) (cb : callback) (c : MainContext)
  : source_id * MainContext :=
  (next_source_id c,
   {| next_source_id := Pos.succ (next_source_id c);
      sources := sources c ++
        [{| src_id := next_source_id c; src_interval := interval; src_callback := cb |}] |}).

Definition timeout_add_seconds (interval : Z) (cb : callback) (c : MainContext) :=
  attach (Some interval) cb c.

Definition idle_add (cb : callback) (c : MainContext) := attach None cb c.

Definition source_remove (id : source_id) (c : MainContext) : MainContext :=
  {| next_source_id := next_source_id c;
     sources := filter (fun s => negb (Pos.eqb (src_id s) id)) (sources c) |}.

Definition find_source (id : source_id) (c : MainContext) : option source :=
  find (fun s => Pos.eqb (src_id s) id) (sources c).

(** Source ids are handed out in increasing order and never reused. *)
Definition fresh (c : MainContext) : Prop :=
  Forall (fun s => (src_id s < next_source_id c)%positive) (sources c).

End GLib.

(** ** Python's [int(round(minutes * 60))] *)

Definition py_round (x : Q) : Z :=
let f := Qfloor x in
match Qcompare (x - inject_Z f) (1 # 2) with
| Lt => f
| Gt => f + 1
| Eq => if Z.even f then f else f + 1
end.

(** ** timer_manager.py *)

Module TimerManager.
Import SW.
Local Open Scope sw_scope.

Inductive state : Type :=
| STATE_STOPPED
| STATE_RUNNING
| STATE_PAUSED
| STATE_BREAK_ACTIVE.

Definition state_eqb (a b : state) : bool :=
  match a, b with
  | STATE_STOPPED, STATE_STOPPED
  | STATE_RUNNING, STATE_RUNNING
  | STATE_PAUSED, STATE_PAUSED
  | STATE_BREAK_ACTIVE, STATE_BREAK_ACTIVE => true
  | _, _ => false
  end.

Inductive signal : Type :=
| timer_started
| timer_paused
| timer_resumed
| timer_stopped
| timer_tick (remaining : Z)
| break_started.

Record t : Type := {
  _state : state;
  _timer_source_id : option GLib.source_id;
  _remaining_seconds : Z;
  _configured_interval_seconds : Z
}.

Definition __init__ : t :=
  {| _state := STATE_STOPPED;
     _timer_source_id := None;
     _remaining_seconds := 0;
     _configured_interval_seconds := 0 |}.

(** The engine object together with the main loop its timer lives on. *)
Record world : Type := { self : t; loop : GLib.MainContext }.

Definition Op (A : Type) : Type := @M world signal A.

Definition set_state (v : state) : Op unit :=
  modify (fun w => {| self := {| _state := v;
                                 _timer_source_id := _timer_source_id (self w);
                                 _remaining_seconds := _remaining_seconds (self w);
                                 _configured_interval_seconds := _configured_interval_seconds (self w) |};
                      loop := loop w |}).

Definition set_timer_source_id (v : option GLib.source_id) : Op unit :=
  modify (fun w => {| self := {| _state := _state (self w);
                                 _timer_source_id := v;
                                 _remaining_seconds := _remaining_seconds (self w);
                                 _configured_interval_seconds := _configured_interval_seconds (self w) |};
                      loop := loop w |}).

Definition set_remaining_seconds (v : Z) : Op unit :=
  modify (fun w => {| self := {| _state := _state (self w);
                                 _timer_source_id := _timer_source_id (self w);
                                 _remaining_seconds := v;
                                 _configured_interval_seconds := _configured_interval_seconds (self w) |};
                      loop := loop w |}).

Definition set_configured_interval_seconds (v : Z) : Op unit :=
  modify (fun w => {| self := {| _state := _state (self w);
                                 _timer_source_id := _timer_source_id (self w);
                                 _remaining_seconds := _remaining_seconds (self w);
                                 _configured_interval_seconds := v |};
                      loop := loop w |}).

Definition GLib_timeout_add_seconds (n : Z) (cb : GLib.callback) : Op GLib.source_id :=
  fun w => let r := GLib.timeout_add_seconds n cb (loop w) in
           (fst r, {| self := self w; loop := snd r |}, []).

Definition GLib_source_remove (id : GLib.source_id) : Op unit :=
  modify (fun w => {| self := self w; loop := GLib.source_remove id (loop w) |}).

(** [int(round(minutes * 60))], then the floor at one second. *)
Definition to_seconds (minutes : Q) : Z :=
  let seconds := py_round (minutes * 60) in
  if seconds <? 1 then 1 else seconds.

Definition set_interval (minutes : Q) : Op unit :=
  let interval_seconds := to_seconds minutes in
  set_configured_interval_seconds interval_seconds ;;
  w <- get ;;
  if state_eqb (_state (self w)) STATE_STOPPED
  then set_remaining_seconds (_configured_interval_seconds (self w))
  else ret tt.

Definition _stop_internal_timer : Op unit :=
  w <- get ;;
  match _timer_source_id (self w) with
  | Some id => GLib_source_remove id ;; set_timer_source_id None
  | None => ret tt
  end.

Definition start : Op unit :=
  _stop_internal_timer ;;
  w <- get ;;
  if _configured_interval_seconds (self w) <=? 0 then ret tt
  else
    set_state STATE_RUNNING ;;
    set_remaining_seconds (_configured_interval_seconds (self w)) ;;
    id <- GLib_timeout_add_seconds 1 GLib.TimerManager_tick ;;
    set_timer_source_id (Some id) ;;
    emit timer_started ;;
    w <- get ;;
    emit (timer_tick (_remaining_seconds (self w))).

Definition pause : Op unit :=
  w <- get ;;
  if state_eqb (_state (self w)) STATE_RUNNING then
    set_state STATE_PAUSED ;;
    _stop_internal_timer ;;
    emit timer_paused
  else ret tt.

Definition _enter_break_state : Op unit :=
  set_state STATE_BREAK_ACTIVE ;;
  set_remaining_seconds 0 ;;
  set_timer_source_id None ;;
  emit break_started.

Definition resume : Op unit :=
  w <- get ;;
  if state_eqb (_state (self w)) STATE_PAUSED then
    set_state STATE_RUNNING ;;
    if 0 <? _remaining_seconds (self w) then
      id <- GLib_timeout_add_seconds 1 GLib.TimerManager_tick ;;
      set_timer_source_id (Some id) ;;
      emit timer_resumed ;;
      w <- get ;;
      emit (timer_tick (_remaining_seconds (self w)))
    else _enter_break_state
  else ret tt.

Definition stop : Op unit :=
  w <- get ;;
  let previous_state := _state (self w) in
  _stop_internal_timer ;;
  set_state STATE_STOPPED ;;
  set_remaining_seconds (_configured_interval_seconds (self w)) ;;
  if negb (state_eqb previous_state STATE_STOPPED)
  then emit timer_stopped
  else ret tt.

Definition postpone (minutes : Q) : Op unit :=
  _stop_internal_timer ;;
  let postpone_seconds := to_seconds minutes in
  set_state STATE_RUNNING ;;
  set_remaining_seconds postpone_seconds ;;
  id <- GLib_timeout_add_seconds 1 GLib.TimerManager_tick ;;
  set_timer_source_id (Some id) ;;
  emit timer_started ;;
  w <- get ;;
  emit (timer_tick (_remaining_seconds (self w))).

(** The callback's result tells GLib whether to keep the source. *)
Definition _tick : Op bool :=
  w <- get ;;
  if negb (state_eqb (_state (self w)) STATE_RUNNING) then
    set_timer_source_id None ;;
    ret false
  else
    set_remaining_seconds (_remaining_seconds (self w) - 1) ;;
    w <- get ;;
    if 0 <? _remaining_seconds (self w) then
      emit (timer_tick (_remaining_seconds (self w))) ;;
      ret true
    else
      _enter_break_state ;;
      ret false.

(** One dispatch of source [id] by the main loop: nothing happens unless the
    source is live and is the engine's tick; a callback returning [False]
    destroys its source. *)
Definition fire (id : GLib.source_id) : Op unit :=
  w <- get ;;
  match GLib.find_source id (loop w) with
  | Some {| GLib.src_callback := GLib.TimerManager_tick |} =>
      keep <- _tick ;;
      if keep then ret tt else GLib_source_remove id
  | _ => ret tt
  end.

(** The engine's operations as seen by a client and by the main loop. *)
Inductive op : Type :=
| OpSetInterval (minutes : Q)
| OpStart
| OpPause
| OpResume
| OpStop
| OpPostpone (minutes : Q)
| OpFire (id : GLib.source_id).

Definition perform (o : op) : Op unit :=
  match o with
  | OpSetInterval m => set_interval m
  | OpStart => start
  | OpPause => pause
  | OpResume => resume
  | OpStop => stop
  | OpPostpone m => postpone m
  | OpFire id => fire id
  end.

Fixpoint run (os : list op) : Op unit :=
  match os with
  | [] => ret tt
  | o :: os' => perform o ;; run os'
  end.

Definition exec {A} (m : Op A) (w : world) : world := final (m w).
Definition emitted {A} (m : Op A) (w : world) : list signal := output (m w).

Definition fresh_world : world := {| self := __init__; loop := GLib.new |}.

End TimerManager.

(** ** idle_monitor.py *)

Module IdleMonitor.
Import SW.
Local Open Scope sw_scope.

Inductive signal : Type :=
| user_idle
| user_active.

(** What a method of the detector does to the outside: a signal emission or
    a call that releases an X11 resource. *)
Inductive output : Type :=
| Emit (s : signal)
| XFree (pointer : Z)
| XCloseDisplay (display : Z).

(** The answers of the X server at construction time; a pointer or window
    id is an integer and 0 is NULL. *)
Record X11 : Type := {
  XOpenDisplay : Z;
  XDefaultRootWindow : Z;
  XScreenSaverAllocInfo : Z
}.

(** The outcome of one [XScreenSaverQueryInfo] round trip inside [_check_idle]:
    the call (or reading its result) raises, or it returns a status together
    with the [idle] field of the result structure, in milliseconds. *)
Inductive query : Type :=
| QueryRaises
| QueryInfo (status : Z) (idle : Z).

Record t : Type := {
  _idle_threshold_ms : Z;
  _is_idle : bool;
  _timer_source_id : option GLib.source_id;
  _display : option Z;
  _root_window : option Z;
  _saver_info : option Z;
  _initialized_successfully : bool
}.

(** Python truthiness of a field that holds [None] or an integer handle. *)
Definition truthy (v : option Z) : bool :=
  match v with
  | Some z => negb (z =? 0)
  | None => false
  end.

Definition handle (v : option Z) : Z :=
  match v with
  | Some z => z
  | None => 0
  end.

Definition DEFAULT_POLL_INTERVAL_SECONDS : Z := 30.

Record world : Type := { self : t; loop : GLib.MainContext }.

Definition Op (A : Type) : Type := @M world output A.

Definition update (f : t -> t) : Op unit :=
  modify (fun w => {| self := f (self w); loop := loop w |}).

Definition set_is_idle (v : bool) : Op unit :=
  update (fun s => {| _idle_threshold_ms := _idle_threshold_ms s;
                      _is_idle := v;
                      _timer_source_id := _timer_source_id s;
                      _display := _display s;
                      _root_window := _root_window s;
                      _saver_info := _saver_info s;
                      _initialized_successfully := _initialized_successfully s |}).

Definition set_timer_source_id (v : option GLib.source_id) : Op unit :=
  update (fun s => {| _idle_threshold_ms := _idle_threshold_ms s;
                      _is_idle := _is_idle s;
                      _timer_source_id := v;
                      _display := _display s;
                      _root_window := _root_window s;
                      _saver_info := _saver_info s;
                      _initialized_successfully := _initialized_successfully s |}).

Definition set_display (v : option Z) : Op unit :=
  update (fun s => {| _idle_threshold_ms := _idle_threshold_ms s;
                      _is_idle := _is_idle s;
                      _timer_source_id := _timer_source_id s;
                      _display := v;
                      _root_window := _root_window s;
                      _saver_info := _saver_info s;
                      _initialized_successfully := _initialized_successfully s |}).

Definition set_saver_info (v : option Z) : Op unit :=
  update (fun s => {| _idle_threshold_ms := _idle_threshold_ms s;
                      _is_idle := _is_idle s;
                      _timer_source_id := _timer_source_id s;
                      _display := _display s;
                      _root_window := _root_window s;
                      _saver_info := v;
                      _initialized_successfully := _initialized_successfully s |}).

Definition set_initialized_successfully (v : bool) : Op unit :=
  update (fun s => {| _idle_threshold_ms := _idle_threshold_ms s;
                      _is_idle := _is_idle s;
                      _timer_source_id := _timer_source_id s;
                      _display := _display s;
                      _root_window := _root_window s;
                      _saver_info := _saver_info s;
                      _initialized_successfully := v |}).

Definition GLib_timeout_add_seconds (n : Z) (cb : GLib.callback) : Op GLib.source_id :=
  fun w => let r := GLib.timeout_add_seconds n cb (loop w) in
           (fst r, {| self := self w; loop := snd r |}, []).

Definition GLib_idle_add (cb : GLib.callback) : Op GLib.source_id :=
  fun w => let r := GLib.idle_add cb (loop w) in
           (fst r, {| self := self w; loop := snd r |}, []).

Definition GLib_source_remove (id : GLib.source_id) : Op unit :=
  modify (fun w => {| self := self w; loop := GLib.source_remove id (loop w) |}).

(** The constructor.  The three X calls are made in order; the first one
    that answers NULL raises, and the handler closes what was opened. *)
Definition __init__ (idle_threshold_seconds : Z) (x : X11) : t * list output :=
  let idle_threshold_seconds :=
    if idle_threshold_seconds <? 1 then 1 else idle_threshold_seconds in
  let ms := idle_threshold_seconds * 1000 in
  let failed (root saver : option Z) (closed : list output) :=
    ({| _idle_threshold_ms := ms; _is_idle := false; _timer_source_id := None;
        _display := None; _root_window := root; _saver_info := saver;
        _initialized_successfully := false |}, closed) in
  if XOpenDisplay x =? 0 then failed None None []
  else if XDefaultRootWindow x =? 0 then
    failed (Some 0) None [XCloseDisplay (XOpenDisplay x); XCloseDisplay (XOpenDisplay x)]
  else if XScreenSaverAllocInfo x =? 0 then
    failed (Some (XDefaultRootWindow x)) (Some 0)
           [XCloseDisplay (XOpenDisplay x); XCloseDisplay (XOpenDisplay x)]
  else
    ({| _idle_threshold_ms := ms; _is_idle := false; _timer_source_id := None;
        _display := Some (XOpenDisplay x);
        _root_window := Some (XDefaultRootWindow x);
        _saver_info := Some (XScreenSaverAllocInfo x);
        _initialized_successfully := true |}, []).

Definition start (poll_interval_seconds : Z) : Op unit :=
  w <- get ;;
  if negb (_initialized_successfully (self w)) then ret tt
  else if match _timer_source_id (self w) with Some _ => true | None => false end
  then ret tt
  else
    let poll_interval_seconds :=
      if poll_interval_seconds <? 1 then 1 else poll_interval_seconds in
    _ <- GLib_idle_add GLib.IdleMonitor_check_idle ;;
    id <- GLib_timeout_add_seconds poll_interval_seconds GLib.IdleMonitor_check_idle ;;
    set_timer_source_id (Some id).

Definition stop : Op unit :=
  w <- get ;;
  match _timer_source_id (self w) with
  | Some id => GLib_source_remove id ;; set_timer_source_id None
  | None => ret tt
  end ;;
  if _initialized_successfully (self w) then
    (if truthy (_saver_info (self w))
     then emit (XFree (handle (_saver_info (self w)))) ;; set_saver_info None
     else ret tt) ;;
    (if truthy (_display (self w))
     then emit (XCloseDisplay (handle (_display (self w)))) ;; set_display None
     else ret tt) ;;
    set_initialized_successfully false
  else ret tt.

(** One poll.  The result tells GLib whether to keep the calling source. *)
Definition _check_idle (q : query) : Op bool :=
  w <- get ;;
  if negb (_initialized_successfully (self w))
     || negb (truthy (_display (self w)))
     || negb (truthy (_saver_info (self w)))
  then ret false
  else
    let keep := match _timer_source_id (self w) with Some _ => true | None => false end in
    match q with
    | QueryRaises => ret keep
    | QueryInfo status current_idle_ms =>
        if status =? 0 then ret true
        else
          let currently_considered_idle := _idle_threshold_ms (self w) <=? current_idle_ms in
          (if currently_considered_idle && negb (_is_idle (self w)) then
             set_is_idle true ;; emit (Emit user_idle)
           else if negb currently_considered_idle && _is_idle (self w) then
             set_is_idle false ;; emit (Emit user_active)
           else ret tt) ;;
          ret keep
    end.

(** One dispatch of source [id] by the main loop, [q] being what the X server
    answers should the callback ask. *)
Definition fire (id : GLib.source_id) (q : query) : Op unit :=
  w <- get ;;
  match GLib.find_source id (loop w) with
  | Some {| GLib.src_callback := GLib.IdleMonitor_check_idle |} =>
      keep <- _check_idle q ;;
      if keep then ret tt else GLib_source_remove id
  | _ => ret tt
  end.

Inductive op : Type :=
| OpStart (poll_interval_seconds : Z)
| OpStop
| OpFire (id : GLib.source_id) (q : query).

Definition perform (o : op) : Op unit :=
  match o with
  | OpStart n => start n
  | OpStop => stop
  | OpFire id q => fire id q
  end.

Fixpoint run (os : list op) : Op unit :=
  match os with
  | [] => ret tt
  | o :: os' => perform o ;; run os'
  end.

(** A run of polls, one query outcome each. *)
Fixpoint polls (qs : list query) : Op unit :=
  match qs with
  | [] => ret tt
  | q :: qs' => _check_idle q ;; polls qs'
  end.

Definition exec {A} (m : Op A) (w : world) : world := final (m w).
Definition emitted {A} (m : Op A) (w : world) : list output := SW.output (m w).

Definition signals (out : list output) : list signal :=
  flat_map (fun o => match o with Emit s => [s] | _ => [] end) out.

Definition construct (idle_threshold_seconds : Z) (x : X11) : world :=
  {| self := fst (__init__ idle_threshold_seconds x); loop := GLib.new |}.

End IdleMonitor.
(** ** mindful_break_app.py: the pause arbiter and the break coordinator

    The application object, the engine it owns and the main loop they share.
    The tray icon, the sound player, the overlay and the dialogs are
    collaborators: calls to them are recorded as outputs.  The idle detector
    reaches the application only through its two signals, which are events
    here.  Every engine method emits its signals after its last assignment, so
    the connected handlers, which GObject runs inside [emit], see the
    engine's final state; [call] runs them in emission order on that state. *)

Module MindfulBreakApp.
Import SW.
Local Open Scope sw_scope.

Definition IDLE_POLL_INTERVAL_SECONDS : Z := 30.

Inductive tray_state : Type :=
| TRAY_RUNNING
| TRAY_PAUSED
| TRAY_IDLE
| TRAY_BREAK
| TRAY_STOPPED
| TRAY_MANUAL_PAUSE.

(** The engine methods the application calls. *)
Inductive engine_method : Type :=
| m_set_interval (minutes : Q)
| m_start
| m_pause
| m_resume
| m_stop
| m_postpone (minutes : Q).

Inductive output : Type :=
| Call (m : engine_method)                 (* self.timer_manager.<m>() is entered *)
| Signal (s : TimerManager.signal)         (* the engine emits s *)
| tray_update_status (st : tray_state) (remaining_seconds : Z)
| play_break_sound
| show_overlay
| open_pause_dialog
| open_set_time_dialog.

Record t : Type := {
  _paused_due_to_idle : bool;
  _manual_pause_timer_id : option GLib.source_id;
  _manual_pause_remaining_seconds : Z
}.

Definition __init__ : t :=
  {| _paused_due_to_idle := false;
     _manual_pause_timer_id := None;
     _manual_pause_remaining_seconds := 0 |}.

Record world : Type := {
  self : t;
  timer_manager : TimerManager.t;
  loop : GLib.MainContext
}.

Definition Op (A : Type) : Type := @M world output A.

Definition update (f : t -> t) : Op unit :=
  modify (fun w => {| self := f (self w); timer_manager := timer_manager w; loop := loop w |}).

Definition set_paused_due_to_idle (v : bool) : Op unit :=
  update (fun s => {| _paused_due_to_idle := v;
                      _manual_pause_timer_id := _manual_pause_timer_id s;
                      _manual_pause_remaining_seconds := _manual_pause_remaining_seconds s |}).

Definition set_manual_pause_timer_id (v : option GLib.source_id) : Op unit :=
  update (fun s => {| _paused_due_to_idle := _paused_due_to_idle s;
                      _manual_pause_timer_id := v;
                      _manual_pause_remaining_seconds := _manual_pause_remaining_seconds s |}).

Definition set_manual_pause_remaining_seconds (v : Z) : Op unit :=
  update (fun s => {| _paused_due_to_idle := _paused_due_to_idle s;
                      _manual_pause_timer_id := _manual_pause_timer_id s;
                      _manual_pause_remaining_seconds := v |}).

Definition GLib_timeout_add_seconds (n : Z) (cb : GLib.callback) : Op GLib.source_id :=
  fun w => let r := GLib.timeout_add_seconds n cb (loop w) in
           (fst r, {| self := self w; timer_manager := timer_manager w; loop := snd r |}, []).

Definition GLib_source_remove (id : GLib.source_id) : Op unit :=
  modify (fun w => {| self := self w; timer_manager := timer_manager w;
                      loop := GLib.source_remove id (loop w) |}).

Definition is_some {A} (v : option A) : bool :=
  match v with Some _ => true | None => false end.

(** *** Timer handlers *)

Definition on_timer_tick (remaining_seconds : Z) : Op unit :=
  w <- get ;;
  if TimerManager.state_eqb (TimerManager._state (timer_manager w)) TimerManager.STATE_RUNNING
  then emit (tray_update_status TRAY_RUNNING remaining_seconds)
  else ret tt.

Definition on_break_started : Op unit :=
  emit play_break_sound ;;
  emit (tray_update_status TRAY_BREAK 0) ;;
  emit show_overlay.

Definition on_timer_paused : Op unit :=
  w <- get ;;
  if is_some (_manual_pause_timer_id (self w)) then ret tt
  else if _paused_due_to_idle (self w)
  then emit (tray_update_status TRAY_IDLE 0)
  else emit (tray_update_status TRAY_PAUSED 0).

Definition _cancel_manual_pause : Op unit :=
  w <- get ;;
  match _manual_pause_timer_id (self w) with
  | Some id =>
      GLib_source_remove id ;;
      set_manual_pause_timer_id None ;;
      set_manual_pause_remaining_seconds 0 ;;
      if TimerManager.state_eqb (TimerManager._state (timer_manager w)) TimerManager.STATE_PAUSED
      then on_timer_paused
      else ret tt
  | None => ret tt
  end.

Definition on_timer_resumed : Op unit :=
  _cancel_manual_pause ;;
  set_paused_due_to_idle false ;;
  w <- get ;;
  emit (tray_update_status TRAY_RUNNING (TimerManager._remaining_seconds (timer_manager w))).

Definition on_timer_stopped : Op unit :=
  _cancel_manual_pause ;;
  set_paused_due_to_idle false ;;
  emit (tray_update_status TRAY_STOPPED 0).

Definition on_timer_started : Op unit :=
  _cancel_manual_pause ;;
  set_paused_due_to_idle false ;;
  w <- get ;;
  emit (tray_update_status TRAY_RUNNING (TimerManager._remaining_seconds (timer_manager w))).

(** The handlers [_connect_signals] connects to the engine's signals. *)
Definition handler (s : TimerManager.signal) : Op unit :=
  match s with
  | TimerManager.timer_tick n => on_timer_tick n
  | TimerManager.break_started => on_break_started
  | TimerManager.timer_paused => on_timer_paused
  | TimerManager.timer_resumed => on_timer_resumed
  | TimerManager.timer_stopped => on_timer_stopped
  | TimerManager.timer_started => on_timer_started
  end.

Fixpoint deliver (sigs : list TimerManager.signal) : Op unit :=
  match sigs with
  | [] => ret tt
  | s :: rest => emit (Signal s) ;; handler s ;; deliver rest
  end.

(** Run a method of the engine on the application's engine and main loop;
    its result and its emissions are returned. *)
Definition engine {A} (m : TimerManager.Op A) : Op (A * list TimerManager.signal) :=
  fun w =>
    let r := m {| TimerManager.self := timer_manager w; TimerManager.loop := loop w |} in
    ((value r, SW.output r),
     {| self := self w;
        timer_manager := TimerManager.self (final r);
        loop := TimerManager.loop (final r) |},
     []).

Definition method (m : engine_method) : TimerManager.Op unit :=
  match m with
  | m_set_interval minutes => TimerManager.set_interval minutes
  | m_start => TimerManager.start
  | m_pause => TimerManager.pause
  | m_resume => TimerManager.resume
  | m_stop => TimerManager.stop
  | m_postpone minutes => TimerManager.postpone minutes
  end.

Definition call (m : engine_method) : Op unit :=
  emit (Call m) ;;
  r <- engine (method m) ;;
  deliver (snd r).

(** *** Idle handlers *)

Definition on_user_idle : Op unit :=
  w <- get ;;
  if is_some (_manual_pause_timer_id (self w)) then ret tt
  else if TimerManager.state_eqb (TimerManager._state (timer_manager w)) TimerManager.STATE_RUNNING
  then set_paused_due_to_idle true ;; call m_pause
  else ret tt.

Definition on_user_active : Op unit :=
  w <- get ;;
  if is_some (_manual_pause_timer_id (self w)) then set_paused_due_to_idle false
  else if TimerManager.state_eqb (TimerManager._state (timer_manager w)) TimerManager.STATE_PAUSED
          && _paused_due_to_idle (self w)
  then call m_resume
  else if _paused_due_to_idle (self w) then set_paused_due_to_idle false
  else ret tt.

(** *** Tray menu, dialog and overlay handlers *)

(** [interval] is what the settings provider returns for the break interval. *)
Definition on_start_timer_requested (interval : Q) : Op unit :=
  call (m_set_interval interval) ;;
  call m_start.

Definition on_resume_timer_requested : Op unit :=
  _cancel_manual_pause ;;
  set_paused_due_to_idle false ;;
  w <- get ;;
  if TimerManager.state_eqb (TimerManager._state (timer_manager w)) TimerManager.STATE_PAUSED
  then call m_resume
  else ret tt.

Definition on_pause_for_requested : Op unit :=
  w <- get ;;
  if is_some (_manual_pause_timer_id (self w)) then ret tt
  else emit open_pause_dialog.

Definition on_set_time_requested : Op unit := emit open_set_time_dialog.

(** [ok] is [response_id == Gtk.ResponseType.OK]; [duration_seconds] is what
    [dialog.get_duration_seconds()] returns. *)
Definition on_set_time_dialog_response (ok : bool) (duration_seconds : Z) : Op unit :=
  if ok then
    if duration_seconds <=? 0 then ret tt
    else call (m_postpone (inject_Z duration_seconds / 60))
  else ret tt.

Definition on_overlay_postponed (minutes : Z) : Op unit :=
  call (m_postpone (inject_Z minutes)).

Definition on_pause_dialog_response (ok : bool) (duration_seconds : Z) : Op unit :=
  if ok then
    if duration_seconds <=? 0 then ret tt
    else
      set_paused_due_to_idle false ;;
      w <- get ;;
      (if TimerManager.state_eqb (TimerManager._state (timer_manager w)) TimerManager.STATE_RUNNING
       then call m_pause else ret tt) ;;
      set_manual_pause_remaining_seconds duration_seconds ;;
      id <- GLib_timeout_add_seconds 1 GLib.App_manual_pause_tick ;;
      set_manual_pause_timer_id (Some id) ;;
      emit (tray_update_status TRAY_MANUAL_PAUSE duration_seconds)
  else ret tt.

(** *** The manual pause countdown *)

Definition _manual_pause_tick : Op bool :=
  w <- get ;;
  if _manual_pause_remaining_seconds (self w) <=? 0 then
    _cancel_manual_pause ;;
    w <- get ;;
    (if TimerManager.state_eqb (TimerManager._state (timer_manager w)) TimerManager.STATE_PAUSED
     then call m_resume else ret tt) ;;
    ret false
  else
    set_manual_pause_remaining_seconds (_manual_pause_remaining_seconds (self w) - 1) ;;
    w <- get ;;
    emit (tray_update_status TRAY_MANUAL_PAUSE (_manual_pause_remaining_seconds (self w))) ;;
    if _manual_pause_remaining_seconds (self w) <=? 0 then
      set_manual_pause_timer_id None ;;
      (if TimerManager.state_eqb (TimerManager._state (timer_manager w)) TimerManager.STATE_PAUSED
       then call m_resume else ret tt) ;;
      ret false
    else ret true.

(** *** The main loop's view *)

(** One dispatch of source [id]: the engine's tick, the manual pause tick, or
    (for a source of the idle detector, whose polls are the [user_idle] and
    [user_active] events) nothing. *)
Definition fire (id : GLib.source_id) : Op unit :=
  w <- get ;;
  match GLib.find_source id (loop w) with
  | Some {| GLib.src_callback := GLib.TimerManager_tick |} =>
      r <- engine TimerManager._tick ;;
      deliver (snd r) ;;
      if fst r then ret tt else GLib_source_remove id
  | Some {| GLib.src_callback := GLib.App_manual_pause_tick |} =>
      keep <- _manual_pause_tick ;;
      if keep then ret tt else GLib_source_remove id
  | _ => ret tt
  end.

Inductive event : Type :=
| start_timer_requested (interval : Q)
| resume_timer_requested
| pause_for_requested
| set_time_requested
| pause_dialog_response (ok : bool) (duration_seconds : Z)
| set_time_dialog_response (ok : bool) (duration_seconds : Z)
| overlay_postponed (minutes : Z)
| user_idle
| user_active
| source_fires (id : GLib.source_id).

Definition handle (e : event) : Op unit :=
  match e with
  | start_timer_requested interval => on_start_timer_requested interval
  | resume_timer_requested => on_resume_timer_requested
  | pause_for_requested => on_pause_for_requested
  | set_time_requested => on_set_time_requested
  | pause_dialog_response ok d => on_pause_dialog_response ok d
  | set_time_dialog_response ok d => on_set_time_dialog_response ok d
  | overlay_postponed minutes => on_overlay_postponed minutes
  | user_idle => on_user_idle
  | user_active => on_user_active
  | source_fires id => fire id
  end.

Fixpoint run (es : list event) : Op unit :=
  match es with
  | [] => ret tt
  | e :: es' => handle e ;; run es'
  end.

Definition exec {A} (m : Op A) (w : world) : world := final (m w).
Definition outputs {A} (m : Op A) (w : world) : list output := SW.output (m w).

Definition calls (out : list output) : list engine_method :=
  flat_map (fun o => match o with Call m => [m] | _ => [] end) out.

Definition signals (out : list output) : list TimerManager.signal :=
  flat_map (fun o => match o with Signal s => [s] | _ => [] end) out.

(** [do_startup]: a new engine with the configured interval, on a new loop. *)
Definition do_startup (initial_interval : Q) : world :=
  exec (engine (TimerManager.set_interval initial_interval))
       {| self := __init__; timer_manager := TimerManager.__init__; loop := GLib.new |}.

(** [do_activate]: the tray shows Stopped and the timer is started. *)
Definition do_activate (interval : Q) : Op unit :=
  emit (tray_update_status TRAY_STOPPED 0) ;;
  on_start_timer_requested interval.

End MindfulBreakApp.
(** ** mindful_break_app.py: the application with its idle detectors

    [MindfulBreakApp] above is the application object's pause bookkeeping, its
    engine and the main loop.  This module adds the rest of the object: the
    idle detector it owns, the two settings it caches, start-up, shutdown and
    the reaction to saved settings.  Detectors are objects on a heap, since a
    stopped detector that the application has dropped is still referenced by
    the sources it attached; [bound] records, for each such source, the
    detector whose [_check_idle] it calls.  What the settings provider returns
    and what the X server answers are inputs of the operations that ask.

    A detector emits only as the last effect of [_check_idle], and the
    handlers connected to it never touch a detector, so running them after the
    detector's method has returned gives the same result as running them
    inside [emit]. *)

Module Application.
Import SW.
Local Open Scope sw_scope.

Inductive output : Type :=
| App (o : MindfulBreakApp.output)            (* the arbiter, the engine, the tray, ... *)
| Detector (i : nat) (o : IdleMonitor.output).  (* detector [i] emits or releases *)

(** A detector object, and whether [on_user_idle] and [on_user_active] are
    connected to its signals. *)
Record detector : Type := {
  obj : IdleMonitor.t;
  connected : bool
}.

Record world : Type := {
  app : MindfulBreakApp.world;
  idle_monitor : option nat;
  _idle_monitor_enabled : bool;
  _idle_threshold_seconds : Z;
  detectors : list detector;
  bound : list (GLib.source_id * nat)
}.

Definition __init__ : world :=
  {| app := {| MindfulBreakApp.self := MindfulBreakApp.__init__;
               MindfulBreakApp.timer_manager := TimerManager.__init__;
               MindfulBreakApp.loop := GLib.new |};
     idle_monitor := None;
     _idle_monitor_enabled := true;
     _idle_threshold_seconds := 120;
     detectors := [];
     bound := [] |}.

Definition Op (A : Type) : Type := @M world output A.

Definition set_idle_monitor (v : option nat) : Op unit :=
  modify (fun w => {| app := app w; idle_monitor := v;
                      _idle_monitor_enabled := _idle_monitor_enabled w;
                      _idle_threshold_seconds := _idle_threshold_seconds w;
                      detectors := detectors w; bound := bound w |}).

Definition set_idle_monitor_enabled (v : bool) : Op unit :=
  modify (fun w => {| app := app w; idle_monitor := idle_monitor w;
                      _idle_monitor_enabled := v;
                      _idle_threshold_seconds := _idle_threshold_seconds w;
                      detectors := detectors w; bound := bound w |}).

Definition set_idle_threshold_seconds (v : Z) : Op unit :=
  modify (fun w => {| app := app w; idle_monitor := idle_monitor w;
                      _idle_monitor_enabled := _idle_monitor_enabled w;
                      _idle_threshold_seconds := v;
                      detectors := detectors w; bound := bound w |}).

(** Run a handler or method of the arbiter on the application's own part. *)
Definition lift {A} (m : MindfulBreakApp.Op A) : Op A :=
  fun w =>
    match m (app w) with
    | (a, s, o) =>
        (a,
         {| app := s; idle_monitor := idle_monitor w;
            _idle_monitor_enabled := _idle_monitor_enabled w;
            _idle_threshold_seconds := _idle_threshold_seconds w;
            detectors := detectors w; bound := bound w |},
         map App o)
    end.

(** *** The detectors *)

Fixpoint set_nth {A} (i : nat) (a : A) (l : list A) : list A :=
  match l, i with
  | [], _ => []
  | _ :: l', O => a :: l'
  | b :: l', S i' => b :: set_nth i' a l'
  end.

(** The ids of the sources attached between two states of the main loop. *)
Definition attached (before after : GLib.MainContext) : list GLib.source_id :=
  map GLib.src_id
      (filter (fun s => negb (Pos.ltb (GLib.src_id s) (GLib.next_source_id before)))
              (GLib.sources after)).

Definition with_loop (c : GLib.MainContext) (a : MindfulBreakApp.world) : MindfulBreakApp.world :=
  {| MindfulBreakApp.self := MindfulBreakApp.self a;
     MindfulBreakApp.timer_manager := MindfulBreakApp.timer_manager a;
     MindfulBreakApp.loop := c |}.

(** Run a method of detector [i] on the application's main loop.  The result
    is the method's, with the signals that reach the application; the sources
    the method attaches are bound to detector [i]. *)
Definition detector_call {A} (i : nat) (m : IdleMonitor.Op A)
  : Op (option A * list IdleMonitor.signal) :=
  fun w =>
    match nth_error (detectors w) i with
    | Some d =>
        match m {| IdleMonitor.self := obj d;
                   IdleMonitor.loop := MindfulBreakApp.loop (app w) |} with
        | (a, s, o) =>
            ((Some a, if connected d then IdleMonitor.signals o else []),
             {| app := with_loop (IdleMonitor.loop s) (app w);
                idle_monitor := idle_monitor w;
                _idle_monitor_enabled := _idle_monitor_enabled w;
                _idle_threshold_seconds := _idle_threshold_seconds w;
                detectors :=
                  set_nth i {| obj := IdleMonitor.self s; connected := connected d |}
                          (detectors w);
                bound := bound w ++
                  map (fun id => (id, i))
                      (attached (MindfulBreakApp.loop (app w)) (IdleMonitor.loop s)) |},
             map (Detector i) o)
        end
    | None => ((None, []), w, [])
    end.

(** The handlers [_connect_signals] and [_update_idle_monitor_state] connect
    to a detector's signals. *)
Definition on_signal (s : IdleMonitor.signal) : Op unit :=
  match s with
  | IdleMonitor.user_idle => lift MindfulBreakApp.on_user_idle
  | IdleMonitor.user_active => lift MindfulBreakApp.on_user_active
  end.

Fixpoint deliver (sigs : list IdleMonitor.signal) : Op unit :=
  match sigs with
  | [] => ret tt
  | s :: rest => on_signal s ;; deliver rest
  end.

Definition detector_method {A} (i : nat) (m : IdleMonitor.Op A) : Op (option A) :=
  r <- detector_call i m ;;
  deliver (snd r) ;;
  ret (fst r).

(** [self.idle_monitor = IdleMonitor(idle_threshold_seconds=...)]. *)
Definition new_idle_monitor (idle_threshold_seconds : Z) (x : IdleMonitor.X11) : Op nat :=
  fun w =>
    match IdleMonitor.__init__ idle_threshold_seconds x with
    | (m, o) =>
        let i := length (detectors w) in
        (i,
         {| app := app w; idle_monitor := Some i;
            _idle_monitor_enabled := _idle_monitor_enabled w;
            _idle_threshold_seconds := _idle_threshold_seconds w;
            detectors := detectors w ++ [{| obj := m; connected := false |}];
            bound := bound w |},
         map (Detector i) o)
    end.

(** [self.idle_monitor._initialized_successfully] *)
Definition initialized (i : nat) : Op bool :=
  w <- get ;;
  ret match nth_error (detectors w) i with
      | Some d => IdleMonitor._initialized_successfully (obj d)
      | None => false
      end.

Definition connect (i : nat) : Op unit :=
  modify (fun w =>
    {| app := app w; idle_monitor := idle_monitor w;
       _idle_monitor_enabled := _idle_monitor_enabled w;
       _idle_threshold_seconds := _idle_threshold_seconds w;
       detectors :=
         match nth_error (detectors w) i with
         | Some d => set_nth i {| obj := obj d; connected := true |} (detectors w)
         | None => detectors w
         end;
       bound := bound w |}).

(** *** Start-up and shutdown *)

(** The idle detector's part of [_connect_signals]; the engine's and the
    tray's signals are connected by construction of [MindfulBreakApp.call] and
    of [handle] below. *)
Definition _connect_signals : Op unit :=
  w <- get ;;
  match idle_monitor w with
  | Some i =>
      ok <- initialized i ;;
      if ok then connect i else ret tt
  | None => ret tt
  end.

(** [initial_interval], [enabled] and [threshold] are what the settings
    provider returns for the break interval, the idle switch and the idle
    threshold; [x] is what the X server answers the detector's constructor. *)
Definition do_startup (initial_interval : Q) (enabled : bool) (threshold : Z)
    (x : IdleMonitor.X11) : Op unit :=
  lift (MindfulBreakApp.engine (TimerManager.set_interval initial_interval)) ;;
  set_idle_monitor None ;;
  set_idle_monitor_enabled enabled ;;
  set_idle_threshold_seconds threshold ;;
  w <- get ;;
  (if _idle_monitor_enabled w then
     i <- new_idle_monitor (_idle_threshold_seconds w) x ;;
     ok <- initialized i ;;
     if ok then
       detector_method i (IdleMonitor.start MindfulBreakApp.IDLE_POLL_INTERVAL_SECONDS) ;;
       ret tt
     else set_idle_monitor None
   else ret tt) ;;
  _connect_signals.

Definition do_activate (interval : Q) : Op unit :=
  lift (MindfulBreakApp.do_activate interval).

Definition do_shutdown : Op unit :=
  lift MindfulBreakApp._cancel_manual_pause ;;
  lift (MindfulBreakApp.call MindfulBreakApp.m_stop) ;;
  w <- get ;;
  match idle_monitor w with
  | Some i => detector_method i IdleMonitor.stop ;; ret tt
  | None => ret tt
  end.

(** *** Saved settings *)

(** [new_enabled_state] and [new_threshold] are what the settings provider
    returns; [x] is what the X server answers if a detector is constructed. *)
Definition _update_idle_monitor_state (new_enabled_state : bool) (new_threshold : Z)
    (x : IdleMonitor.X11) : Op unit :=
  let update_and_start : Op unit :=
    set_idle_monitor_enabled new_enabled_state ;;
    set_idle_threshold_seconds new_threshold ;;
    w <- get ;;
    if _idle_monitor_enabled w then
      match idle_monitor w with
      | None =>
          i <- new_idle_monitor (_idle_threshold_seconds w) x ;;
          ok <- initialized i ;;
          if ok then
            connect i ;;
            detector_method i
              (IdleMonitor.start MindfulBreakApp.IDLE_POLL_INTERVAL_SECONDS) ;;
            ret tt
          else set_idle_monitor None
      | Some _ => ret tt
      end
    else lift (MindfulBreakApp.set_paused_due_to_idle false) in
  w <- get ;;
  match idle_monitor w with
  | Some i =>
      let needs_restart :=
        negb (Bool.eqb (_idle_monitor_enabled w) new_enabled_state)
        || (new_enabled_state && negb (_idle_threshold_seconds w =? new_threshold)) in
      if needs_restart || negb new_enabled_state then
        detector_method i IdleMonitor.stop ;;
        set_idle_monitor None ;;
        update_and_start
      else ret tt
  | None => update_and_start
  end.

Definition on_settings_saved (new_interval : Z) (new_enabled_state : bool)
    (new_threshold : Z) (x : IdleMonitor.X11) : Op unit :=
  lift (MindfulBreakApp.call (MindfulBreakApp.m_set_interval (inject_Z new_interval))) ;;
  w <- get ;;
  (if TimerManager.state_eqb
        (TimerManager._state (MindfulBreakApp.timer_manager (app w)))
        TimerManager.STATE_STOPPED
   then emit (App (MindfulBreakApp.tray_update_status MindfulBreakApp.TRAY_STOPPED 0))
   else ret tt) ;;
  _update_idle_monitor_state new_enabled_state new_threshold x.

(** *** The main loop's view *)

Definition owner (id : GLib.source_id) (w : world) : option nat :=
  match find (fun p => Pos.eqb (fst p) id) (bound w) with
  | Some p => Some (snd p)
  | None => None
  end.

(** One dispatch of source [id]; [q] is what the X server answers should the
    callback be a detector's poll. *)
Definition fire (id : GLib.source_id) (q : IdleMonitor.query) : Op unit :=
  w <- get ;;
  match GLib.find_source id (MindfulBreakApp.loop (app w)) with
  | Some {| GLib.src_callback := GLib.IdleMonitor_check_idle |} =>
      match owner id w with
      | Some i =>
          keep <- detector_method i (IdleMonitor._check_idle q) ;;
          match keep with
          | Some true => ret tt
          | _ => lift (MindfulBreakApp.GLib_source_remove id)
          end
      | None => ret tt
      end
  | Some _ => lift (MindfulBreakApp.fire id)
  | None => ret tt
  end.

Inductive event : Type :=
| activate (interval : Q)
| start_timer_requested (interval : Q)
| resume_timer_requested
| pause_for_requested
| set_time_requested
| pause_dialog_response (ok : bool) (duration_seconds : Z)
| set_time_dialog_response (ok : bool) (duration_seconds : Z)
| overlay_postponed (minutes : Z)
| settings_saved (new_interval : Z) (enabled : bool) (threshold : Z) (x : IdleMonitor.X11)
| shutdown
| source_fires (id : GLib.source_id) (q : IdleMonitor.query).

Definition handle (e : event) : Op unit :=
  match e with
  | activate interval => do_activate interval
  | start_timer_requested interval =>
      lift (MindfulBreakApp.on_start_timer_requested interval)
  | resume_timer_requested => lift MindfulBreakApp.on_resume_timer_requested
  | pause_for_requested => lift MindfulBreakApp.on_pause_for_requested
  | set_time_requested => lift MindfulBreakApp.on_set_time_requested
  | pause_dialog_response ok d => lift (MindfulBreakApp.on_pause_dialog_response ok d)
  | set_time_dialog_response ok d =>
      lift (MindfulBreakApp.on_set_time_dialog_response ok d)
  | overlay_postponed minutes => lift (MindfulBreakApp.on_overlay_postponed minutes)
  | settings_saved i e t x => on_settings_saved i e t x
  | shutdown => do_shutdown
  | source_fires id q => fire id q
  end.

Fixpoint run (es : list event) : Op unit :=
  match es with
  | [] => ret tt
  | e :: es' => handle e ;; run es'
  end.

Definition exec {A} (m : Op A) (w : world) : world := final (m w).
Definition outputs {A} (m : Op A) (w : world) : list output := SW.output (m w).

(** The engine methods called, and the signals the detectors emitted. *)
Definition calls (out : list output) : list MindfulBreakApp.engine_method :=
  flat_map (fun o => match o with App (MindfulBreakApp.Call m) => [m] | _ => [] end) out.

Definition idle_signals (out : list output) : list IdleMonitor.signal :=
  flat_map (fun o => match o with
                     | Detector _ (IdleMonitor.Emit s) => [s]
                     | _ => []
                     end) out.

Definition engine (w : world) : TimerManager.t := MindfulBreakApp.timer_manager (app w).
Definition loop (w : world) : GLib.MainContext := MindfulBreakApp.loop (app w).

End Application.
(** ** The duration dialog (pause_duration_dialog.py)

    The dialog serves both "Pause for..." and "Set Remaining Time".  Of the
    widget only what [get_duration_seconds] reads is modelled: the spin
    button's [get_value_as_int()], which returns an integer or raises. *)

Module PauseDurationDialog.

Inductive get_value_as_int : Type :=
| Returns (minutes : Z)
| Raises.

Record t : Type := { spin_duration : get_value_as_int }.

Definition get_duration_seconds (self : t) : Z :=
  let minutes := match spin_duration self with
                 | Returns v => v
                 | Raises => 0
                 end in
  Z.max 1 (minutes * 60).

End PauseDurationDialog.

(** ** Properties of the countdown engine, stated *)

Module TimerManagerSpec.
Import SW TimerManager.

(** The data-model invariant of the countdown state. *)
Definition values_ok (s : t) : Prop :=
  0 <= _configured_interval_seconds s /\
  match _state s with
  | STATE_STOPPED => _remaining_seconds s = _configured_interval_seconds s
  | STATE_RUNNING | STATE_PAUSED => 1 <= _remaining_seconds s
  | STATE_BREAK_ACTIVE => _remaining_seconds s = 0
  end.

(** Worlds a new engine on a new main loop can get to. *)
Inductive reachable : world -> Prop :=
| reach_init : reachable fresh_world
| reach_step w o : reachable w -> reachable (exec (perform o) w).

(** The same, once [set_interval] has been called with a positive duration. *)
Inductive reachable_configured : world -> Prop :=
| reach_set_interval w minutes :
    reachable w -> (0 < minutes)%Q ->
    reachable_configured (exec (set_interval minutes) w)
| reach_configured_step w o :
    reachable_configured w -> reachable_configured (exec (perform o) w).

(** The engine's timer and the main loop agree: the stored id is live with
    the tick callback, only while RUNNING, and the loop holds nothing else. *)
Definition owns_its_timer (w : world) : Prop :=
  GLib.fresh (loop w) /\
  (forall id, _timer_source_id (self w) = Some id ->
     _state (self w) = STATE_RUNNING /\
     GLib.find_source id (loop w)
     = Some {| GLib.src_id := id; GLib.src_interval := Some 1;
               GLib.src_callback := GLib.TimerManager_tick |}) /\
  (forall id s, GLib.find_source id (loop w) = Some s -> _timer_source_id (self w) = Some id).

Definition with_remaining (v : Z) (s : t) : t :=
  {| _state := _state s;
     _timer_source_id := _timer_source_id s;
     _remaining_seconds := v;
     _configured_interval_seconds := _configured_interval_seconds s |}.

Definition is_tick_source (s : GLib.source) : Prop :=
  GLib.src_callback s = GLib.TimerManager_tick.

Definition pause_or_resume (o : op) : Prop :=
  match o with
  | OpPause | OpResume => True
  | _ => False
  end.

Definition count_stopped (l : list signal) : nat :=
  length (filter (fun s => match s with timer_stopped => true | _ => false end) l).

(** "For every sequence composed only of pause() and resume() calls ... the
    remaining seconds are unchanged at the end of the sequence". *)
Definition pause_resume_preserve_remaining : Prop :=
  forall w os,
    reachable w -> Forall pause_or_resume os ->
    _remaining_seconds (self (exec (run os) w)) = _remaining_seconds (self w).

(** "Only the 1-second tick, postpone, and start modify remainingSeconds". *)
Definition only_tick_postpone_start_modify : Prop :=
  forall w o,
    reachable w ->
    _remaining_seconds (self (exec (perform o) w)) <> _remaining_seconds (self w) ->
    match o with
    | OpFire _ | OpPostpone _ | OpStart => True
    | _ => False
    end.

Definition pause_resume_frame_as_stated : Prop :=
  pause_resume_preserve_remaining /\ only_tick_postpone_start_modify.

(** "From any starting state, calling stop() twice in a row emits the stopped
    event exactly once." *)
Definition stop_twice_emits_once : Prop :=
  forall w, reachable w -> count_stopped (emitted (run [OpStop; OpStop]) w) = 1%nat.

End TimerManagerSpec.
(** ** Properties of the idle detector, stated *)

Module IdleMonitorSpec.
Import SW IdleMonitor.

(** The guard at the top of [_check_idle] lets the poll through. *)
Definition operational (s : t) : bool :=
  _initialized_successfully s && truthy (_display s) && truthy (_saver_info s).

(** What a poll measures: [Some true] at or above the threshold, [Some false]
    below it, [None] when the query fails (it raises, or its status is 0). *)
Definition measured (s : t) (q : query) : option bool :=
  match q with
  | QueryRaises => None
  | QueryInfo status idle =>
      if status =? 0 then None else Some (_idle_threshold_ms s <=? idle)
  end.

(** The event of a change of [isIdle], if any. *)
Definition crossing (before after : bool) : list signal :=
  match before, after with
  | false, true => [user_idle]
  | true, false => [user_active]
  | _, _ => []
  end.

(** The specification's edge detector over a sequence of measurements:
    [becameIdle] on false->true, [becameActive] on true->false, nothing on
    a poll that leaves the state unchanged, and a failed query keeps the
    previous state. *)
Fixpoint edge_events (is_idle : bool) (ms : list (option bool)) : list signal :=
  match ms with
  | [] => []
  | None :: rest => edge_events is_idle rest
  | Some now :: rest => crossing is_idle now ++ edge_events now rest
  end.

(** Worlds a newly constructed detector on a new main loop can get to. *)
Inductive reachable : world -> Prop :=
| reach_construct threshold x : reachable (construct threshold x)
| reach_step w o : reachable w -> reachable (exec (perform o) w).

(** A live source of a detector that is still initialized belongs to a
    detector that has been started. *)
Definition started_if_polling (w : world) : Prop :=
  forall id s,
    GLib.find_source id (loop w) = Some s ->
    _initialized_successfully (self w) = true ->
    _timer_source_id (self w) <> None.

Definition stopped (s : t) : Prop :=
  _initialized_successfully s = false /\ _timer_source_id s = None.

End IdleMonitorSpec.
(** ** Properties of the pause arbiter, stated *)

Module MindfulBreakAppSpec.
Import SW MindfulBreakApp.

(** What can happen during a manual pause without the user cancelling it: the
    idle detector reports a transition, or the main loop dispatches a source. *)
Definition idle_or_timer (e : event) : Prop :=
  match e with
  | user_idle | user_active | source_fires _ => True
  | _ => False
  end.

Definition manual_source (id : GLib.source_id) : GLib.source :=
  {| GLib.src_id := id; GLib.src_interval := Some 1;
     GLib.src_callback := GLib.App_manual_pause_tick |}.

(** Source [id] is live on [c] and its callback is [_manual_pause_tick]. *)
Definition is_manual_source_id (c : GLib.MainContext) (id : GLib.source_id) : bool :=
  match GLib.find_source id c with
  | Some {| GLib.src_callback := GLib.App_manual_pause_tick |} => true
  | _ => false
  end.

(** How many events of a run dispatch a manual pause countdown of [c]. *)
Fixpoint manual_fires (c : GLib.MainContext) (es : list event) : nat :=
  match es with
  | [] => 0
  | source_fires id :: rest =>
      if is_manual_source_id c id then S (manual_fires c rest) else manual_fires c rest
  | _ :: rest => manual_fires c rest
  end.

(** The situation during a manual pause requested with [D] seconds while
    [r] seconds remained, after [k] dispatches of a countdown: the engine is
    paused with [r] seconds, [D - k] seconds of pause are left, and the
    main loop has lost no countdown source, and gained no source, since it
    was [c1]. *)
Definition manual_pause_active
    (c1 : GLib.MainContext) (r : Z) (mid : GLib.source_id) (D k : Z) (w : world) : Prop :=
  TimerManager._state (timer_manager w) = TimerManager.STATE_PAUSED /\
  TimerManager._remaining_seconds (timer_manager w) = r /\
  _manual_pause_timer_id (self w) = Some mid /\
  _manual_pause_remaining_seconds (self w) = D - k /\
  (forall id s, GLib.find_source id (loop w) = Some s -> GLib.find_source id c1 = Some s) /\
  (forall id s, GLib.find_source id c1 = Some s ->
                GLib.src_callback s = GLib.App_manual_pause_tick ->
                GLib.find_source id (loop w) = Some s).

(** Worlds the application can get to after [do_startup]. *)
Inductive reachable : world -> Prop :=
| reach_startup interval : reachable (do_startup interval)
| reach_handle w e : reachable w -> reachable (exec (handle e) w).

(** The engine's data-model invariant and the freshness of source ids. *)
Definition well_formed (w : world) : Prop :=
  TimerManagerSpec.values_ok (timer_manager w) /\ GLib.fresh (loop w).

(** [m] keeps [P], whatever it returns. *)
Definition preserves {A} (P : world -> Prop) (m : Op A) : Prop :=
  forall w, P w -> P (final (m w)).

(** Scenario D of the specification: a 60-second interval, 20 seconds into the
    countdown; then a 10-second manual pause during which the user is reported
    idle and active again. *)
Definition scenario_D_world : world :=
  exec (run (start_timer_requested 1 :: repeat (source_fires 1%positive) 20)) (do_startup 1).

Definition scenario_D_events : list event :=
  [source_fires 2%positive; source_fires 2%positive; source_fires 2%positive; user_idle;
   source_fires 2%positive; source_fires 1%positive; user_active; user_idle;
   source_fires 2%positive; source_fires 2%positive; source_fires 2%positive;
   source_fires 2%positive; source_fires 2%positive].

End MindfulBreakAppSpec.
(** ** Further properties of the countdown engine, stated *)

Module TimerManagerMore.
Import SW TimerManager.

(** Source [id] drives a countdown of [n] seconds from [w0]: it stays RUNNING
    while fewer than [n] dispatches have happened, each dispatch emitting the
    seconds left, and the [n]-th dispatch announces the break. *)
Definition counts_down_to_break (n : Z) (id : GLib.source_id) (w0 : world) : Prop :=
  (forall k, (Z.of_nat k < n) ->
     let wk := exec (run (repeat (OpFire id) k)) w0 in
     _state (self wk) = STATE_RUNNING /\
     _remaining_seconds (self wk) = n - Z.of_nat k /\
     emitted (run (repeat (OpFire id) k)) w0
     = map (fun i => timer_tick (n - Z.of_nat i)) (seq 1 k)) /\
  (let wn := exec (run (repeat (OpFire id) (Z.to_nat n))) w0 in
   _state (self wn) = STATE_BREAK_ACTIVE /\
   _remaining_seconds (self wn) = 0 /\
   _timer_source_id (self wn) = None /\
   GLib.find_source id (loop wn) = None /\
   emitted (run (repeat (OpFire id) (Z.to_nat n))) w0
   = map (fun i => timer_tick (n - Z.of_nat i)) (seq 1 (Z.to_nat n - 1)) ++ [break_started]).

Definition tick_source (id : GLib.source_id) : GLib.source :=
  {| GLib.src_id := id; GLib.src_interval := Some 1;
     GLib.src_callback := GLib.TimerManager_tick |}.

(** On a main loop shared with other components: the engine's stored timer
    is live, only while RUNNING, and no other live source calls [_tick]. *)
Definition engine_owns_ticks (s : t) (c : GLib.MainContext) : Prop :=
  (forall id, _timer_source_id s = Some id ->
     _state s = STATE_RUNNING /\ GLib.find_source id c = Some (tick_source id)) /\
  (forall id s', GLib.find_source id c = Some s' ->
     GLib.src_callback s' = GLib.TimerManager_tick -> _timer_source_id s = Some id).

(** What a component may do to the shared main loop: remove or attach
    sources, never change one, and never remove a source whose callback is
    [protected]. *)
Definition loop_frame (protected : GLib.callback -> Prop) (c c' : GLib.MainContext) : Prop :=
  (GLib.next_source_id c <= GLib.next_source_id c')%positive /\
  (forall id s, GLib.find_source id c' = Some s ->
     GLib.find_source id c = Some s \/ (GLib.next_source_id c <= id)%positive) /\
  (forall id s, GLib.find_source id c = Some s ->
     protected (GLib.src_callback s) -> GLib.find_source id c' = Some s).

Definition not_tick (cb : GLib.callback) : Prop := cb <> GLib.TimerManager_tick.

End TimerManagerMore.
(** ** Further properties of the idle detector, stated *)

Module IdleMonitorMore.
Import SW IdleMonitor.

(** The X server answers all three calls of the constructor. *)
Definition available (x : X11) : bool :=
  negb (XOpenDisplay x =? 0) && negb (XDefaultRootWindow x =? 0)
  && negb (XScreenSaverAllocInfo x =? 0).

(** The calls that release an X resource, in order. *)
Definition releases (out : list output) : list output :=
  filter (fun o => match o with Emit _ => false | _ => true end) out.

Definition stops (os : list op) : bool :=
  existsb (fun o => match o with OpStop => true | _ => false end) os.

(** The two sources [start] attaches. *)
Definition immediate_check (id : GLib.source_id) : GLib.source :=
  {| GLib.src_id := id; GLib.src_interval := None;
     GLib.src_callback := GLib.IdleMonitor_check_idle |}.

Definition periodic_check (id : GLib.source_id) (seconds : Z) : GLib.source :=
  {| GLib.src_id := id; GLib.src_interval := Some seconds;
     GLib.src_callback := GLib.IdleMonitor_check_idle |}.

(** The detector holds display [d] and result structure [p]. *)
Definition holds (d p : Z) (s : t) : Prop :=
  _initialized_successfully s = true /\
  _display s = Some d /\ d <> 0 /\ _saver_info s = Some p /\ p <> 0.

End IdleMonitorMore.
(** ** Further properties of the arbiter, stated *)

Module MindfulBreakAppMore.
Import SW MindfulBreakApp.

(** Source id [fst p] has been handed out, and as long as it is live its
    callback is [snd p]. *)
Definition pinned (p : GLib.source_id * GLib.callback) (c : GLib.MainContext) : Prop :=
  (fst p < GLib.next_source_id c)%positive /\
  forall s, GLib.find_source (fst p) c = Some s -> GLib.src_callback s = snd p.

Definition is_check_idle (cb : GLib.callback) : Prop := cb = GLib.IdleMonitor_check_idle.

(** The invariant of the arbiter on a main loop it shares with the idle
    detectors, relative to an earlier state [c0] of the loop: the engine's
    data-model invariant, fresh source ids, the engine's hold on its timer, a
    manual pause id that can only name a manual pause countdown, and no
    detector source of [c0] lost or changed. *)
Definition consistent (c0 : GLib.MainContext) (w : world) : Prop :=
  TimerManagerSpec.values_ok (timer_manager w) /\
  GLib.fresh (loop w) /\
  TimerManagerMore.engine_owns_ticks (timer_manager w) (loop w) /\
  (forall mid, _manual_pause_timer_id (self w) = Some mid ->
     pinned (mid, GLib.App_manual_pause_tick) (loop w)) /\
  TimerManagerMore.loop_frame is_check_idle c0 (loop w).

(** The engine has [r] seconds left. *)
Definition time_left (r : Z) (w : world) : Prop :=
  TimerManagerSpec.values_ok (timer_manager w) /\
  TimerManager._remaining_seconds (timer_manager w) = r.

(** What the arbiter shows while [k] more seconds are counted down:
    second by second, the engine's [timer_tick] and the tray update it
    causes, from [k] down to 1. *)
Fixpoint countdown_display (k : nat) : list output :=
  match k with
  | O => []
  | S k' =>
      Signal (TimerManager.timer_tick (Z.of_nat k))
      :: tray_update_status TRAY_RUNNING (Z.of_nat k) :: countdown_display k'
  end.

(** How a break is announced. *)
Definition break_announcement : list output :=
  [Signal TimerManager.break_started; play_break_sound;
   tray_update_status TRAY_BREAK 0; show_overlay].

(** No live source of [c] is a manual pause countdown. *)
Definition no_manual_source (c : GLib.MainContext) : bool :=
  forallb (fun s => match GLib.src_callback s with
                    | GLib.App_manual_pause_tick => false
                    | _ => true
                    end) (GLib.sources c).

End MindfulBreakAppMore.
(** ** Properties of the application as a whole, stated *)

Module ApplicationSpec.
Import SW Application.

(** Worlds the application can get to: start-up, then any sequence of
    requests, responses, saved settings, dispatches and a shutdown. *)
Inductive reachable : world -> Prop :=
| reach_startup interval enabled threshold x :
    reachable (exec (do_startup interval enabled threshold x) __init__)
| reach_handle w e : reachable w -> reachable (exec (handle e) w).

(** [m] keeps [P], whatever it returns. *)
Definition preserves {A} (P : world -> Prop) (m : Op A) : Prop :=
  forall w, P w -> P (final (m w)).

(** The arbiter's invariant, without reference to an earlier loop. *)
Definition app_sound (a : MindfulBreakApp.world) : Prop :=
  TimerManagerSpec.values_ok (MindfulBreakApp.timer_manager a) /\
  GLib.fresh (MindfulBreakApp.loop a) /\
  TimerManagerMore.engine_owns_ticks (MindfulBreakApp.timer_manager a) (MindfulBreakApp.loop a) /\
  (forall mid, MindfulBreakApp._manual_pause_timer_id (MindfulBreakApp.self a) = Some mid ->
     MindfulBreakAppMore.pinned (mid, GLib.App_manual_pause_tick) (MindfulBreakApp.loop a)).

(** The periodic poll the application starts a detector with. *)
Definition poll_source (t : GLib.source_id) : GLib.source :=
  IdleMonitorMore.periodic_check t MindfulBreakApp.IDLE_POLL_INTERVAL_SECONDS.

(** Detector [i] of the heap is in order: it is stopped unless it is the
    application's current detector; a stored timer is its own live periodic
    poll; and while initialized it can poll, is connected to the handlers and
    has its timer. *)
Definition detector_ok (w : world) (i : nat) (d : detector) : Prop :=
  (idle_monitor w <> Some i -> IdleMonitorSpec.stopped (obj d)) /\
  (forall t, IdleMonitor._timer_source_id (obj d) = Some t ->
     IdleMonitor._initialized_successfully (obj d) = true /\
     GLib.find_source t (loop w) = Some (poll_source t) /\
     owner t w = Some i) /\
  (IdleMonitor._initialized_successfully (obj d) = true ->
     IdleMonitorSpec.operational (obj d) = true /\
     connected d = true /\
     IdleMonitor._timer_source_id (obj d) <> None).

(** The invariant of the application. *)
Definition sound (w : world) : Prop :=
  app_sound (app w) /\
  (forall p, In p (bound w) -> (fst p < GLib.next_source_id (loop w))%positive) /\
  (forall i d, nth_error (detectors w) i = Some d -> detector_ok w i d) /\
  (forall i, idle_monitor w = Some i -> (i < length (detectors w))%nat).

(** The application's current detector, if it has one that is running. *)
Definition current_detector (w : world) : option (nat * detector) :=
  match idle_monitor w with
  | Some i =>
      match nth_error (detectors w) i with
      | Some d => Some (i, d)
      | None => None
      end
  | None => None
  end.

Definition dispatch (e : event) : Prop :=
  match e with
  | source_fires _ _ => True
  | _ => False
  end.

(** A detector that was constructed with all three X calls answered and then
    started; [t] is its periodic timer. *)
Definition started_detector (threshold : Z) (x : IdleMonitor.X11) (t : GLib.source_id)
  : IdleMonitor.t :=
  {| IdleMonitor._idle_threshold_ms := (if threshold <? 1 then 1 else threshold) * 1000;
     IdleMonitor._is_idle := false;
     IdleMonitor._timer_source_id := Some t;
     IdleMonitor._display := Some (IdleMonitor.XOpenDisplay x);
     IdleMonitor._root_window := Some (IdleMonitor.XDefaultRootWindow x);
     IdleMonitor._saver_info := Some (IdleMonitor.XScreenSaverAllocInfo x);
     IdleMonitor._initialized_successfully := true |}.

(** The main loop after [IdleMonitor.start(IDLE_POLL_INTERVAL_SECONDS)]. *)
Definition start_checks (c : GLib.MainContext) : GLib.MainContext :=
  snd (GLib.timeout_add_seconds MindfulBreakApp.IDLE_POLL_INTERVAL_SECONDS
         GLib.IdleMonitor_check_idle
         (snd (GLib.idle_add GLib.IdleMonitor_check_idle c))).

(** The application once it has constructed a detector and, as start-up and
    [_update_idle_monitor_state] both do, connected and started it if it
    initialized, dropped it otherwise. *)
Definition with_new_detector (threshold : Z) (x : IdleMonitor.X11) (w : world) : world :=
  let n := length (detectors w) in
  let id0 := GLib.next_source_id (loop w) in
  if IdleMonitorMore.available x then
    {| app := with_loop (start_checks (loop w)) (app w);
       idle_monitor := Some n;
       _idle_monitor_enabled := _idle_monitor_enabled w;
       _idle_threshold_seconds := _idle_threshold_seconds w;
       detectors := detectors w ++
         [{| obj := started_detector threshold x (Pos.succ id0); connected := true |}];
       bound := bound w ++ [(id0, n); (Pos.succ id0, n)] |}
  else
    {| app := app w;
       idle_monitor := None;
       _idle_monitor_enabled := _idle_monitor_enabled w;
       _idle_threshold_seconds := _idle_threshold_seconds w;
       detectors := detectors w ++
         [{| obj := fst (IdleMonitor.__init__ threshold x); connected := false |}];
       bound := bound w |}.

(** The signals the engine emitted. *)
Definition engine_signals (out : list output) : list TimerManager.signal :=
  flat_map (fun o => match o with
                     | App (MindfulBreakApp.Signal s) => [s]
                     | _ => []
                     end) out.

(** The application is shut down: the engine is STOPPED without a timer, no
    manual pause is tracked, and every detector is stopped. *)
Definition shut_down (w : world) : Prop :=
  TimerManager._state (engine w) = TimerManager.STATE_STOPPED /\
  TimerManager._timer_source_id (engine w) = None /\
  TimerManager._remaining_seconds (engine w)
  = TimerManager._configured_interval_seconds (engine w) /\
  MindfulBreakApp._manual_pause_timer_id (MindfulBreakApp.self (app w)) = None /\
  (forall j dj, nth_error (detectors w) j = Some dj -> IdleMonitorSpec.stopped (obj dj)).

(** Detector object [s] after a poll that measured [now]. *)
Definition with_is_idle (now : bool) (s : IdleMonitor.t) : IdleMonitor.t :=
  {| IdleMonitor._idle_threshold_ms := IdleMonitor._idle_threshold_ms s;
     IdleMonitor._is_idle := now;
     IdleMonitor._timer_source_id := IdleMonitor._timer_source_id s;
     IdleMonitor._display := IdleMonitor._display s;
     IdleMonitor._root_window := IdleMonitor._root_window s;
     IdleMonitor._saver_info := IdleMonitor._saver_info s;
     IdleMonitor._initialized_successfully := IdleMonitor._initialized_successfully s |}.

Definition with_detector (i : nat) (d : detector) (w : world) : world :=
  {| app := app w; idle_monitor := idle_monitor w;
     _idle_monitor_enabled := _idle_monitor_enabled w;
     _idle_threshold_seconds := _idle_threshold_seconds w;
     detectors := set_nth i d (detectors w); bound := bound w |}.

(** The countdown is paused with [r] seconds left and nothing is left that
    would resume it: no idle pause is recorded, no manual pause is tracked
    or counting in the main loop, and there is no current detector. *)
Definition paused_without_cause (r : Z) (w : world) : Prop :=
  TimerManager._state (engine w) = TimerManager.STATE_PAUSED /\
  TimerManager._remaining_seconds (engine w) = r /\
  MindfulBreakApp._paused_due_to_idle (MindfulBreakApp.self (app w)) = false /\
  MindfulBreakApp._manual_pause_timer_id (MindfulBreakApp.self (app w)) = None /\
  MindfulBreakAppMore.no_manual_source (loop w) = true /\
  idle_monitor w = None.

End ApplicationSpec.


(** ** Facts about the main loop *)

Module GLibFacts.
Import GLib.

Lemma fresh_new : fresh new.
Proof. constructor. Qed.

Lemma fresh_attach interval cb c : fresh c -> fresh (snd (attach interval cb c)).
Proof.
  unfold fresh, attach; cbn; intros H.
  apply Forall_app; split.
  - eapply Forall_impl; [|exact H]. cbn; intros; lia.
  - repeat constructor; cbn; lia.
Qed.

Lemma fresh_source_remove id c : fresh c -> fresh (source_remove id c).
Proof.
  unfold fresh, source_remove; cbn; intros H.
  rewrite Forall_forall in *; intros s Hs.
  apply filter_In in Hs; apply H, Hs.
Qed.

Lemma find_source_fresh c : fresh c -> find_source (next_source_id c) c = None.
Proof.
  unfold fresh, find_source; intros H.
  induction (sources c) as [|s l IH]; cbn; [reflexivity|].
  inversion H; subst.
  destruct (Pos.eqb_spec (src_id s) (next_source_id c)); [lia|auto].
Qed.

Lemma find_app_none {A} (f : A -> bool) l1 l2 :
  find f l1 = None -> find f (l1 ++ l2) = find f l2.
Proof.
  induction l1 as [|a l1 IH]; cbn; [reflexivity|].
  destruct (f a); [discriminate|exact IH].
Qed.

Lemma find_app_some {A} (f : A -> bool) l1 l2 a :
  find f l1 = Some a -> find f (l1 ++ l2) = Some a.
Proof.
  induction l1 as [|b l1 IH]; cbn; [discriminate|].
  destruct (f b); [intros; assumption|exact IH].
Qed.

Lemma find_source_attach_new interval cb c :
  fresh c ->
  find_source (next_source_id c) (snd (attach interval cb c))
  = Some {| src_id := next_source_id c; src_interval := interval; src_callback := cb |}.
Proof.
  intros H. unfold find_source, attach; cbn.
  rewrite find_app_none by (apply find_source_fresh, H).
  cbn. rewrite Pos.eqb_refl. reflexivity.
Qed.

Lemma find_source_attach_old interval cb c id :
  id <> next_source_id c ->
  find_source id (snd (attach interval cb c)) = find_source id c.
Proof.
  intros Hne. unfold find_source, attach; cbn.
  destruct (find (fun s => Pos.eqb (src_id s) id) (sources c)) eqn:E.
  - erewrite find_app_some; eauto.
  - rewrite find_app_none by assumption. cbn.
    destruct (Pos.eqb_spec (next_source_id c) id); congruence.
Qed.

Lemma find_source_remove_same id c : find_source id (source_remove id c) = None.
Proof.
  unfold find_source, source_remove; cbn.
  induction (sources c) as [|s l IH]; cbn; [reflexivity|].
  destruct (Pos.eqb_spec (src_id s) id) as [E|E]; cbn; [exact IH|].
  destruct (Pos.eqb_spec (src_id s) id); [contradiction|exact IH].
Qed.

Lemma find_source_remove_other id id' c :
  id <> id' -> find_source id (source_remove id' c) = find_source id c.
Proof.
  intros Hne. unfold find_source, source_remove; cbn.
  induction (sources c) as [|s l IH]; cbn; [reflexivity|].
  destruct (Pos.eqb_spec (src_id s) id') as [E|E]; cbn.
  - destruct (Pos.eqb_spec (src_id s) id); [congruence|exact IH].
  - destruct (Pos.eqb_spec (src_id s) id); [reflexivity|exact IH].
Qed.

Lemma find_source_id id c s : find_source id c = Some s -> src_id s = id.
Proof.
  unfold find_source; intros H. apply find_some in H.
  destruct H as [_ H]. apply Pos.eqb_eq, H.
Qed.

Lemma find_source_lt id c s :
  fresh c -> find_source id c = Some s -> (id < next_source_id c)%positive.
Proof.
  unfold fresh, find_source; intros Hf H. apply find_some in H.
  destruct H as [Hin H]. apply Pos.eqb_eq in H. subst id.
  rewrite Forall_forall in Hf. apply Hf, Hin.
Qed.

Lemma find_source_remove_some id id' c s :
  find_source id' (source_remove id c) = Some s ->
  find_source id' c = Some s.
Proof.
  destruct (Pos.eq_dec id' id) as [->|Hne].
  - rewrite find_source_remove_same. discriminate.
  - rewrite find_source_remove_other by assumption. auto.
Qed.

End GLibFacts.

(** ** Rounding *)

Lemma py_round_inject (n : Z) : py_round (inject_Z n) = n.
Proof.
  unfold py_round. rewrite Qfloor_Z.
  replace (Qcompare (inject_Z n - inject_Z n) (1 # 2)) with Lt; [reflexivity|].
  symmetry. apply Qlt_alt. setoid_replace (inject_Z n - inject_Z n)%Q with 0%Q by ring.
  reflexivity.
Qed.

Lemma to_seconds_pos (m : Q) : 1 <= TimerManager.to_seconds m.
Proof.
  unfold TimerManager.to_seconds. destruct (Z.ltb_spec (py_round (m * 60)) 1); lia.
Qed.

Example to_seconds_tenth : TimerManager.to_seconds (1 # 10) = 6.
Proof. reflexivity. Qed.

Example to_seconds_five : TimerManager.to_seconds 5 = 300.
Proof. reflexivity. Qed.

Example to_seconds_half_even : TimerManager.to_seconds (1 # 24) = 2 /\ TimerManager.to_seconds (7 # 120) = 4.
Proof. split; reflexivity. Qed.

Example to_seconds_clamped : TimerManager.to_seconds 0 = 1 /\ TimerManager.to_seconds (-3) = 1.
Proof. split; reflexivity. Qed.

(** ** The countdown engine *)

Module TimerManagerFacts.
Import SW TimerManager TimerManagerSpec.

Ltac unfold_engine :=
  unfold exec, emitted, final, output, value, perform,
    set_interval, start, pause, resume, stop, postpone, fire, _tick,
    _enter_break_state, _stop_internal_timer,
    GLib_timeout_add_seconds, GLib_source_remove,
    set_state, set_timer_source_id, set_remaining_seconds,
    set_configured_interval_seconds,
    bind, ret, get, modify, emit.

Ltac split_source :=
  match goal with
  | |- context [GLib.find_source ?id ?c] =>
      destruct (GLib.find_source id c) as [[? ? []]|]
  end.

Lemma values_ok_init : values_ok __init__.
Proof. cbv. intuition discriminate. Qed.

Lemma values_ok_perform o w :
  values_ok (self w) -> values_ok (self (exec (perform o) w)).
Proof.
  destruct w as [[st tid rem conf] c]; unfold values_ok; cbn.
  intros [Hc Hv].
  destruct o; unfold_engine; cbn.
  - pose proof (to_seconds_pos minutes). destruct st; cbn; lia.
  - destruct tid; cbn; destruct (Z.leb_spec conf 0); cbn; destruct st; cbn; lia.
  - destruct st; cbn; try lia; destruct tid; cbn; lia.
  - destruct st; cbn; try lia. destruct (Z.ltb_spec 0 rem); cbn; lia.
  - destruct tid, st; cbn; lia.
  - pose proof (to_seconds_pos minutes). destruct tid; cbn; lia.
  - split_source; cbn; try lia;
      destruct st; cbn; try lia;
      destruct (Z.ltb_spec 0 (rem - 1)); cbn; lia.
Qed.

Lemma reachable_values_ok w : reachable w -> values_ok (self w).
Proof.
  induction 1; [exact values_ok_init|]. apply values_ok_perform; assumption.
Qed.

Lemma set_interval_configured minutes w :
  1 <= _configured_interval_seconds (self (exec (set_interval minutes) w)).
Proof.
  destruct w as [[st tid rem conf] c]. unfold_engine; cbn.
  pose proof (to_seconds_pos minutes). destruct st; cbn; lia.
Qed.

Lemma configured_perform o w :
  1 <= _configured_interval_seconds (self w) ->
  1 <= _configured_interval_seconds (self (exec (perform o) w)).
Proof.
  destruct w as [[st tid rem conf] c]; cbn. intros Hc.
  destruct o; unfold_engine; cbn.
  - pose proof (to_seconds_pos minutes). destruct st; cbn; lia.
  - destruct tid; cbn; destruct (Z.leb_spec conf 0); cbn; lia.
  - destruct st; cbn; try lia; destruct tid; cbn; lia.
  - destruct st; cbn; try lia. destruct (Z.ltb_spec 0 rem); cbn; lia.
  - destruct tid, st; cbn; lia.
  - destruct tid; cbn; lia.
  - split_source; cbn; try lia;
      destruct st; cbn; try lia;
      destruct (Z.ltb_spec 0 (rem - 1)); cbn; lia.
Qed.

Lemma reachable_configured_inv w :
  reachable_configured w ->
  values_ok (self w) /\ 1 <= _configured_interval_seconds (self w).
Proof.
  induction 1 as [w m Hr Hm | w o Hr [IHv IHc]].
  - split.
    + apply (values_ok_perform (OpSetInterval m)), reachable_values_ok, Hr.
    + apply set_interval_configured.
  - split; [apply values_ok_perform|apply configured_perform]; assumption.
Qed.

Lemma reachable_configured_reachable w : reachable_configured w -> reachable w.
Proof.
  induction 1 as [w m Hr Hm | w o Hr IH].
  - apply (reach_step (OpSetInterval m)), Hr.
  - apply reach_step, IH.
Qed.

(** *** The engine and its timer source *)

#[local] Arguments GLib.find_source : simpl never.
#[local] Arguments GLib.source_remove : simpl never.
#[local] Arguments GLib.timeout_add_seconds : simpl never.

Lemma no_source_after_remove c tid :
  (forall id s, GLib.find_source id c = Some s -> Some tid = Some id) ->
  forall id s, GLib.find_source id (GLib.source_remove tid c) = Some s -> False.
Proof.
  intros H id s Hf.
  pose proof (GLibFacts.find_source_remove_some _ _ _ Hf) as Hf'.
  apply H in Hf'. inversion Hf'; subst.
  rewrite GLibFacts.find_source_remove_same in Hf. discriminate.
Qed.

Lemma only_source_after_attach c id s :
  GLib.fresh c ->
  (forall id' s', GLib.find_source id' c = Some s' -> False) ->
  GLib.find_source id (snd (GLib.timeout_add_seconds 1 GLib.TimerManager_tick c)) = Some s ->
  Some (GLib.next_source_id c) = Some id.
Proof.
  intros Hf Hnone Hs. destruct (Pos.eq_dec id (GLib.next_source_id c)) as [->|Hne];
    [reflexivity|].
  unfold GLib.timeout_add_seconds in Hs.
  rewrite GLibFacts.find_source_attach_old in Hs by exact Hne.
  destruct (Hnone _ _ Hs).
Qed.

Lemma owns_its_timer_perform o w :
  owns_its_timer w -> owns_its_timer (exec (perform o) w).
Proof.
  destruct w as [[st tid rem conf] c]; unfold owns_its_timer; cbn.
  intros (Hf & Hlive & Honly).
  assert (Hrm : forall t0, tid = Some t0 ->
            forall id s, GLib.find_source id (GLib.source_remove t0 c) = Some s -> False).
  { intros t0 ->. apply no_source_after_remove, Honly. }
  assert (Hnone : tid = None -> forall id s, GLib.find_source id c = Some s -> False).
  { intros -> id s Hs. apply Honly in Hs. discriminate. }
  assert (Hnew : forall c', GLib.fresh c' -> GLib.next_source_id c' = GLib.next_source_id c ->
            (forall id s, GLib.find_source id c' = Some s -> False) ->
            GLib.fresh (snd (GLib.timeout_add_seconds 1 GLib.TimerManager_tick c')) /\
            (forall id, Some (GLib.next_source_id c) = Some id ->
               STATE_RUNNING = STATE_RUNNING /\
               GLib.find_source id (snd (GLib.timeout_add_seconds 1 GLib.TimerManager_tick c'))
               = Some {| GLib.src_id := id; GLib.src_interval := Some 1;
                         GLib.src_callback := GLib.TimerManager_tick |}) /\
            (forall id s,
               GLib.find_source id (snd (GLib.timeout_add_seconds 1 GLib.TimerManager_tick c'))
               = Some s -> Some (GLib.next_source_id c) = Some id)).
  { intros c' Hf' Hn Hno. split; [apply GLibFacts.fresh_attach, Hf'|]. split.
    - intros id E. inversion E; subst. split; [reflexivity|].
      rewrite <- Hn. apply GLibFacts.find_source_attach_new, Hf'.
    - intros id s Hs. rewrite <- Hn. eapply only_source_after_attach; eauto. }
  assert (Hoff : forall st' t0, tid = Some t0 ->
            GLib.fresh (GLib.source_remove t0 c) /\
            (forall id, None = Some id ->
               st' = STATE_RUNNING /\
               GLib.find_source id (GLib.source_remove t0 c)
               = Some {| GLib.src_id := id; GLib.src_interval := Some 1;
                         GLib.src_callback := GLib.TimerManager_tick |}) /\
            (forall id s, GLib.find_source id (GLib.source_remove t0 c) = Some s ->
                          None = Some id)).
  { intros st' t0 E. split; [apply GLibFacts.fresh_source_remove, Hf|]. split.
    - discriminate.
    - intros id s Hs. destruct (Hrm _ E _ _ Hs). }
  assert (Hidle : forall st', tid = None ->
            GLib.fresh c /\
            (forall id, None = Some id ->
               st' = STATE_RUNNING /\
               GLib.find_source id c
               = Some {| GLib.src_id := id; GLib.src_interval := Some 1;
                         GLib.src_callback := GLib.TimerManager_tick |}) /\
            (forall id s, GLib.find_source id c = Some s -> None = Some id)).
  { intros st' E. split; [exact Hf|]. split.
    - discriminate.
    - intros id s Hs. destruct (Hnone E _ _ Hs). }
  pose proof (conj Hf (conj Hlive Honly)) as Hsame.
  destruct o; unfold_engine; cbn.
  - destruct st; cbn; exact Hsame.
  - destruct tid as [t0|]; cbn; destruct (Z.leb_spec conf 0); cbn.
    + apply (Hoff st t0 eq_refl).
    + apply Hnew; [apply GLibFacts.fresh_source_remove, Hf|reflexivity|apply (Hrm t0 eq_refl)].
    + exact Hsame.
    + apply Hnew; [exact Hf|reflexivity|apply (Hnone eq_refl)].
  - destruct st; cbn; try exact Hsame. destruct tid as [t0|]; cbn.
    + apply (Hoff STATE_PAUSED t0 eq_refl).
    + apply (Hidle STATE_PAUSED eq_refl).
  - destruct st; cbn; try exact Hsame.
    assert (E : tid = None).
    { destruct tid as [t0|]; [|reflexivity]. destruct (Hlive _ eq_refl); discriminate. }
    subst tid.
    destruct (Z.ltb_spec 0 rem); cbn.
    + apply Hnew; [exact Hf|reflexivity|apply (Hnone eq_refl)].
    + apply (Hidle STATE_BREAK_ACTIVE eq_refl).
  - destruct tid as [t0|]; destruct st; cbn;
      first [apply (Hoff STATE_STOPPED t0 eq_refl) | apply (Hidle STATE_STOPPED eq_refl)].
  - destruct tid as [t0|]; cbn.
    + apply Hnew; [apply GLibFacts.fresh_source_remove, Hf|reflexivity|apply (Hrm t0 eq_refl)].
    + apply Hnew; [exact Hf|reflexivity|apply (Hnone eq_refl)].
  - destruct (GLib.find_source id c) as [[i iv cb]|] eqn:Hs; cbn; [|exact Hsame].
    pose proof (Honly _ _ Hs) as E. destruct (Hlive _ E) as [Hst Hl]. subst.
    rewrite Hs in Hl. inversion Hl; subst. cbn.
    destruct (Z.ltb_spec 0 (rem - 1)); cbn; [exact Hsame|].
    apply (Hoff STATE_BREAK_ACTIVE id eq_refl).
Qed.

Lemma owns_its_timer_init : owns_its_timer fresh_world.
Proof.
  split; [exact GLibFacts.fresh_new|]. split; intros; discriminate.
Qed.

(** In every reachable world the main loop holds the engine's timer exactly
    when the engine stores its id, and only while RUNNING: the countdown never
    runs on two timers, and never outside RUNNING. *)
Lemma reachable_owns_its_timer w : reachable w -> owns_its_timer w.
Proof.
  induction 1; [exact owns_its_timer_init|]. apply owns_its_timer_perform; assumption.
Qed.

Lemma fresh_perform o w :
  GLib.fresh (loop w) -> GLib.fresh (loop (exec (perform o) w)).
Proof.
  destruct w as [[st tid rem conf] c]; cbn. intros Hf.
  assert (Hrm : forall t0, GLib.fresh (GLib.source_remove t0 c))
    by (intros; apply GLibFacts.fresh_source_remove, Hf).
  assert (Hadd : forall c', GLib.fresh c' ->
            GLib.fresh (snd (GLib.timeout_add_seconds 1 GLib.TimerManager_tick c')))
    by (intros; apply GLibFacts.fresh_attach; assumption).
  destruct o; unfold_engine; cbn.
  - destruct st; exact Hf.
  - destruct tid; cbn; destruct (conf <=? 0); cbn; auto.
  - destruct st; cbn; auto. destruct tid; cbn; auto.
  - destruct st; cbn; auto. destruct (0 <? rem); cbn; auto.
  - destruct tid, st; cbn; auto.
  - destruct tid; cbn; auto.
  - destruct (GLib.find_source id c) as [[i iv []]|]; cbn; auto.
    destruct st; cbn; auto. destruct (0 <? rem - 1); cbn; auto.
Qed.

Lemma tick_keeps_invariants w :
  values_ok (self w) -> GLib.fresh (loop w) ->
  values_ok (self (exec _tick w)) /\ GLib.fresh (loop (exec _tick w)).
Proof.
  destruct w as [[st tid rem conf] c]; unfold values_ok; cbn. intros [Hc Hv] Hf.
  unfold_engine; cbn.
  destruct st; cbn; auto.
  destruct (Z.ltb_spec 0 (rem - 1)); cbn; split; auto; lia.
Qed.

(** *** What one dispatch of the engine's timer does *)

Lemma fire_tick_running id w s :
  GLib.find_source id (loop w) = Some s -> is_tick_source s ->
  _state (self w) = STATE_RUNNING ->
  fire id w =
  if 0 <? _remaining_seconds (self w) - 1 then
    (tt, {| self := with_remaining (_remaining_seconds (self w) - 1) (self w); loop := loop w |},
     [timer_tick (_remaining_seconds (self w) - 1)])
  else
    (tt, {| self := {| _state := STATE_BREAK_ACTIVE; _timer_source_id := None;
                       _remaining_seconds := 0;
                       _configured_interval_seconds := _configured_interval_seconds (self w) |};
            loop := GLib.source_remove id (loop w) |},
     [break_started]).
Proof.
  destruct w as [[st tid rem conf] c], s as [i iv cb]; unfold is_tick_source; cbn.
  intros Hf Hcb Hst; subst.
  unfold_engine; cbn. rewrite Hf; cbn.
  destruct (0 <? rem - 1); reflexivity.
Qed.

Lemma run_cons o os w :
  run (o :: os) w =
  (tt, final (run os (final (perform o w))),
   output (perform o w) ++ output (run os (final (perform o w)))).
Proof.
  cbn [run]. unfold bind, final, output.
  destruct (perform o w) as [[[] w1] out1]; cbn.
  destruct (run os w1) as [[[] w'] out']. reflexivity.
Qed.

Lemma run_fires_running k : forall id w s,
  GLib.find_source id (loop w) = Some s -> is_tick_source s ->
  _state (self w) = STATE_RUNNING ->
  Z.of_nat k < _remaining_seconds (self w) ->
  run (repeat (OpFire id) k) w =
  (tt, {| self := with_remaining (_remaining_seconds (self w) - Z.of_nat k) (self w);
          loop := loop w |},
   map (fun i => timer_tick (_remaining_seconds (self w) - Z.of_nat i)) (seq 1 k)).
Proof.
  induction k as [|k IH]; intros id w s Hf Hcb Hst Hlt.
  - destruct w as [[st tid rem conf] c]; cbn. unfold ret, with_remaining; cbn.
    rewrite Z.sub_0_r. reflexivity.
  - cbn [repeat]. rewrite run_cons. cbn [perform].
    rewrite (fire_tick_running id w Hf Hcb Hst).
    destruct (Z.ltb_spec 0 (_remaining_seconds (self w) - 1)); [|lia].
    unfold final, output; cbn [fst snd].
    rewrite (IH id _ s); cbn [self loop with_remaining _state _remaining_seconds];
      [ | exact Hf | exact Hcb | exact Hst | lia ].
    cbn [fst snd]. unfold with_remaining;
      cbn [_state _timer_source_id _remaining_seconds _configured_interval_seconds].
    replace (_remaining_seconds (self w) - 1 - Z.of_nat k)
      with (_remaining_seconds (self w) - Z.of_nat (S k)) by lia.
    f_equal. cbn [seq map app]. f_equal; try (f_equal; lia).
    rewrite <- (seq_shift k 1), map_map. apply map_ext. intros i. f_equal. lia.
Qed.

Lemma start_after_set_interval minutes w :
  GLib.fresh (loop w) ->
  let id := GLib.next_source_id (loop w) in
  let w0 := exec start (exec (set_interval minutes) w) in
  emitted start (exec (set_interval minutes) w)
  = [timer_started; timer_tick (to_seconds minutes)] /\
  self w0 =
    {| _state := STATE_RUNNING; _timer_source_id := Some id;
       _remaining_seconds := to_seconds minutes;
       _configured_interval_seconds := to_seconds minutes |} /\
  GLib.find_source id (loop w0)
  = Some {| GLib.src_id := id; GLib.src_interval := Some 1;
            GLib.src_callback := GLib.TimerManager_tick |} /\
  GLib.fresh (loop w0) /\
  GLib.next_source_id (loop w0) = Pos.succ id.
Proof.
  destruct w as [[st tid rem conf] c]; cbn. intros Hf.
  pose proof (to_seconds_pos minutes) as Hpos.
  unfold_engine; cbn.
  destruct st, tid as [t0|]; cbn;
    destruct (Z.leb_spec (to_seconds minutes) 0); try lia; cbn;
    repeat split;
    solve [ apply (GLibFacts.find_source_attach_new (Some 1) GLib.TimerManager_tick
                     (GLibFacts.fresh_source_remove t0 Hf))
          | apply (GLibFacts.find_source_attach_new (Some 1) GLib.TimerManager_tick Hf)
          | apply (GLibFacts.fresh_attach (Some 1) GLib.TimerManager_tick
                     (GLibFacts.fresh_source_remove t0 Hf))
          | apply (GLibFacts.fresh_attach (Some 1) GLib.TimerManager_tick Hf) ].
Qed.

Lemma run_app l1 : forall l2 w,
  run (l1 ++ l2) w =
  (tt, final (run l2 (final (run l1 w))),
   output (run l1 w) ++ output (run l2 (final (run l1 w)))).
Proof.
  induction l1 as [|o l1 IH]; intros l2 w.
  - cbn. unfold ret, final, output; cbn.
    destruct (run l2 w) as [[[] w'] out]. reflexivity.
  - cbn [app]. rewrite !run_cons, IH. unfold final, output; cbn [fst snd].
    rewrite app_assoc. reflexivity.
Qed.

Lemma pause_running w :
  _state (self w) = STATE_RUNNING ->
  pause w =
  (tt, {| self := {| _state := STATE_PAUSED; _timer_source_id := None;
                     _remaining_seconds := _remaining_seconds (self w);
                     _configured_interval_seconds := _configured_interval_seconds (self w) |};
          loop := match _timer_source_id (self w) with
                  | Some id => GLib.source_remove id (loop w)
                  | None => loop w
                  end |},
   [timer_paused]).
Proof.
  destruct w as [[st tid rem conf] c]; cbn. intros ->.
  unfold_engine; cbn. destruct tid; reflexivity.
Qed.

Lemma resume_paused w :
  _state (self w) = STATE_PAUSED -> 0 < _remaining_seconds (self w) ->
  resume w =
  (tt, {| self := {| _state := STATE_RUNNING;
                     _timer_source_id := Some (GLib.next_source_id (loop w));
                     _remaining_seconds := _remaining_seconds (self w);
                     _configured_interval_seconds := _configured_interval_seconds (self w) |};
          loop := snd (GLib.timeout_add_seconds 1 GLib.TimerManager_tick (loop w)) |},
   [timer_resumed; timer_tick (_remaining_seconds (self w))]).
Proof.
  destruct w as [[st tid rem conf] c]; cbn. intros -> Hr.
  unfold_engine; cbn. destruct (Z.ltb_spec 0 rem); [reflexivity|lia].
Qed.

Lemma set_interval_spec minutes w :
  set_interval minutes w =
  (tt, {| self := {| _state := _state (self w);
                     _timer_source_id := _timer_source_id (self w);
                     _remaining_seconds :=
                       if state_eqb (_state (self w)) STATE_STOPPED
                       then to_seconds minutes else _remaining_seconds (self w);
                     _configured_interval_seconds := to_seconds minutes |};
          loop := loop w |}, []).
Proof.
  destruct w as [[st tid rem conf] c]. unfold_engine; cbn. destruct st; reflexivity.
Qed.

(** *** Scenario A *)

(** C1. After [set_interval(0.1)] (6 s) and [start()] the engine has emitted
    [timer_started] and then [timer_tick 6]; each of the next five firings of
    its timer lowers the remaining seconds by one and emits that value; the
    sixth firing emits [break_started] alone, leaves the engine in
    BREAK_ACTIVE with 0 seconds remaining, and no [timer_tick 0] is emitted. *)
Theorem scenario_A_six_ticks (w : world) :
  GLib.fresh (loop w) ->
  let id := GLib.next_source_id (loop w) in
  let w0 := exec start (exec (set_interval (1 # 10)) w) in
  let w5 := exec (run (repeat (OpFire id) 5)) w0 in
  let w6 := exec (run (repeat (OpFire id) 6)) w0 in
  emitted (set_interval (1 # 10)) w = [] /\
  emitted start (exec (set_interval (1 # 10)) w) = [timer_started; timer_tick 6] /\
  _state (self w0) = STATE_RUNNING /\
  _remaining_seconds (self w0) = 6 /\
  (forall k, (k <= 5)%nat ->
     let wk := exec (run (repeat (OpFire id) k)) w0 in
     _state (self wk) = STATE_RUNNING /\
     _remaining_seconds (self wk) = 6 - Z.of_nat k /\
     emitted (run (repeat (OpFire id) k)) w0
     = map (fun i => timer_tick (6 - Z.of_nat i)) (seq 1 k)) /\
  emitted (fire id) w5 = [break_started] /\
  emitted (run (repeat (OpFire id) 6)) w0
  = [timer_tick 5; timer_tick 4; timer_tick 3; timer_tick 2; timer_tick 1; break_started] /\
  _state (self w6) = STATE_BREAK_ACTIVE /\
  _remaining_seconds (self w6) = 0 /\
  GLib.find_source id (loop w6) = None.
Proof.
  intros Hf id w0 w5 w6.
  destruct (start_after_set_interval (1 # 10) w Hf) as (Hem & Hself & Hfind & _ & _).
  change (to_seconds (1 # 10)) with 6 in Hem, Hself.
  fold id in Hself, Hfind. fold w0 in Hself, Hfind.
  assert (Hs : is_tick_source {| GLib.src_id := id; GLib.src_interval := Some 1;
                                 GLib.src_callback := GLib.TimerManager_tick |})
    by reflexivity.
  assert (Hst : _state (self w0) = STATE_RUNNING) by (rewrite Hself; reflexivity).
  assert (Hrem : _remaining_seconds (self w0) = 6) by (rewrite Hself; reflexivity).
  assert (Hk : forall k, (k <= 5)%nat ->
             run (repeat (OpFire id) k) w0
             = (tt, {| self := with_remaining (6 - Z.of_nat k) (self w0); loop := loop w0 |},
                map (fun i => timer_tick (6 - Z.of_nat i)) (seq 1 k))).
  { intros k Hle. rewrite (run_fires_running k id w0 Hfind Hs Hst) by lia.
    rewrite Hrem. reflexivity. }
  assert (H5 : w5 = {| self := with_remaining 1 (self w0); loop := loop w0 |}).
  { unfold w5, exec. rewrite Hk by lia. reflexivity. }
  assert (Hlast : fire id w5
                  = (tt, {| self := {| _state := STATE_BREAK_ACTIVE; _timer_source_id := None;
                                       _remaining_seconds := 0;
                                       _configured_interval_seconds := 6 |};
                            loop := GLib.source_remove id (loop w0) |},
                     [break_started])).
  { rewrite H5. erewrite fire_tick_running; cbn; eauto.
    rewrite Hself; reflexivity. }
  assert (H6 : run (repeat (OpFire id) 6) w0
               = (tt, {| self := {| _state := STATE_BREAK_ACTIVE; _timer_source_id := None;
                                    _remaining_seconds := 0;
                                    _configured_interval_seconds := 6 |};
                         loop := GLib.source_remove id (loop w0) |},
                  [timer_tick 5; timer_tick 4; timer_tick 3; timer_tick 2; timer_tick 1;
                   break_started])).
  { change (repeat (OpFire id) 6) with (repeat (OpFire id) 5 ++ [OpFire id]).
    assert (Hk5 : run (repeat (OpFire id) 5) w0
                  = (tt, w5, [timer_tick 5; timer_tick 4; timer_tick 3; timer_tick 2;
                              timer_tick 1])).
    { rewrite H5, Hk by lia. reflexivity. }
    rewrite run_app, Hk5. unfold final, output; cbn [fst snd].
    rewrite run_cons. cbn [perform run]. rewrite Hlast.
    reflexivity. }
  repeat split.
  - unfold emitted. rewrite set_interval_spec. reflexivity.
  - exact Hem.
  - exact Hst.
  - exact Hrem.
  - unfold exec. rewrite Hk by assumption. exact Hst.
  - unfold exec. rewrite Hk by assumption. reflexivity.
  - unfold emitted. rewrite Hk by assumption. reflexivity.
  - unfold emitted. rewrite Hlast. reflexivity.
  - unfold emitted. rewrite H6. reflexivity.
  - unfold w6, exec. rewrite H6. reflexivity.
  - unfold w6, exec. rewrite H6. reflexivity.
  - unfold w6, exec. rewrite H6. cbn. apply GLibFacts.find_source_remove_same.
Qed.

Lemma scenario_A_six_ticks_witness :
  GLib.fresh (loop fresh_world) /\
  emitted (run (repeat (OpFire 1%positive) 6))
          (exec start (exec (set_interval (1 # 10)) fresh_world))
  = [timer_tick 5; timer_tick 4; timer_tick 3; timer_tick 2; timer_tick 1; break_started].
Proof.
  split.
  - exact GLibFacts.fresh_new.
  - exact (proj1 (proj2 (proj2 (proj2 (proj2 (proj2 (proj2
             (scenario_A_six_ticks fresh_world GLibFacts.fresh_new)))))))).
Defined.

(** *** Scenario B *)

(** C8. With a 60-second interval, [start()], two timer firings (58 seconds
    remain), [pause()] and [resume()]: [resume()] emits [timer_resumed] and
    then [timer_tick 58], and the first firing of the new timer emits
    [timer_tick 57] and leaves 57 seconds remaining. *)
Theorem scenario_B_pause_resume (w : world) :
  GLib.fresh (loop w) ->
  let id := GLib.next_source_id (loop w) in
  let w0 := exec start (exec (set_interval 1) w) in
  let w2 := exec (run [OpFire id; OpFire id]) w0 in
  let w3 := exec pause w2 in
  let w4 := exec resume w3 in
  let id' := GLib.next_source_id (loop w3) in
  let w5 := exec (fire id') w4 in
  _configured_interval_seconds (self w0) = 60 /\
  emitted start (exec (set_interval 1) w) = [timer_started; timer_tick 60] /\
  emitted (run [OpFire id; OpFire id]) w0 = [timer_tick 59; timer_tick 58] /\
  (_state (self w2) = STATE_RUNNING /\ _remaining_seconds (self w2) = 58) /\
  emitted pause w2 = [timer_paused] /\
  (_state (self w3) = STATE_PAUSED /\ _remaining_seconds (self w3) = 58) /\
  emitted resume w3 = [timer_resumed; timer_tick 58] /\
  (_state (self w4) = STATE_RUNNING /\ _remaining_seconds (self w4) = 58) /\
  emitted (fire id') w4 = [timer_tick 57] /\
  (_state (self w5) = STATE_RUNNING /\ _remaining_seconds (self w5) = 57).
Proof.
  intros Hf id w0 w2 w3 w4 id' w5.
  destruct (start_after_set_interval 1 w Hf) as (Hem & Hself & Hfind & Hfresh0 & Hnext0).
  change (to_seconds 1) with 60 in Hem, Hself.
  fold id in Hself, Hfind, Hnext0. fold w0 in Hself, Hfind, Hfresh0, Hnext0.
  assert (Hs : is_tick_source {| GLib.src_id := id; GLib.src_interval := Some 1;
                                 GLib.src_callback := GLib.TimerManager_tick |})
    by reflexivity.
  assert (Hst : _state (self w0) = STATE_RUNNING) by (rewrite Hself; reflexivity).
  assert (Hrem : _remaining_seconds (self w0) = 60) by (rewrite Hself; reflexivity).
  assert (H2 : run [OpFire id; OpFire id] w0
               = (tt, {| self := with_remaining 58 (self w0); loop := loop w0 |},
                  [timer_tick 59; timer_tick 58])).
  { change [OpFire id; OpFire id] with (repeat (OpFire id) 2).
    rewrite (run_fires_running 2 id w0 Hfind Hs Hst) by lia.
    rewrite Hrem. reflexivity. }
  assert (E2 : w2 = {| self := with_remaining 58 (self w0); loop := loop w0 |}).
  { unfold w2, exec. rewrite H2. reflexivity. }
  assert (H3 : pause w2
               = (tt, {| self := {| _state := STATE_PAUSED; _timer_source_id := None;
                                    _remaining_seconds := 58;
                                    _configured_interval_seconds := 60 |};
                         loop := GLib.source_remove id (loop w0) |},
                  [timer_paused])).
  { rewrite pause_running; rewrite E2; cbn; rewrite Hself; reflexivity. }
  assert (E3 : w3 = {| self := {| _state := STATE_PAUSED; _timer_source_id := None;
                                  _remaining_seconds := 58;
                                  _configured_interval_seconds := 60 |};
                       loop := GLib.source_remove id (loop w0) |}).
  { unfold w3, exec. rewrite H3. reflexivity. }
  assert (H4 : resume w3
               = (tt, {| self := {| _state := STATE_RUNNING; _timer_source_id := Some id';
                                    _remaining_seconds := 58;
                                    _configured_interval_seconds := 60 |};
                         loop := snd (GLib.timeout_add_seconds 1 GLib.TimerManager_tick
                                        (loop w3)) |},
                  [timer_resumed; timer_tick 58])).
  { rewrite resume_paused; [|rewrite E3; reflexivity|rewrite E3; cbn; lia].
    unfold id'. rewrite E3. reflexivity. }
  assert (E4 : w4 = {| self := {| _state := STATE_RUNNING; _timer_source_id := Some id';
                                  _remaining_seconds := 58;
                                  _configured_interval_seconds := 60 |};
                       loop := snd (GLib.timeout_add_seconds 1 GLib.TimerManager_tick
                                      (loop w3)) |}).
  { unfold w4, exec. rewrite H4. reflexivity. }
  assert (Hfind4 : GLib.find_source id' (loop w4)
                   = Some {| GLib.src_id := id'; GLib.src_interval := Some 1;
                             GLib.src_callback := GLib.TimerManager_tick |}).
  { rewrite E4; cbn [loop]. apply GLibFacts.find_source_attach_new.
    rewrite E3; cbn [loop]. apply GLibFacts.fresh_source_remove, Hfresh0. }
  assert (H5 : fire id' w4
               = (tt, {| self := with_remaining 57 (self w4); loop := loop w4 |},
                  [timer_tick 57])).
  { rewrite (fire_tick_running id' w4 Hfind4); [|reflexivity|rewrite E4; reflexivity].
    rewrite E4; reflexivity. }
  repeat split.
  - rewrite Hself; reflexivity.
  - exact Hem.
  - unfold emitted. rewrite H2. reflexivity.
  - rewrite E2; cbn. exact Hst.
  - rewrite E2; reflexivity.
  - unfold emitted. rewrite H3. reflexivity.
  - rewrite E3; reflexivity.
  - rewrite E3; reflexivity.
  - unfold emitted. rewrite H4. reflexivity.
  - rewrite E4; reflexivity.
  - rewrite E4; reflexivity.
  - unfold emitted. rewrite H5. reflexivity.
  - unfold w5, exec. rewrite H5. cbn. rewrite E4; reflexivity.
  - unfold w5, exec. rewrite H5. reflexivity.
Qed.

Lemma scenario_B_pause_resume_witness :
  GLib.fresh (loop fresh_world) /\
  emitted (fire 2%positive)
    (exec resume (exec pause (exec (run [OpFire 1%positive; OpFire 1%positive])
       (exec start (exec (set_interval 1) fresh_world)))))
  = [timer_tick 57].
Proof.
  split.
  - exact GLibFacts.fresh_new.
  - exact (proj1 (proj2 (proj2 (proj2 (proj2 (proj2 (proj2 (proj2 (proj2
             (scenario_B_pause_resume fresh_world GLibFacts.fresh_new)))))))))).
Defined.

(** *** Invalid requests *)

(** C9. [pause()] outside RUNNING and [resume()] outside PAUSED return
    normally, leave the engine and its main loop exactly as they were (so state,
    remaining seconds and configured interval are unchanged) and emit nothing. *)
Theorem invalid_pause_resume_are_noops (w : world) :
  (_state (self w) <> STATE_RUNNING -> pause w = (tt, w, [])) /\
  (_state (self w) <> STATE_PAUSED -> resume w = (tt, w, [])).
Proof.
  destruct w as [[st tid rem conf] c]; cbn.
  split; intros Hne; unfold_engine; destruct st; cbn; congruence.
Qed.

Lemma invalid_pause_resume_are_noops_witness :
  pause fresh_world = (tt, fresh_world, []) /\
  resume (exec start (exec (set_interval 1) fresh_world))
  = (tt, exec start (exec (set_interval 1) fresh_world), []).
Proof.
  split.
  - apply (proj1 (invalid_pause_resume_are_noops fresh_world)). discriminate.
  - apply (proj2 (invalid_pause_resume_are_noops
                    (exec start (exec (set_interval 1) fresh_world)))).
    discriminate.
Defined.

(** *** Stopping *)

Lemma stop_spec w :
  stop w =
  (tt, {| self := {| _state := STATE_STOPPED; _timer_source_id := None;
                     _remaining_seconds := _configured_interval_seconds (self w);
                     _configured_interval_seconds := _configured_interval_seconds (self w) |};
          loop := match _timer_source_id (self w) with
                  | Some id => GLib.source_remove id (loop w)
                  | None => loop w
                  end |},
   if state_eqb (_state (self w)) STATE_STOPPED then [] else [timer_stopped]).
Proof.
  destruct w as [[st tid rem conf] c]. unfold_engine; cbn.
  destruct tid, st; reflexivity.
Qed.

(** C5, as the code has it. The first of two consecutive [stop()] calls emits
    [timer_stopped] exactly when the engine was not already STOPPED, the second
    emits nothing, so the pair emits it once from RUNNING, PAUSED or
    BREAK_ACTIVE and not at all from STOPPED; both calls leave the state
    STOPPED and the remaining seconds equal to the configured interval. *)
Theorem stop_twice_emits_at_most_once (w : world) :
  let w1 := exec stop w in
  let w2 := exec stop w1 in
  emitted stop w
  = (if state_eqb (_state (self w)) STATE_STOPPED then [] else [timer_stopped]) /\
  emitted stop w1 = [] /\
  count_stopped (emitted (run [OpStop; OpStop]) w)
  = (if state_eqb (_state (self w)) STATE_STOPPED then 0 else 1)%nat /\
  (_state (self w1) = STATE_STOPPED /\
   _remaining_seconds (self w1) = _configured_interval_seconds (self w) /\
   _configured_interval_seconds (self w1) = _configured_interval_seconds (self w)) /\
  (_state (self w2) = STATE_STOPPED /\
   _remaining_seconds (self w2) = _configured_interval_seconds (self w) /\
   _configured_interval_seconds (self w2) = _configured_interval_seconds (self w)).
Proof.
  intros w1 w2. unfold w2, w1, emitted, exec.
  rewrite !run_cons. cbn [perform run].
  rewrite !stop_spec. unfold final, output, ret; cbn.
  repeat split. destruct (state_eqb (_state (self w)) STATE_STOPPED); reflexivity.
Qed.

(** C5, counterexample to the claim as stated: on a new engine, which is
    STOPPED, two [stop()] calls emit [timer_stopped] zero times. *)
Lemma stop_twice_from_stopped_emits_nothing :
  _state (self fresh_world) = STATE_STOPPED /\
  emitted (run [OpStop; OpStop]) fresh_world = [] /\
  ~ stop_twice_emits_once.
Proof.
  split; [reflexivity|]. split; [reflexivity|].
  intros H. specialize (H fresh_world reach_init). vm_compute in H. discriminate.
Qed.

(** *** The frame of pause and resume *)

Lemma pause_resume_step o w :
  values_ok (self w) -> pause_or_resume o ->
  _remaining_seconds (self (exec (perform o) w)) = _remaining_seconds (self w).
Proof.
  destruct w as [[st tid rem conf] c]; unfold values_ok; cbn. intros [Hc Hv] Ho.
  destruct o; try contradiction; unfold_engine; cbn.
  - destruct st; cbn; try reflexivity. destruct tid; reflexivity.
  - destruct st; cbn; try reflexivity.
    destruct (Z.ltb_spec 0 rem); cbn; [reflexivity|lia].
Qed.

Lemma pause_resume_run os : forall w,
  values_ok (self w) -> Forall pause_or_resume os ->
  _remaining_seconds (self (exec (run os) w)) = _remaining_seconds (self w).
Proof.
  induction os as [|o os IH]; intros w Hv Hall.
  - reflexivity.
  - inversion Hall as [|? ? Ho Hos]; subst.
    unfold exec. rewrite run_cons. unfold final at 1; cbn [fst snd].
    fold (exec (perform o) w). fold (exec (run os) (exec (perform o) w)).
    rewrite IH; [apply pause_resume_step| apply values_ok_perform |]; assumption.
Qed.

(** C4, as the code has it. From every reachable state, a sequence of
    [pause()] and [resume()] calls (no timer firing in between) leaves the
    remaining seconds unchanged; an operation that modifies them is a timer
    firing in RUNNING, [postpone], [start], [stop], or [set_interval] in
    STOPPED, and no other. *)
Theorem pause_resume_frame (w : world) :
  reachable w ->
  (forall os, Forall pause_or_resume os ->
     _remaining_seconds (self (exec (run os) w)) = _remaining_seconds (self w)) /\
  (forall o,
     _remaining_seconds (self (exec (perform o) w)) <> _remaining_seconds (self w) ->
     match o with
     | OpFire _ => _state (self w) = STATE_RUNNING
     | OpSetInterval _ => _state (self w) = STATE_STOPPED
     | OpPostpone _ | OpStart | OpStop => True
     | OpPause | OpResume => False
     end).
Proof.
  intros Hr. pose proof (reachable_values_ok Hr) as Hv. split.
  - intros os Hall. apply pause_resume_run; assumption.
  - intros o Hne. destruct o; try exact I;
      try (apply Hne, pause_resume_step; cbn; auto; fail).
    + destruct w as [[st tid rem conf] c]. revert Hne. unfold_engine; cbn.
      destruct st; cbn; intros Hne; try reflexivity; exfalso; apply Hne; reflexivity.
    + destruct w as [[st tid rem conf] c]. revert Hne. unfold_engine; cbn.
      split_source; cbn; intros Hne; try (exfalso; apply Hne; reflexivity);
        destruct st; cbn in *; try reflexivity; exfalso; apply Hne; reflexivity.
Qed.

Lemma pause_resume_frame_witness :
  reachable (exec (perform OpStart) (exec (perform (OpSetInterval (1 # 10))) fresh_world)) /\
  _remaining_seconds
    (self (exec (run [OpPause; OpResume; OpResume; OpPause; OpPause])
             (exec (perform OpStart) (exec (perform (OpSetInterval (1 # 10))) fresh_world))))
  = 6.
Proof.
  assert (Hr : reachable (exec (perform OpStart)
                            (exec (perform (OpSetInterval (1 # 10))) fresh_world)))
    by (repeat constructor).
  split.
  - exact Hr.
  - apply (proj1 (pause_resume_frame Hr)
             [OpPause; OpResume; OpResume; OpPause; OpPause]).
    repeat constructor.
Defined.

(** C4, counterexample to the claim as stated: [stop()] is none of tick,
    postpone and start, and with five of six seconds left it sets the remaining
    seconds back to six. *)
Lemma stop_modifies_remaining_seconds :
  let w := exec (run [OpSetInterval (1 # 10); OpStart; OpFire 1%positive]) fresh_world in
  reachable w /\
  _remaining_seconds (self w) = 5 /\
  _remaining_seconds (self (exec (perform OpStop) w)) = 6 /\
  ~ pause_resume_frame_as_stated.
Proof.
  cbn zeta.
  assert (Hr : reachable
                 (exec (run [OpSetInterval (1 # 10); OpStart; OpFire 1%positive]) fresh_world)).
  { unfold exec. rewrite !run_cons. repeat apply reach_step. exact reach_init. }
  split; [exact Hr|]. split; [reflexivity|]. split; [reflexivity|].
  intros [_ H].
  apply (H _ OpStop Hr). vm_compute. discriminate.
Qed.

(** *** The invariant of the countdown state *)

(** C2. In every state reachable once [set_interval] has been called with a
    positive duration: zero seconds remain only in BREAK_ACTIVE; in PAUSED more
    than zero seconds remain, so [resume()] takes its ordinary branch; whenever
    an operation leaves the engine STOPPED the remaining seconds equal the
    configured interval; and an operation either leaves the remaining seconds
    as they were, or is a timer firing in RUNNING that lowers them by exactly
    one, or sets them to the configured interval (start, stop, set_interval) or
    to the postponed duration. *)
Theorem countdown_state_invariant (w : world) :
  reachable_configured w ->
  (_remaining_seconds (self w) = 0 -> _state (self w) = STATE_BREAK_ACTIVE) /\
  (_state (self w) = STATE_PAUSED ->
     0 < _remaining_seconds (self w) /\
     emitted resume w = [timer_resumed; timer_tick (_remaining_seconds (self w))] /\
     _state (self (exec resume w)) = STATE_RUNNING) /\
  (forall o,
     let w' := exec (perform o) w in
     (_state (self w') = STATE_STOPPED ->
        _remaining_seconds (self w') = _configured_interval_seconds (self w')) /\
     (_remaining_seconds (self w') = _remaining_seconds (self w)
      \/ (exists id, o = OpFire id /\ _state (self w) = STATE_RUNNING /\
            _remaining_seconds (self w') = _remaining_seconds (self w) - 1)
      \/ ((o = OpStart \/ o = OpStop \/ exists m, o = OpSetInterval m) /\
            _remaining_seconds (self w') = _configured_interval_seconds (self w'))
      \/ (exists m, o = OpPostpone m /\ _remaining_seconds (self w') = to_seconds m))).
Proof.
  intros Hr. destruct (reachable_configured_inv Hr) as [Hv Hc].
  split; [|split].
  - destruct Hv as [_ Hv]. intros H0. destruct (_state (self w)); try reflexivity; lia.
  - intros Hp. assert (Hpos : 0 < _remaining_seconds (self w)).
    { destruct Hv as [_ Hv]. rewrite Hp in Hv. lia. }
    split; [exact Hpos|]. unfold emitted, exec.
    rewrite (resume_paused w Hp Hpos). split; reflexivity.
  - intros o w'. split.
    + pose proof (@values_ok_perform o w Hv) as [_ Hv']. fold w' in Hv'.
      intros Hs. rewrite Hs in Hv'. exact Hv'.
    + subst w'. destruct w as [[st tid rem conf] c]. unfold values_ok in Hv; cbn in Hv, Hc.
      destruct Hv as [_ Hv].
      destruct o; unfold_engine; cbn.
      * destruct st; cbn; auto. right; right; left. split; eauto.
      * right; right; left.
        destruct tid; cbn; destruct (Z.leb_spec conf 0); try lia; cbn; split; auto.
      * left. destruct st; cbn; auto. destruct tid; reflexivity.
      * left. destruct st; cbn; auto. destruct (Z.ltb_spec 0 rem); cbn; [reflexivity|lia].
      * right; right; left. destruct tid, st; cbn; split; auto.
      * right; right; right. exists minutes. destruct tid; cbn; split; reflexivity.
      * split_source; cbn; auto.
        destruct st; cbn; auto.
        right; left. exists id.
        destruct (Z.ltb_spec 0 (rem - 1)); cbn; repeat split; lia.
Qed.

Lemma countdown_state_invariant_witness :
  reachable_configured
    (exec (perform OpPause)
       (exec (perform OpStart) (exec (set_interval (1 # 10)) fresh_world))) /\
  emitted resume
    (exec (perform OpPause)
       (exec (perform OpStart) (exec (set_interval (1 # 10)) fresh_world)))
  = [timer_resumed; timer_tick 6].
Proof.
  assert (Hr : reachable_configured
                 (exec (perform OpPause)
                    (exec (perform OpStart) (exec (set_interval (1 # 10)) fresh_world)))).
  { do 2 apply reach_configured_step. apply reach_set_interval; [exact reach_init|reflexivity]. }
  split.
  - exact Hr.
  - exact (proj1 (proj2 (proj1 (proj2 (countdown_state_invariant Hr)) eq_refl))).
Defined.

End TimerManagerFacts.
(** ** The idle detector *)

Module IdleMonitorFacts.
Import SW IdleMonitor IdleMonitorSpec.

Ltac unfold_monitor :=
  unfold exec, emitted, final, SW.output, value, perform,
    start, stop, fire, _check_idle,
    GLib_timeout_add_seconds, GLib_idle_add, GLib_source_remove,
    set_is_idle, set_timer_source_id, set_display, set_saver_info,
    set_initialized_successfully, update,
    bind, ret, get, modify, emit.

Ltac split_source :=
  match goal with
  | |- context [GLib.find_source ?id ?c] =>
      destruct (GLib.find_source id c) as [[? ? []]|] eqn:?
  end.

Lemma monitor_run_cons o os w :
  run (o :: os) w =
  (tt, final (run os (final (perform o w))),
   SW.output (perform o w) ++ SW.output (run os (final (perform o w)))).
Proof.
  cbn [run]. unfold bind, final, SW.output.
  destruct (perform o w) as [[[] w1] out1]; cbn.
  destruct (run os w1) as [[[] w'] out']. reflexivity.
Qed.

Lemma polls_cons q qs w :
  polls (q :: qs) w =
  (tt, final (polls qs (final (_check_idle q w))),
   SW.output (_check_idle q w) ++ SW.output (polls qs (final (_check_idle q w)))).
Proof.
  cbn [polls]. unfold bind, final, SW.output.
  destruct (_check_idle q w) as [[b w1] out1]; cbn.
  destruct (polls qs w1) as [[[] w'] out']. reflexivity.
Qed.

Lemma monitor_signals_app l1 l2 : signals (l1 ++ l2) = signals l1 ++ signals l2.
Proof. unfold signals. apply flat_map_app. Qed.

(** *** One poll *)

Lemma check_idle_not_operational q w :
  operational (self w) = false -> _check_idle q w = (false, w, []).
Proof.
  destruct w as [[thr idle tid d r sv ini] c]; unfold operational; cbn. intros H.
  unfold_monitor; cbn.
  destruct ini, (truthy d), (truthy sv); cbn in *; try discriminate; reflexivity.
Qed.

Lemma check_idle_operational q w :
  operational (self w) = true ->
  let keep := match _timer_source_id (self w) with Some _ => true | None => false end in
  _check_idle q w =
  match measured (self w) q with
  | None =>
      (match q with QueryRaises => keep | QueryInfo _ _ => true end, w, [])
  | Some now =>
      (keep,
       {| self := {| _idle_threshold_ms := _idle_threshold_ms (self w);
                     _is_idle := now;
                     _timer_source_id := _timer_source_id (self w);
                     _display := _display (self w);
                     _root_window := _root_window (self w);
                     _saver_info := _saver_info (self w);
                     _initialized_successfully := _initialized_successfully (self w) |};
          loop := loop w |},
       map Emit (crossing (_is_idle (self w)) now))
  end.
Proof.
  destruct w as [[thr idle tid d r sv ini] c]; unfold operational; cbn. intros H.
  apply andb_prop in H; destruct H as [H Hsv]. apply andb_prop in H; destruct H as [Hini Hd].
  unfold_monitor; cbn. rewrite Hini, Hd, Hsv; cbn.
  destruct q as [|status ms]; cbn; [reflexivity|].
  destruct (status =? 0); cbn; [reflexivity|].
  destruct (thr <=? ms), idle; reflexivity.
Qed.

Lemma check_idle_keeps_operational q w :
  operational (self (final (_check_idle q w))) = operational (self w).
Proof.
  destruct (operational (self w)) eqn:E.
  - rewrite (check_idle_operational q w E).
    destruct (measured (self w) q); cbn; [|exact E].
    exact E.
  - rewrite (check_idle_not_operational q w E). exact E.
Qed.

Lemma check_idle_keeps_threshold q w :
  _idle_threshold_ms (self (final (_check_idle q w))) = _idle_threshold_ms (self w).
Proof.
  destruct (operational (self w)) eqn:E.
  - rewrite (check_idle_operational q w E).
    destruct (measured (self w) q); reflexivity.
  - rewrite (check_idle_not_operational q w E). reflexivity.
Qed.

Lemma signals_map_Emit l : signals (map Emit l) = l.
Proof. induction l as [|s l IH]; cbn; [reflexivity|]. f_equal. exact IH. Qed.

Lemma measured_threshold s s' q :
  _idle_threshold_ms s' = _idle_threshold_ms s -> measured s' q = measured s q.
Proof. intros H. destruct q; cbn; [reflexivity|]. rewrite H. reflexivity. Qed.

Lemma polls_edge_events qs : forall w,
  signals (emitted (polls qs) w) =
  if operational (self w)
  then edge_events (_is_idle (self w)) (map (measured (self w)) qs)
  else [].
Proof.
  induction qs as [|q qs IH]; intros w.
  - cbn. destruct (operational (self w)); reflexivity.
  - unfold emitted. rewrite polls_cons. cbn [SW.output snd].
    rewrite monitor_signals_app.
    fold (emitted (polls qs) (final (_check_idle q w))). rewrite IH.
    rewrite check_idle_keeps_operational.
    destruct (operational (self w)) eqn:E.
    + rewrite (map_ext (measured (self (final (_check_idle q w)))) (measured (self w)))
        by (intros; apply measured_threshold, check_idle_keeps_threshold).
      rewrite (check_idle_operational q w E). cbn [map edge_events].
      destruct (measured (self w) q) as [now|]; cbn [SW.output final fst snd self _is_idle].
      * rewrite signals_map_Emit. reflexivity.
      * reflexivity.
    + rewrite (check_idle_not_operational q w E). reflexivity.
Qed.

#[local] Arguments _check_idle : simpl never.

(** [_check_idle] touches nothing but [_is_idle]. *)
Lemma check_idle_frame q w :
  let w' := final (_check_idle q w) in
  loop w' = loop w /\
  _initialized_successfully (self w') = _initialized_successfully (self w) /\
  _timer_source_id (self w') = _timer_source_id (self w) /\
  (_is_idle (self w') = _is_idle (self w) -> self w' = self w).
Proof.
  destruct (operational (self w)) eqn:E; cbn zeta.
  - rewrite (check_idle_operational q w E).
    destruct (measured (self w) q); cbn; repeat split; auto.
    intros ->. destruct w as [[] ?]; reflexivity.
  - rewrite (check_idle_not_operational q w E). cbn. auto.
Qed.

Lemma monitor_fire_spec id q w :
  fire id q w =
  match GLib.find_source id (loop w) with
  | Some {| GLib.src_callback := GLib.IdleMonitor_check_idle |} =>
      let r := _check_idle q w in
      (tt,
       if value r then final r
       else {| self := self (final r); loop := GLib.source_remove id (loop (final r)) |},
       SW.output r)
  | _ => (tt, w, [])
  end.
Proof.
  unfold fire. unfold bind at 1. unfold get. cbv beta iota.
  destruct (GLib.find_source id (loop w)) as [[i iv []]|]; try reflexivity.
  unfold bind, value, final, SW.output.
  destruct (_check_idle q w) as [[[] w1] out1]; cbn;
    rewrite app_nil_r; reflexivity.
Qed.

(** One dispatch never revives a source. *)
Lemma fire_frame id q w :
  let w' := exec (fire id q) w in
  _initialized_successfully (self w') = _initialized_successfully (self w) /\
  _timer_source_id (self w') = _timer_source_id (self w) /\
  (forall id' s, GLib.find_source id' (loop w') = Some s ->
                 GLib.find_source id' (loop w) = Some s).
Proof.
  cbn zeta. unfold exec. rewrite monitor_fire_spec.
  destruct (check_idle_frame q w) as (Hl & Hi & Ht & _).
  destruct (GLib.find_source id (loop w)) as [[i iv []]|]; cbn; auto.
  destruct (value (_check_idle q w)); cbn; rewrite ?Hl; repeat split; auto.
  intros id' s. apply GLibFacts.find_source_remove_some.
Qed.

Lemma reachable_started_if_polling w : reachable w -> started_if_polling w.
Proof.
  induction 1 as [thr x | w o Hr IH]; unfold started_if_polling in *.
  - intros id s. cbn. discriminate.
  - destruct o as [n| |id q].
    + destruct w as [[thr idle tid d r sv ini] c]; cbn in *.
      unfold_monitor; cbn. destruct ini; cbn; [|discriminate].
      destruct tid; cbn; [|discriminate]. intros; discriminate.
    + destruct w as [[thr idle tid d r sv ini] c]; cbn in *.
      unfold_monitor; cbn.
      destruct tid, ini; cbn; try discriminate;
        destruct (truthy sv), (truthy d); cbn; discriminate.
    + cbn [perform]. destruct (fire_frame id q w) as (Hi & Ht & Hl).
      intros id' s Hf Hini. rewrite Ht. rewrite Hi in Hini. eauto.
Qed.

(** *** Edge-triggered emission *)

(** C7. Over every sequence of polls the detector's emissions are those of the
    specification's edge detector.  One dispatch of a source emits [user_idle]
    exactly when [_is_idle] goes from false to true and [user_active] exactly
    when it goes from true to false, and nothing otherwise; [_is_idle] changes
    only to what the poll measured against the threshold.  A poll whose query
    fails (it raises, or returns status 0) leaves the detector as it was, emits
    nothing, and its source stays on the main loop. *)
Theorem edge_triggered_idle_events (w : world) :
  reachable w ->
  (forall qs,
     signals (emitted (polls qs) w) =
     if operational (self w)
     then edge_events (_is_idle (self w)) (map (measured (self w)) qs)
     else []) /\
  (forall id q,
     let w' := exec (fire id q) w in
     signals (emitted (fire id q) w) = crossing (_is_idle (self w)) (_is_idle (self w')) /\
     (_is_idle (self w') <> _is_idle (self w) ->
        measured (self w) q = Some (_is_idle (self w'))) /\
     (measured (self w) q = None ->
        self w' = self w /\ emitted (fire id q) w = [] /\
        (operational (self w) = true -> loop w' = loop w))).
Proof.
  intros Hr. split; [intros qs; apply polls_edge_events|].
  intros id q w'. subst w'. unfold exec, emitted. rewrite monitor_fire_spec.
  pose proof (reachable_started_if_polling Hr) as Hsp.
  destruct (GLib.find_source id (loop w)) as [[i iv cb]|] eqn:Hfind.
  2:{ cbn. repeat split; auto.
      - destruct (_is_idle (self w)); reflexivity.
      - intros H; contradiction H; reflexivity. }
  destruct cb.
  1,2: cbn; repeat split; auto;
       [ destruct (_is_idle (self w)); reflexivity
       | intros H; contradiction H; reflexivity ].
  cbn zeta. destruct (operational (self w)) eqn:E.
  - rewrite (check_idle_operational q w E).
    assert (Hkeep : _timer_source_id (self w) <> None).
    { apply (Hsp id _ Hfind). unfold operational in E.
      destruct (_initialized_successfully (self w)); [reflexivity|discriminate]. }
    destruct (_timer_source_id (self w)) as [tid|] eqn:Ht; [|contradiction].
    destruct (measured (self w) q) as [now|] eqn:Hm; cbn.
    + rewrite signals_map_Emit. repeat split; intros; try discriminate; auto.
    + assert (Hv : match q with QueryRaises => true | QueryInfo _ _ => true end = true)
        by (destruct q; reflexivity).
      rewrite Hv. cbn. repeat split; intros; auto; try congruence.
      destruct (_is_idle (self w)); reflexivity.
  - rewrite (check_idle_not_operational q w E). cbn.
    repeat split; intros; try discriminate; auto; try congruence.
    destruct (_is_idle (self w)); reflexivity.
Qed.

Lemma edge_triggered_idle_events_witness :
  let w := exec (start 2)
             (construct 5 {| XOpenDisplay := 100; XDefaultRootWindow := 7;
                             XScreenSaverAllocInfo := 200 |}) in
  reachable w /\
  signals (emitted (polls [QueryInfo 1 4000; QueryInfo 1 6000; QueryInfo 1 7000;
                           QueryRaises; QueryInfo 0 0; QueryInfo 1 10; QueryInfo 1 20]) w)
  = [user_idle; user_active].
Proof.
  assert (Hr : reachable
                 (exec (start 2)
                    (construct 5 {| XOpenDisplay := 100; XDefaultRootWindow := 7;
                                    XScreenSaverAllocInfo := 200 |}))).
  { apply (reach_step (OpStart 2)). constructor. }
  split.
  - exact Hr.
  - exact (proj1 (edge_triggered_idle_events Hr)
             [QueryInfo 1 4000; QueryInfo 1 6000; QueryInfo 1 7000;
              QueryRaises; QueryInfo 0 0; QueryInfo 1 10; QueryInfo 1 20]).
Defined.

(** *** After stop *)

Lemma monitor_stop_spec w :
  _initialized_successfully (self w) = true ->
  stop w =
  (tt,
   {| self := {| _idle_threshold_ms := _idle_threshold_ms (self w);
                 _is_idle := _is_idle (self w);
                 _timer_source_id := None;
                 _display := if truthy (_display (self w)) then None else _display (self w);
                 _root_window := _root_window (self w);
                 _saver_info :=
                   if truthy (_saver_info (self w)) then None else _saver_info (self w);
                 _initialized_successfully := false |};
      loop := match _timer_source_id (self w) with
              | Some id => GLib.source_remove id (loop w)
              | None => loop w
              end |},
   (if truthy (_saver_info (self w)) then [XFree (handle (_saver_info (self w)))] else [])
   ++ (if truthy (_display (self w)) then [XCloseDisplay (handle (_display (self w)))] else [])).
Proof.
  destruct w as [[thr idle tid d r sv ini] c]; cbn. intros ->.
  unfold_monitor; cbn.
  destruct tid; cbn; destruct (truthy sv); cbn; destruct (truthy d); reflexivity.
Qed.

Lemma stopped_perform o w :
  stopped (self w) ->
  self (exec (perform o) w) = self w /\
  emitted (perform o) w = [] /\
  (forall id s, GLib.find_source id (loop (exec (perform o) w)) = Some s ->
                GLib.find_source id (loop w) = Some s).
Proof.
  destruct w as [[thr idle tid d r sv ini] c]; unfold stopped; cbn.
  intros [-> ->]. destruct o as [n| |id q].
  - unfold_monitor; cbn. auto.
  - unfold_monitor; cbn. auto.
  - cbn [perform]. unfold exec, emitted. rewrite monitor_fire_spec. cbn [loop].
    destruct (GLib.find_source id c) as [[i iv []]|]; cbn; auto.
    rewrite check_idle_not_operational by reflexivity. cbn.
    repeat split. intros id' s. apply GLibFacts.find_source_remove_some.
Qed.

Lemma stopped_run os : forall w,
  stopped (self w) ->
  self (exec (run os) w) = self w /\
  emitted (run os) w = [] /\
  (forall id s, GLib.find_source id (loop (exec (run os) w)) = Some s ->
                GLib.find_source id (loop w) = Some s).
Proof.
  induction os as [|o os IH]; intros w Hs.
  - cbn. auto.
  - destruct (@stopped_perform o w Hs) as (Hself & Hout & Hsub).
    assert (Hs' : stopped (self (exec (perform o) w))) by (rewrite Hself; exact Hs).
    destruct (IH _ Hs') as (Hself' & Hout' & Hsub').
    unfold exec, emitted in *. rewrite monitor_run_cons. cbn [final SW.output fst snd].
    unfold final in *. unfold SW.output in *.
    rewrite Hself', Hself, Hout, Hout'. repeat split. eauto.
Qed.

(** C10. [stop()] on an initialized detector releases the X resources, forgets
    the timer and marks the detector not initialized.  From then on [start()]
    returns without doing anything, and whatever is called or dispatched, the
    detector object never changes again, nothing is emitted, and no source is
    ever added to the main loop. *)
Theorem stop_is_final (w : world) :
  _initialized_successfully (self w) = true ->
  let w1 := exec stop w in
  emitted stop w
  = (if truthy (_saver_info (self w)) then [XFree (handle (_saver_info (self w)))] else [])
    ++ (if truthy (_display (self w)) then [XCloseDisplay (handle (_display (self w)))] else []) /\
  (_initialized_successfully (self w1) = false /\
   _timer_source_id (self w1) = None /\
   truthy (_display (self w1)) = false /\
   truthy (_saver_info (self w1)) = false) /\
  (forall n, start n w1 = (tt, w1, [])) /\
  (forall os,
     let w2 := exec (run os) w1 in
     self w2 = self w1 /\
     emitted (run os) w1 = [] /\
     (forall id s, GLib.find_source id (loop w2) = Some s ->
                   GLib.find_source id (loop w1) = Some s)).
Proof.
  intros Hini w1. subst w1. unfold exec at 1 2 3 4 5, emitted at 1.
  rewrite (monitor_stop_spec w Hini). cbn [final SW.output fst snd self _initialized_successfully
    _timer_source_id _display _saver_info].
  split; [reflexivity|]. split; [|split].
  - repeat split.
    + destruct (truthy (_display (self w))) eqn:E; [reflexivity|exact E].
    + destruct (truthy (_saver_info (self w))) eqn:E; [reflexivity|exact E].
  - intros n. unfold exec. rewrite (monitor_stop_spec w Hini). reflexivity.
  - intros os. apply stopped_run. unfold exec. rewrite (monitor_stop_spec w Hini).
    split; reflexivity.
Qed.

Lemma stop_is_final_witness :
  let w := exec (start 2)
             (construct 5 {| XOpenDisplay := 100; XDefaultRootWindow := 7;
                             XScreenSaverAllocInfo := 200 |}) in
  _initialized_successfully (self w) = true /\
  emitted stop w = [XFree 200; XCloseDisplay 100] /\
  emitted (run [OpStart 30; OpFire 1%positive (QueryInfo 1 9000); OpStart 1;
                OpFire 2%positive (QueryInfo 1 9000); OpStop; OpStart 5])
          (exec stop w) = [].
Proof.
  cbn zeta. split; [reflexivity|].
  pose (H := stop_is_final
               (exec (start 2)
                  (construct 5 {| XOpenDisplay := 100; XDefaultRootWindow := 7;
                                  XScreenSaverAllocInfo := 200 |})) eq_refl).
  split.
  - exact (proj1 H).
  - exact (proj1 (proj2 (proj2 (proj2 (proj2 H))
             [OpStart 30; OpFire 1%positive (QueryInfo 1 9000); OpStart 1;
              OpFire 2%positive (QueryInfo 1 9000); OpStop; OpStart 5]))).
Defined.

End IdleMonitorFacts.
(** ** The pause arbiter and the break coordinator *)

Module MindfulBreakAppFacts.
Import SW MindfulBreakApp MindfulBreakAppSpec.

Ltac unfold_app :=
  unfold exec, outputs, final, SW.output, value, handle, fire,
    on_timer_tick, on_break_started, on_timer_paused, on_timer_resumed,
    on_timer_stopped, on_timer_started, on_user_idle, on_user_active,
    on_start_timer_requested, on_resume_timer_requested, on_pause_for_requested,
    on_set_time_requested, on_set_time_dialog_response, on_overlay_postponed,
    on_pause_dialog_response, _manual_pause_tick, _cancel_manual_pause,
    call, engine, method, deliver, handler,
    GLib_timeout_add_seconds, GLib_source_remove,
    set_paused_due_to_idle, set_manual_pause_timer_id,
    set_manual_pause_remaining_seconds, update, is_some,
    TimerManager.set_interval, TimerManager.start, TimerManager.pause,
    TimerManager.resume, TimerManager.stop, TimerManager.postpone,
    TimerManager._tick, TimerManager._enter_break_state,
    TimerManager._stop_internal_timer,
    TimerManager.GLib_timeout_add_seconds, TimerManager.GLib_source_remove,
    TimerManager.set_state, TimerManager.set_timer_source_id,
    TimerManager.set_remaining_seconds,
    TimerManager.set_configured_interval_seconds,
    bind, ret, get, modify, emit.

Lemma app_run_cons e es w :
  run (e :: es) w =
  (tt, final (run es (final (handle e w))),
   SW.output (handle e w) ++ SW.output (run es (final (handle e w)))).
Proof.
  cbn [run]. unfold bind, final, SW.output.
  destruct (handle e w) as [[[] w1] out1]; cbn.
  destruct (run es w1) as [[[] w'] out']. reflexivity.
Qed.

Lemma calls_app l1 l2 : calls (l1 ++ l2) = calls l1 ++ calls l2.
Proof. unfold calls. apply flat_map_app. Qed.

Lemma app_signals_app l1 l2 : signals (l1 ++ l2) = signals l1 ++ signals l2.
Proof. unfold signals. apply flat_map_app. Qed.

(** *** Invariants of the application *)

Lemma preserves_ret {A} P (a : A) : preserves P (ret a).
Proof. intros w H. exact H. Qed.

Lemma preserves_bind {A B} P (m : Op A) (k : A -> Op B) :
  preserves P m -> (forall a, preserves P (k a)) -> preserves P (bind m k).
Proof.
  intros Hm Hk w H. unfold bind, final.
  specialize (Hm w H). unfold final in Hm.
  destruct (m w) as [[a w1] o1]. cbn in Hm.
  specialize (Hk a w1 Hm). unfold final in Hk.
  destruct (k a w1) as [[b w2] o2]. exact Hk.
Qed.

Lemma preserves_get P : preserves P (get (St := world) (Ev := output)).
Proof. intros w H. exact H. Qed.

Lemma preserves_emit P (o : output) : preserves P (emit o).
Proof. intros w H. exact H. Qed.

Lemma preserves_update f : preserves well_formed (update f).
Proof. intros w H. exact H. Qed.

Lemma preserves_timeout_add n cb : preserves well_formed (GLib_timeout_add_seconds n cb).
Proof.
  intros w [Hv Hf]. split; [exact Hv|]. apply GLibFacts.fresh_attach, Hf.
Qed.

Lemma preserves_source_remove id : preserves well_formed (GLib_source_remove id).
Proof.
  intros w [Hv Hf]. split; [exact Hv|]. apply GLibFacts.fresh_source_remove, Hf.
Qed.

Lemma preserves_engine_method m : preserves well_formed (engine (method m)).
Proof.
  intros w [Hv Hf]. unfold engine, final; cbn [fst snd].
  assert (E : exists o, method m = TimerManager.perform o).
  { destruct m; [exists (TimerManager.OpSetInterval minutes) | exists TimerManager.OpStart
                | exists TimerManager.OpPause | exists TimerManager.OpResume
                | exists TimerManager.OpStop | exists (TimerManager.OpPostpone minutes)];
      reflexivity. }
  destruct E as [o ->]. split.
  - apply (@TimerManagerFacts.values_ok_perform o
             {| TimerManager.self := timer_manager w; TimerManager.loop := loop w |} Hv).
  - apply (@TimerManagerFacts.fresh_perform o
             {| TimerManager.self := timer_manager w; TimerManager.loop := loop w |} Hf).
Qed.

Lemma preserves_engine_tick : preserves well_formed (engine TimerManager._tick).
Proof.
  intros w [Hv Hf]. unfold engine, final; cbn [fst snd].
  apply (@TimerManagerFacts.tick_keeps_invariants
           {| TimerManager.self := timer_manager w; TimerManager.loop := loop w |} Hv Hf).
Qed.

Ltac preserve :=
  repeat first
    [ apply preserves_ret
    | apply preserves_get
    | apply preserves_emit
    | apply preserves_update
    | apply preserves_timeout_add
    | apply preserves_source_remove
    | apply preserves_engine_method
    | apply preserves_engine_tick
    | apply preserves_bind; [|intros ?]
    | match goal with
      | |- preserves _ (if ?b then _ else _) => destruct b
      | |- preserves _ (match ?x with _ => _ end) => destruct x
      end ].

Lemma preserves_on_timer_paused : preserves well_formed on_timer_paused.
Proof. unfold on_timer_paused. preserve. Qed.

Lemma preserves_cancel_manual_pause : preserves well_formed _cancel_manual_pause.
Proof.
  unfold _cancel_manual_pause, set_manual_pause_timer_id,
    set_manual_pause_remaining_seconds.
  preserve; apply preserves_on_timer_paused.
Qed.

Lemma preserves_handler s : preserves well_formed (handler s).
Proof.
  destruct s; cbn [handler];
    unfold on_timer_started, on_timer_paused, on_timer_resumed, on_timer_stopped,
      on_timer_tick, on_break_started, set_paused_due_to_idle;
    preserve; apply preserves_cancel_manual_pause.
Qed.

Lemma preserves_deliver sigs : preserves well_formed (deliver sigs).
Proof.
  induction sigs as [|s sigs IH]; cbn [deliver]; preserve;
    [apply preserves_handler|exact IH].
Qed.

Lemma preserves_call m : preserves well_formed (call m).
Proof. unfold call. preserve. apply preserves_deliver. Qed.

Lemma preserves_handle e : preserves well_formed (handle e).
Proof.
  destruct e; cbn [handle];
    unfold on_start_timer_requested, on_resume_timer_requested, on_pause_for_requested,
      on_set_time_requested, on_pause_dialog_response, on_set_time_dialog_response,
      on_overlay_postponed, on_user_idle, on_user_active, fire, _manual_pause_tick,
      set_paused_due_to_idle, set_manual_pause_timer_id,
      set_manual_pause_remaining_seconds;
    preserve;
    first [ apply preserves_call | apply preserves_cancel_manual_pause
          | apply preserves_deliver ].
Qed.

Lemma well_formed_startup interval : well_formed (do_startup interval).
Proof.
  apply (preserves_engine_method (m_set_interval interval)).
  split; [exact TimerManagerFacts.values_ok_init|exact GLibFacts.fresh_new].
Qed.

(** In every world the application reaches, the engine satisfies its
    data-model invariant (RUNNING and PAUSED have at least one second left)
    and the main loop's source ids are fresh. *)
Lemma reachable_well_formed w : reachable w -> well_formed w.
Proof.
  induction 1 as [interval|w e Hr IH];
    [apply well_formed_startup|apply (preserves_handle e), IH].
Qed.

(** *** Postponing *)


(** Scenario E of the specification: the countdown of 6 seconds runs out, the
    break is announced, and the overlay postpones by 5 minutes. *)
Example scenario_E_postpone_from_break :
  let at_break :=
    exec (run (start_timer_requested (1 # 10) :: repeat (source_fires 1%positive) 6))
         (do_startup (1 # 10)) in
  let after := exec (handle (overlay_postponed 5)) at_break in
  TimerManager._state (timer_manager at_break) = TimerManager.STATE_BREAK_ACTIVE /\
  TimerManager._state (timer_manager after) = TimerManager.STATE_RUNNING /\
  TimerManager._remaining_seconds (timer_manager after) = 300 /\
  signals (outputs (handle (overlay_postponed 5)) at_break)
  = [TimerManager.timer_started; TimerManager.timer_tick 300].
Proof. vm_compute. repeat split. Qed.

(** Scenario C of the specification: the user goes idle 20 seconds into a
    60-second countdown and comes back; the engine is paused and resumed once,
    and resumes with the 40 seconds it had. *)
Example scenario_C_idle_pause_resume :
  calls (outputs (run [user_idle; source_fires 1%positive; user_active]) scenario_D_world)
  = [m_pause; m_resume] /\
  signals (outputs (run [user_idle; source_fires 1%positive; user_active]) scenario_D_world)
  = [TimerManager.timer_paused; TimerManager.timer_resumed; TimerManager.timer_tick 40] /\
  TimerManager._state
    (timer_manager (exec (run [user_idle; source_fires 1%positive; user_active])
                      scenario_D_world))
  = TimerManager.STATE_RUNNING.
Proof. vm_compute. repeat split. Qed.

(** *** A manual pause in progress *)

#[local] Arguments GLib.find_source : simpl never.
#[local] Arguments GLib.source_remove : simpl never.
#[local] Arguments GLib.timeout_add_seconds : simpl never.

Lemma user_idle_during_manual_pause w :
  _manual_pause_timer_id (self w) <> None -> on_user_idle w = (tt, w, []).
Proof.
  destruct w as [[flag mid mrem] tm c]; cbn. intros H.
  unfold_app; cbn. destruct mid; [reflexivity|contradiction].
Qed.

Lemma user_active_during_manual_pause w :
  _manual_pause_timer_id (self w) <> None ->
  on_user_active w =
  (tt, {| self := {| _paused_due_to_idle := false;
                     _manual_pause_timer_id := _manual_pause_timer_id (self w);
                     _manual_pause_remaining_seconds :=
                       _manual_pause_remaining_seconds (self w) |};
          timer_manager := timer_manager w;
          loop := loop w |}, []).
Proof.
  destruct w as [[flag mid mrem] tm c]; cbn. intros H.
  unfold_app; cbn. destruct mid; [reflexivity|contradiction].
Qed.

Lemma manual_source_id_stable c1 r mid D k w id :
  manual_pause_active c1 r mid D k w ->
  is_manual_source_id (loop w) id = is_manual_source_id c1 id.
Proof.
  intros (_ & _ & _ & _ & HA & HB). unfold is_manual_source_id.
  destruct (GLib.find_source id (loop w)) as [s|] eqn:E.
  - rewrite (HA _ _ E). reflexivity.
  - destruct (GLib.find_source id c1) as [[i iv []]|] eqn:E1; try reflexivity.
    rewrite (HB _ _ E1 eq_refl) in E. discriminate.
Qed.

Lemma fire_other_during_manual_pause c1 r mid D k w id :
  manual_pause_active c1 r mid D k w ->
  is_manual_source_id (loop w) id = false ->
  manual_pause_active c1 r mid D k (exec (fire id) w) /\ outputs (fire id) w = [].
Proof.
  destruct w as [[flag m mrem] [st tid rem conf] c];
    unfold manual_pause_active, is_manual_source_id; cbn.
  intros (Hst & Hr & Hm & Hrem & HA & HB) Hnm. subst.
  unfold_app; cbn.
  destruct (GLib.find_source id c) as [[i iv []]|] eqn:Hf; cbn; try discriminate.
  - repeat split; auto.
    + intros id' s Hs. apply HA. eapply GLibFacts.find_source_remove_some, Hs.
    + intros id' s Hs Hcb. pose proof (HB _ _ Hs Hcb) as Hs'.
      rewrite GLibFacts.find_source_remove_other; [exact Hs'|].
      intros ->. rewrite Hf in Hs'. inversion Hs'; subst. discriminate.
  - repeat split; auto.
  - repeat split; auto.
Qed.

Lemma fire_manual_countdown c1 r mid D k w id :
  manual_pause_active c1 r mid D k w ->
  is_manual_source_id (loop w) id = true ->
  k + 1 < D ->
  manual_pause_active c1 r mid D (k + 1) (exec (fire id) w) /\
  calls (outputs (fire id) w) = [].
Proof.
  destruct w as [[flag m mrem] [st tid rem conf] c];
    unfold manual_pause_active, is_manual_source_id; cbn.
  intros (Hst & Hr & Hm & Hrem & HA & HB) Hman Hlt. subst.
  unfold_app; cbn.
  destruct (GLib.find_source id c) as [[i iv []]|] eqn:Hf; cbn; try discriminate.
  destruct (Z.leb_spec (D - k) 0); [lia|]. cbn.
  destruct (Z.leb_spec (D - k - 1) 0); [lia|]. cbn.
  repeat split; auto. lia.
Qed.

Lemma fire_manual_expiry c1 r mid D k w id :
  manual_pause_active c1 r mid D k w ->
  is_manual_source_id (loop w) id = true ->
  k + 1 = D -> 0 < r ->
  let w' := exec (fire id) w in
  calls (outputs (fire id) w) = [m_resume] /\
  signals (outputs (fire id) w) = [TimerManager.timer_resumed; TimerManager.timer_tick r] /\
  TimerManager._state (timer_manager w') = TimerManager.STATE_RUNNING /\
  TimerManager._remaining_seconds (timer_manager w') = r /\
  _manual_pause_timer_id (self w') = None /\
  GLib.find_source id (loop w') = None.
Proof.
  destruct w as [[flag m mrem] [st tid rem conf] c];
    unfold manual_pause_active, is_manual_source_id; cbn.
  intros (Hst & Hr & Hm & Hrem & HA & HB) Hman Hk Hpos. subst.
  unfold_app; cbn.
  destruct (GLib.find_source id c) as [[i iv []]|] eqn:Hf; cbn; try discriminate.
  destruct (Z.leb_spec (k + 1 - k) 0); [lia|]. cbn.
  destruct (Z.leb_spec (k + 1 - k - 1) 0); [|lia]. cbn.
  destruct (Z.ltb_spec 0 r); [|lia]. cbn.
  repeat split. apply GLibFacts.find_source_remove_same.
Qed.

Lemma run_during_manual_pause c1 r mid D es : forall k w,
  manual_pause_active c1 r mid D k w ->
  Forall idle_or_timer es ->
  k + Z.of_nat (manual_fires c1 es) < D ->
  manual_pause_active c1 r mid D (k + Z.of_nat (manual_fires c1 es)) (exec (run es) w) /\
  calls (outputs (run es) w) = [].
Proof.
  induction es as [|e es IH]; intros k w HJ Hall Hlt.
  - cbn [manual_fires Z.of_nat]. rewrite Z.add_0_r. split; [exact HJ|reflexivity].
  - inversion Hall as [|? ? He Hes]; subst.
    unfold exec, outputs. rewrite app_run_cons. cbn [final SW.output fst snd].
    rewrite calls_app.
    assert (Hstep : exists k',
               k' + Z.of_nat (manual_fires c1 es) = k + Z.of_nat (manual_fires c1 (e :: es)) /\
               manual_pause_active c1 r mid D k' (final (handle e w)) /\
               calls (SW.output (handle e w)) = []).
    { assert (Hm : _manual_pause_timer_id (self w) <> None).
      { destruct HJ as (_ & _ & Hm & _). rewrite Hm. discriminate. }
      destruct e; try contradiction; cbn [handle manual_fires].
      - exists k. split; [reflexivity|].
        rewrite (user_idle_during_manual_pause w Hm). split; [exact HJ|reflexivity].
      - exists k. split; [reflexivity|].
        rewrite (user_active_during_manual_pause w Hm). split; [|reflexivity].
        destruct w as [[flag m mrem] tm c]. exact HJ.
      - cbn [manual_fires] in Hlt.
        rewrite <- (manual_source_id_stable id HJ) in *.
        destruct (is_manual_source_id (loop w) id) eqn:Hman.
        + exists (k + 1). split; [lia|].
          apply (fire_manual_countdown id HJ Hman). lia.
        + exists k. split; [reflexivity|].
          destruct (fire_other_during_manual_pause id HJ Hman) as [HJ' Hout].
          split; [exact HJ'|]. unfold outputs in Hout. rewrite Hout. reflexivity. }
    destruct Hstep as (k' & Hk' & HJ' & Hcalls).
    rewrite Hcalls. cbn [app]. rewrite <- Hk'.
    apply IH; [exact HJ'|exact Hes|lia].
Qed.

Lemma pause_dialog_starts_manual_pause w0 D :
  TimerManager._state (timer_manager w0) = TimerManager.STATE_RUNNING ->
  0 < D ->
  let w1 := exec (on_pause_dialog_response true D) w0 in
  manual_pause_active (loop w1) (TimerManager._remaining_seconds (timer_manager w0))
    (GLib.next_source_id (loop w0)) D 0 w1 /\
  calls (outputs (on_pause_dialog_response true D) w0) = [m_pause] /\
  (GLib.fresh (loop w0) ->
   GLib.find_source (GLib.next_source_id (loop w0)) (loop w1)
   = Some (manual_source (GLib.next_source_id (loop w0)))).
Proof.
  destruct w0 as [[flag m mrem] [st tid rem conf] c]; unfold manual_pause_active; cbn.
  intros Hst HD. subst.
  unfold_app; cbn.
  destruct (Z.leb_spec D 0); [lia|]. cbn.
  destruct tid as [t0|]; cbn; destruct m; cbn; repeat split; auto; try lia;
    intros Hf;
    first
      [ exact (GLibFacts.find_source_attach_new (Some 1) GLib.App_manual_pause_tick
                 (GLibFacts.fresh_source_remove t0 Hf))
      | exact (GLibFacts.find_source_attach_new (Some 1) GLib.App_manual_pause_tick Hf) ].
Qed.

Lemma manual_pause_tick_calls w :
  calls (outputs _manual_pause_tick w) = []
  \/ (calls (outputs _manual_pause_tick w) = [m_resume] /\
      TimerManager._state (timer_manager w) = TimerManager.STATE_PAUSED /\
      _manual_pause_remaining_seconds (self w) <= 1).
Proof.
  destruct w as [[flag m mrem] [st tid rem conf] c].
  unfold_app; cbn.
  destruct (Z.leb_spec mrem 0); cbn.
  - destruct m as [m0|]; cbn;
      destruct st; cbn; auto;
      try (destruct flag; cbn);
      destruct (Z.ltb_spec 0 rem); cbn; right; repeat split; lia.
  - destruct (Z.leb_spec (mrem - 1) 0); cbn; auto.
    destruct st; cbn; auto.
    destruct (Z.ltb_spec 0 rem); cbn; right; repeat split; lia.
Qed.

Lemma resume_request_cancels_manual_pause c1 r mid D k w :
  manual_pause_active c1 r mid D k w -> 0 < r ->
  let w' := exec on_resume_timer_requested w in
  calls (outputs on_resume_timer_requested w) = [m_resume] /\
  TimerManager._state (timer_manager w') = TimerManager.STATE_RUNNING /\
  TimerManager._remaining_seconds (timer_manager w') = r /\
  _manual_pause_timer_id (self w') = None.
Proof.
  destruct w as [[flag m mrem] [st tid rem conf] c]; unfold manual_pause_active; cbn.
  intros (Hst & Hr & Hm & Hrem & HA & HB) Hpos. subst.
  unfold_app; cbn.
  destruct flag; cbn; destruct (Z.ltb_spec 0 r); try lia; cbn; repeat split.
Qed.

(** *** Manual pause against idle pause *)

(** C3. A manual pause of [D] seconds is requested while the engine is
    RUNNING; afterwards idle and active transitions arrive and sources are
    dispatched in any order.  As long as the manual countdown has been
    dispatched fewer than [D] times, the engine has been called exactly once in
    all ([pause()]), it is PAUSED, and its remaining seconds are those of the
    moment of the request.  The [D]-th dispatch of the countdown calls
    [resume()], once; the engine is RUNNING again with the same remaining
    seconds.  Whenever a manual pause is active, [on_user_idle] and
    [on_user_active] call nothing and leave the engine untouched.  The
    countdown's callback calls the engine only to resume it, only with the
    engine PAUSED and the countdown at its end.  An explicit resume request
    during the pause resumes at once, with the same remaining seconds, and
    clears the manual pause. *)
Theorem manual_pause_overrides_idle (w0 : world) (D : Z) (es : list event) :
  TimerManager._state (timer_manager w0) = TimerManager.STATE_RUNNING ->
  0 < TimerManager._remaining_seconds (timer_manager w0) ->
  0 < D ->
  Forall idle_or_timer es ->
  Z.of_nat (manual_fires (loop (exec (on_pause_dialog_response true D) w0)) es) < D ->
  let r := TimerManager._remaining_seconds (timer_manager w0) in
  let mid := GLib.next_source_id (loop w0) in
  let request := on_pause_dialog_response true D in
  let w1 := exec request w0 in
  let w2 := exec (run es) w1 in
  let k := Z.of_nat (manual_fires (loop w1) es) in
  calls (outputs request w0 ++ outputs (run es) w1) = [m_pause] /\
  (TimerManager._state (timer_manager w2) = TimerManager.STATE_PAUSED /\
   TimerManager._remaining_seconds (timer_manager w2) = r /\
   _manual_pause_timer_id (self w2) = Some mid /\
   _manual_pause_remaining_seconds (self w2) = D - k) /\
  (GLib.fresh (loop w0) ->
   is_manual_source_id (loop w1) mid = true /\
   GLib.find_source mid (loop w2) = Some (manual_source mid)) /\
  (forall id,
     k = D - 1 -> is_manual_source_id (loop w1) id = true ->
     let w3 := exec (fire id) w2 in
     calls (outputs (fire id) w2) = [m_resume] /\
     signals (outputs (fire id) w2)
     = [TimerManager.timer_resumed; TimerManager.timer_tick r] /\
     TimerManager._state (timer_manager w3) = TimerManager.STATE_RUNNING /\
     TimerManager._remaining_seconds (timer_manager w3) = r /\
     _manual_pause_timer_id (self w3) = None) /\
  (forall w, _manual_pause_timer_id (self w) <> None ->
     (calls (outputs on_user_idle w) = [] /\
      timer_manager (exec on_user_idle w) = timer_manager w) /\
     (calls (outputs on_user_active w) = [] /\
      timer_manager (exec on_user_active w) = timer_manager w)) /\
  (forall w,
     calls (outputs _manual_pause_tick w) = []
     \/ (calls (outputs _manual_pause_tick w) = [m_resume] /\
         TimerManager._state (timer_manager w) = TimerManager.STATE_PAUSED /\
         _manual_pause_remaining_seconds (self w) <= 1)) /\
  (let w4 := exec on_resume_timer_requested w2 in
   calls (outputs on_resume_timer_requested w2) = [m_resume] /\
   TimerManager._state (timer_manager w4) = TimerManager.STATE_RUNNING /\
   TimerManager._remaining_seconds (timer_manager w4) = r /\
   _manual_pause_timer_id (self w4) = None).
Proof.
  intros Hst Hr HD Hall Hlt r mid request w1 w2 k.
  destruct (@pause_dialog_starts_manual_pause w0 D Hst HD) as (HJ1 & Hc1 & Hlive).
  fold r mid request in HJ1, Hc1, Hlive. fold w1 in HJ1, Hlive.
  assert (Hlt' : 0 + k < D) by (unfold k, w1, request; lia).
  destruct (@run_during_manual_pause (loop w1) r mid D es 0 w1 HJ1 Hall Hlt') as [HJ2 Hc2].
  fold w2 in HJ2. rewrite Z.add_0_l in HJ2. fold k in HJ2.
  split; [|split; [|split; [|split; [|split; [|split]]]]].
  - rewrite calls_app, Hc1, Hc2. reflexivity.
  - destruct HJ2 as (H1 & H2 & H3 & H4 & _). auto.
  - intros Hf. specialize (Hlive Hf).
    split.
    + unfold is_manual_source_id. rewrite Hlive. reflexivity.
    + destruct HJ2 as (_ & _ & _ & _ & _ & HB). apply HB; [exact Hlive|reflexivity].
  - intros id Hlast Hman.
    rewrite <- (manual_source_id_stable id HJ2) in Hman.
    destruct (@fire_manual_expiry (loop w1) r mid D k w2 id HJ2 Hman)
      as (E1 & E2 & E3 & E4 & E5 & _); [lia|exact Hr|]. auto.
  - intros w Hm. unfold outputs, exec.
    rewrite (user_idle_during_manual_pause w Hm), (user_active_during_manual_pause w Hm).
    repeat split.
  - exact manual_pause_tick_calls.
  - exact (@resume_request_cancels_manual_pause (loop w1) r mid D k w2 HJ2 Hr).
Qed.

Lemma manual_pause_overrides_idle_witness :
  (TimerManager._state (timer_manager scenario_D_world) = TimerManager.STATE_RUNNING /\
   TimerManager._remaining_seconds (timer_manager scenario_D_world) = 40 /\
   Forall idle_or_timer scenario_D_events /\
   manual_fires (loop (exec (on_pause_dialog_response true 10) scenario_D_world))
     scenario_D_events = 9%nat) /\
  calls (outputs (on_pause_dialog_response true 10) scenario_D_world
         ++ outputs (run scenario_D_events)
              (exec (on_pause_dialog_response true 10) scenario_D_world))
  = [m_pause] /\
  TimerManager._remaining_seconds
    (timer_manager
       (exec (fire 2%positive)
          (exec (run scenario_D_events)
             (exec (on_pause_dialog_response true 10) scenario_D_world))))
  = 40.
Proof.
  assert (Hst : TimerManager._state (timer_manager scenario_D_world)
                = TimerManager.STATE_RUNNING) by (vm_compute; reflexivity).
  assert (Hr : TimerManager._remaining_seconds (timer_manager scenario_D_world) = 40)
    by (vm_compute; reflexivity).
  assert (Hall : Forall idle_or_timer scenario_D_events) by (repeat constructor).
  assert (Hn : manual_fires (loop (exec (on_pause_dialog_response true 10) scenario_D_world))
                 scenario_D_events = 9%nat) by (vm_compute; reflexivity).
  assert (Hpos : 0 < TimerManager._remaining_seconds (timer_manager scenario_D_world))
    by (rewrite Hr; reflexivity).
  assert (Hlt : Z.of_nat (manual_fires
                            (loop (exec (on_pause_dialog_response true 10) scenario_D_world))
                            scenario_D_events) < 10)
    by (rewrite Hn; reflexivity).
  pose proof (@manual_pause_overrides_idle scenario_D_world 10 scenario_D_events
                Hst Hpos eq_refl Hall Hlt) as (Hcalls & _ & _ & Hlast & _).
  split; [repeat split; assumption|]. split.
  - exact Hcalls.
  - rewrite Hr in Hlast.
    apply (Hlast 2%positive); [rewrite Hn; reflexivity|vm_compute; reflexivity].
Defined.

End MindfulBreakAppFacts.
(** * Further properties *)

(** ** Rounding of durations *)

Lemma py_round_comp (x y : Q) : (x == y)%Q -> py_round x = py_round y.
Proof.
  intros H. unfold py_round.
  assert (Hf : Qfloor x = Qfloor y) by (rewrite H; reflexivity).
  rewrite Hf.
  assert (Hc : Qcompare (x - inject_Z (Qfloor y)) (1 # 2)
               = Qcompare (y - inject_Z (Qfloor y)) (1 # 2)) by (rewrite H; reflexivity).
  rewrite Hc. reflexivity.
Qed.

Lemma to_seconds_whole_minutes (m : Z) :
  1 <= m -> TimerManager.to_seconds (inject_Z m) = 60 * m.
Proof.
  intros Hm. unfold TimerManager.to_seconds.
  rewrite (py_round_comp (x := inject_Z m * 60) (y := inject_Z (m * 60))).
  - rewrite py_round_inject. destruct (Z.ltb_spec (m * 60) 1); lia.
  - rewrite inject_Z_mult. reflexivity.
Qed.

Lemma to_seconds_of_seconds (d : Z) :
  1 <= d -> TimerManager.to_seconds (inject_Z d / 60) = d.
Proof.
  intros Hd. unfold TimerManager.to_seconds.
  rewrite (py_round_comp (x := inject_Z d / 60 * 60) (y := inject_Z d)).
  - rewrite py_round_inject. destruct (Z.ltb_spec d 1); lia.
  - field.
Qed.

(** ** The countdown engine, continued *)

Module TimerManagerExtra.
Import SW TimerManager TimerManagerSpec TimerManagerMore TimerManagerFacts.

#[local] Arguments GLib.find_source : simpl never.
#[local] Arguments GLib.source_remove : simpl never.
#[local] Arguments GLib.timeout_add_seconds : simpl never.

Lemma fire_not_live id w :
  GLib.find_source id (loop w) = None -> fire id w = (tt, w, []).
Proof.
  destruct w as [s c]; cbn. intros H. unfold_engine; cbn. rewrite H. reflexivity.
Qed.

Lemma fire_live_in_reachable id w s :
  reachable w -> GLib.find_source id (loop w) = Some s ->
  _state (self w) = STATE_RUNNING /\ _timer_source_id (self w) = Some id /\
  is_tick_source s /\ 1 <= _remaining_seconds (self w).
Proof.
  intros Hr Hs.
  destruct (reachable_owns_its_timer Hr) as (_ & Hlive & Honly).
  pose proof (Honly _ _ Hs) as Ht. destruct (Hlive _ Ht) as [Hst Hl].
  rewrite Hs in Hl. inversion Hl; subst.
  repeat split; auto.
  destruct (reachable_values_ok Hr) as [_ Hv]. rewrite Hst in Hv. exact Hv.
Qed.

(** X1. In every reachable state the main loop holds exactly the timer the
    engine stores, and only while RUNNING.  So outside RUNNING no dispatch has
    any effect, and a dispatch that has an effect is the engine's one timer
    lowering the remaining seconds by exactly one. *)
Theorem one_timer_only_while_running (w : world) :
  reachable w ->
  owns_its_timer w /\
  (_state (self w) <> STATE_RUNNING -> forall id, fire id w = (tt, w, [])) /\
  (forall id,
     fire id w = (tt, w, [])
     \/ (_state (self w) = STATE_RUNNING /\
         _timer_source_id (self w) = Some id /\
         _remaining_seconds (self (exec (fire id) w)) = _remaining_seconds (self w) - 1)).
Proof.
  intros Hr. split; [exact (reachable_owns_its_timer Hr)|]. split.
  - intros Hne id. destruct (GLib.find_source id (loop w)) as [s|] eqn:Hs.
    + destruct (fire_live_in_reachable id Hr Hs) as (Hst & _). contradiction.
    + apply fire_not_live, Hs.
  - intros id. destruct (GLib.find_source id (loop w)) as [s|] eqn:Hs.
    + right. destruct (fire_live_in_reachable id Hr Hs) as (Hst & Ht & Htick & Hrem).
      repeat split; auto. unfold exec.
      rewrite (fire_tick_running id w Hs Htick Hst).
      destruct (Z.ltb_spec 0 (_remaining_seconds (self w) - 1)); cbn; lia.
    + left. apply fire_not_live, Hs.
Qed.

Lemma one_timer_only_while_running_witness :
  let w := exec pause (exec start (exec (set_interval 1) fresh_world)) in
  reachable w /\ fire 1%positive w = (tt, w, []).
Proof.
  cbn zeta.
  assert (Hr : reachable (exec pause (exec start (exec (set_interval 1) fresh_world)))).
  { apply (reach_step OpPause), (reach_step OpStart), (reach_step (OpSetInterval 1)).
    exact reach_init. }
  split; [exact Hr|].
  apply (proj1 (proj2 (one_timer_only_while_running Hr))). discriminate.
Defined.

Lemma repeat_snoc {A} (a : A) n : repeat a (S n) = repeat a n ++ [a].
Proof.
  induction n as [|n IH]; [reflexivity|].
  cbn [repeat app] in *. rewrite <- IH. reflexivity.
Qed.

Lemma reachable_run os : forall w, reachable w -> reachable (exec (run os) w).
Proof.
  induction os as [|o os IH]; intros w Hr.
  - exact Hr.
  - unfold exec. rewrite run_cons. unfold final at 1; cbn [fst snd].
    apply IH. apply (reach_step o), Hr.
Qed.

Lemma countdown_from id w s :
  GLib.find_source id (loop w) = Some s -> is_tick_source s ->
  _state (self w) = STATE_RUNNING ->
  1 <= _remaining_seconds (self w) ->
  counts_down_to_break (_remaining_seconds (self w)) id w.
Proof.
  intros Hs Htick Hst Hrem. split.
  - intros k Hk. cbn zeta. unfold exec, emitted.
    rewrite (run_fires_running k id w Hs Htick Hst Hk).
    unfold final, output, with_remaining; cbn. auto.
  - cbn zeta.
    set (n := _remaining_seconds (self w)) in *.
    destruct (Z.to_nat n) as [|m] eqn:Hn; [lia|].
    assert (Hm : Z.of_nat m = n - 1) by lia.
    replace (S m - 1)%nat with m by lia.
    rewrite repeat_snoc. unfold exec, emitted. rewrite run_app.
    assert (Hlt : Z.of_nat m < _remaining_seconds (self w)) by (fold n; lia).
    rewrite (run_fires_running m id w Hs Htick Hst Hlt).
    fold n. unfold final, output; cbn [fst snd].
    rewrite run_cons. cbn [perform run]. unfold final, output; cbn [fst snd].
    rewrite (fire_tick_running id _ (s := s)); cbn [self loop]; auto.
    unfold with_remaining; cbn [_state _timer_source_id _remaining_seconds
                                 _configured_interval_seconds].
    destruct (Z.ltb_spec 0 (n - Z.of_nat m - 1)); [lia|].
    unfold ret; cbn [fst snd self loop _state _timer_source_id _remaining_seconds].
    rewrite GLibFacts.find_source_remove_same, app_nil_r. auto.
Qed.






(** X4. Pausing and resuming loses no time.  From any reachable RUNNING state,
    [pause()] then [resume()] emits [timer_paused], then [timer_resumed] with
    the unchanged remaining seconds, kills the old timer and installs a new
    one, and the break follows after exactly the remaining seconds of
    dispatches of the new timer. *)
Theorem pause_resume_loses_no_time (w : world) :
  reachable w -> _state (self w) = STATE_RUNNING ->
  let w2 := exec resume (exec pause w) in
  emitted pause w = [timer_paused] /\
  emitted resume (exec pause w)
  = [timer_resumed; timer_tick (_remaining_seconds (self w))] /\
  _configured_interval_seconds (self w2) = _configured_interval_seconds (self w) /\
  (forall old, _timer_source_id (self w) = Some old ->
     GLib.find_source old (loop w2) = None) /\
  counts_down_to_break (_remaining_seconds (self w)) (GLib.next_source_id (loop w)) w2.
Proof.
  intros Hr Hst. cbn zeta.
  destruct (reachable_owns_its_timer Hr) as (Hfresh & Hlive & Honly).
  destruct (reachable_values_ok Hr) as [_ Hv]. rewrite Hst in Hv.
  unfold exec, emitted. rewrite (pause_running w Hst).
  unfold final, output; cbn [fst snd].
  rewrite resume_paused; cbn [self loop _state _remaining_seconds]; [|reflexivity|lia].
  cbn [fst snd self loop _configured_interval_seconds].
  set (c1 := match _timer_source_id (self w) with
             | Some id => GLib.source_remove id (loop w)
             | None => loop w
             end).
  assert (Hf1 : GLib.fresh c1).
  { unfold c1. destruct (_timer_source_id (self w));
      [apply GLibFacts.fresh_source_remove|]; exact Hfresh. }
  assert (Hn1 : GLib.next_source_id c1 = GLib.next_source_id (loop w)).
  { unfold c1. destruct (_timer_source_id (self w)); reflexivity. }
  split; [reflexivity|]. split; [reflexivity|]. split; [reflexivity|]. split.
  - intros old Hold. unfold GLib.timeout_add_seconds.
    rewrite GLibFacts.find_source_attach_old.
    + unfold c1. rewrite Hold. apply GLibFacts.find_source_remove_same.
    + rewrite Hn1. destruct (Hlive _ Hold) as [_ Hl].
      pose proof (GLibFacts.find_source_lt _ Hfresh Hl). lia.
  - rewrite <- Hn1.
    apply (@countdown_from (GLib.next_source_id c1)
             {| self := {| _state := STATE_RUNNING;
                           _timer_source_id := Some (GLib.next_source_id c1);
                           _remaining_seconds := _remaining_seconds (self w);
                           _configured_interval_seconds :=
                             _configured_interval_seconds (self w) |};
                loop := snd (GLib.timeout_add_seconds 1 GLib.TimerManager_tick c1) |}
             _ (GLibFacts.find_source_attach_new (Some 1) GLib.TimerManager_tick Hf1));
      [reflexivity | reflexivity | exact Hv].
Qed.

Lemma pause_resume_loses_no_time_witness :
  let w := exec (run (repeat (OpFire 1%positive) 4))
             (exec start (exec (set_interval 1) fresh_world)) in
  reachable w /\ _state (self w) = STATE_RUNNING /\
  counts_down_to_break 56 2%positive (exec resume (exec pause w)).
Proof.
  cbn zeta.
  assert (Hr : reachable (exec (run (repeat (OpFire 1%positive) 4))
                            (exec start (exec (set_interval 1) fresh_world)))).
  { apply reachable_run.
    apply (reach_step OpStart), (reach_step (OpSetInterval 1)). exact reach_init. }
  split; [exact Hr|]. split; [reflexivity|].
  exact (proj2 (proj2 (proj2 (proj2 (pause_resume_loses_no_time Hr eq_refl))))).
Defined.

Lemma start_unconfigured w :
  _configured_interval_seconds (self w) <= 0 ->
  start w =
  (tt, {| self := {| _state := _state (self w); _timer_source_id := None;
                     _remaining_seconds := _remaining_seconds (self w);
                     _configured_interval_seconds := _configured_interval_seconds (self w) |};
          loop := match _timer_source_id (self w) with
                  | Some id => GLib.source_remove id (loop w)
                  | None => loop w
                  end |}, []).
Proof.
  destruct w as [[st tid rem conf] c]; cbn. intros Hc.
  unfold_engine; cbn.
  destruct tid as [t0|]; cbn; (destruct (Z.leb_spec conf 0); [|lia]); reflexivity.
Qed.

(** X5. [start()] on an engine whose interval was never configured starts
    nothing: it emits no signal and leaves state, remaining seconds and
    interval as they were.  It still cancels the timer, so a countdown begun by
    [postpone] is left RUNNING without a timer and no later dispatch of the
    main loop can advance it. *)
Theorem start_without_interval_starts_nothing (w : world) :
  reachable w -> _configured_interval_seconds (self w) <= 0 ->
  let w' := exec start w in
  emitted start w = [] /\
  _state (self w') = _state (self w) /\
  _remaining_seconds (self w') = _remaining_seconds (self w) /\
  _configured_interval_seconds (self w') = _configured_interval_seconds (self w) /\
  _timer_source_id (self w') = None /\
  forall id, fire id w' = (tt, w', []).
Proof.
  intros Hr Hc. cbn zeta.
  destruct (reachable_owns_its_timer Hr) as (Hfresh & Hlive & Honly).
  unfold exec, emitted. rewrite (start_unconfigured w Hc).
  unfold final, output; cbn [fst snd self _state _timer_source_id _remaining_seconds
                               _configured_interval_seconds].
  do 5 (split; [reflexivity|]).
  intros id. apply fire_not_live; cbn [loop].
  destruct (_timer_source_id (self w)) as [t0|].
  - destruct (GLib.find_source id (GLib.source_remove t0 (loop w))) as [s|] eqn:Hs;
      [|reflexivity].
    destruct (@no_source_after_remove (loop w) t0 Honly id s Hs).
  - destruct (GLib.find_source id (loop w)) as [s|] eqn:Hs; [|reflexivity].
    discriminate (Honly _ _ Hs).
Qed.

Lemma start_without_interval_starts_nothing_witness :
  let w := exec (postpone 1) fresh_world in
  reachable w /\ _configured_interval_seconds (self w) <= 0 /\
  _state (self (exec start w)) = STATE_RUNNING /\
  fire 1%positive (exec start w) = (tt, exec start w, []).
Proof.
  cbn zeta.
  assert (Hr : reachable (exec (postpone 1) fresh_world)).
  { apply (reach_step (OpPostpone 1)). exact reach_init. }
  assert (Hc : _configured_interval_seconds (self (exec (postpone 1) fresh_world)) <= 0).
  { vm_compute. discriminate. }
  split; [exact Hr|]. split; [exact Hc|].
  pose proof (start_without_interval_starts_nothing Hr Hc) as H. cbn zeta in H.
  split; [rewrite (proj1 (proj2 H)); reflexivity | apply H].
Defined.

(** *** The engine on a shared main loop *)

Lemma loop_frame_refl P c : loop_frame P c c.
Proof. unfold loop_frame. repeat split; auto. lia. Qed.

Lemma loop_frame_trans P c1 c2 c3 :
  loop_frame P c1 c2 -> loop_frame P c2 c3 -> loop_frame P c1 c3.
Proof.
  intros (Hn1 & Ho1 & Hk1) (Hn2 & Ho2 & Hk2). unfold loop_frame.
  split; [lia|]. split.
  - intros id s Hs. destruct (Ho2 _ _ Hs) as [H|H]; [auto|]. right. lia.
  - intros id s Hs Hcb. apply Hk2; auto.
Qed.

Lemma loop_frame_remove (P : GLib.callback -> Prop) c t :
  (forall s, GLib.find_source t c = Some s -> ~ P (GLib.src_callback s)) ->
  loop_frame P c (GLib.source_remove t c).
Proof.
  intros Ht. unfold loop_frame. split; [unfold GLib.source_remove; cbn; lia|]. split.
  - intros id s Hs. left. apply (GLibFacts.find_source_remove_some _ _ _ Hs).
  - intros id s Hs Hcb. destruct (Pos.eq_dec id t) as [->|Hne].
    + destruct (Ht _ Hs Hcb).
    + rewrite GLibFacts.find_source_remove_other by exact Hne. exact Hs.
Qed.

Lemma loop_frame_attach P interval cb c :
  GLib.fresh c -> loop_frame P c (snd (GLib.attach interval cb c)).
Proof.
  intros Hf. unfold loop_frame. split; [unfold GLib.attach; cbn; lia|]. split.
  - intros id s Hs. destruct (Pos.eq_dec id (GLib.next_source_id c)) as [->|Hne].
    + right. lia.
    + left. rewrite GLibFacts.find_source_attach_old in Hs by exact Hne. exact Hs.
  - intros id s Hs _. rewrite GLibFacts.find_source_attach_old; [exact Hs|].
    pose proof (GLibFacts.find_source_lt _ Hf Hs). lia.
Qed.

Lemma owns_ticks_off st rem conf st' rem' conf' t0 c :
  engine_owns_ticks {| _state := st; _timer_source_id := Some t0;
                       _remaining_seconds := rem;
                       _configured_interval_seconds := conf |} c ->
  engine_owns_ticks {| _state := st'; _timer_source_id := None;
                       _remaining_seconds := rem';
                       _configured_interval_seconds := conf' |} (GLib.source_remove t0 c) /\
  loop_frame not_tick c (GLib.source_remove t0 c) /\
  (forall id s, GLib.find_source id (GLib.source_remove t0 c) = Some s ->
                GLib.src_callback s <> GLib.TimerManager_tick).
Proof.
  intros [Hlive Honly]; cbn in *.
  assert (Hno : forall id s, GLib.find_source id (GLib.source_remove t0 c) = Some s ->
                  GLib.src_callback s <> GLib.TimerManager_tick).
  { intros id s Hs Hcb.
    pose proof (GLibFacts.find_source_remove_some _ _ _ Hs) as Hs'.
    pose proof (Honly _ _ Hs' Hcb) as E. inversion E; subst.
    rewrite GLibFacts.find_source_remove_same in Hs. discriminate. }
  split; [|split; [|exact Hno]].
  - split; cbn; [discriminate|]. intros id s Hs Hcb. destruct (Hno _ _ Hs Hcb).
  - apply loop_frame_remove. intros s Hs Hp. apply Hp.
    destruct (Hlive _ eq_refl) as [_ Hl]. rewrite Hl in Hs. inversion Hs; reflexivity.
Qed.

Lemma owns_ticks_idle st rem conf st' rem' conf' c :
  engine_owns_ticks {| _state := st; _timer_source_id := None;
                       _remaining_seconds := rem;
                       _configured_interval_seconds := conf |} c ->
  engine_owns_ticks {| _state := st'; _timer_source_id := None;
                       _remaining_seconds := rem';
                       _configured_interval_seconds := conf' |} c /\
  (forall id s, GLib.find_source id c = Some s ->
                GLib.src_callback s <> GLib.TimerManager_tick).
Proof.
  intros [Hlive Honly]; cbn in *.
  assert (Hno : forall id s, GLib.find_source id c = Some s ->
                  GLib.src_callback s <> GLib.TimerManager_tick).
  { intros id s Hs Hcb. discriminate (Honly _ _ Hs Hcb). }
  split; [|exact Hno].
  split; cbn; [discriminate|]. intros id s Hs Hcb. destruct (Hno _ _ Hs Hcb).
Qed.

Lemma owns_ticks_new rem' conf' c0 :
  GLib.fresh c0 ->
  (forall id s, GLib.find_source id c0 = Some s ->
                GLib.src_callback s <> GLib.TimerManager_tick) ->
  GLib.fresh (snd (GLib.timeout_add_seconds 1 GLib.TimerManager_tick c0)) /\
  engine_owns_ticks {| _state := STATE_RUNNING;
                       _timer_source_id := Some (GLib.next_source_id c0);
                       _remaining_seconds := rem';
                       _configured_interval_seconds := conf' |}
    (snd (GLib.timeout_add_seconds 1 GLib.TimerManager_tick c0)) /\
  loop_frame not_tick c0 (snd (GLib.timeout_add_seconds 1 GLib.TimerManager_tick c0)).
Proof.
  intros Hf Hno. unfold GLib.timeout_add_seconds.
  split; [apply GLibFacts.fresh_attach, Hf|]. split; [|apply loop_frame_attach, Hf].
  split; cbn [_timer_source_id _state].
  - intros id E. inversion E; subst. split; [reflexivity|].
    apply (GLibFacts.find_source_attach_new (Some 1) GLib.TimerManager_tick Hf).
  - intros id s Hs Hcb. destruct (Pos.eq_dec id (GLib.next_source_id c0)) as [->|Hne];
      [reflexivity|].
    rewrite GLibFacts.find_source_attach_old in Hs by exact Hne.
    destruct (Hno _ _ Hs Hcb).
Qed.

(** Every method of the engine keeps the engine's hold on its timer and
    leaves the sources of the other components alone. *)
Lemma method_on_shared_loop o w :
  (forall id, o <> OpFire id) ->
  GLib.fresh (loop w) -> engine_owns_ticks (self w) (loop w) ->
  GLib.fresh (loop (exec (perform o) w)) /\
  engine_owns_ticks (self (exec (perform o) w)) (loop (exec (perform o) w)) /\
  loop_frame not_tick (loop w) (loop (exec (perform o) w)).
Proof.
  destruct w as [[st tid rem conf] c]; cbn. intros Hnf Hf HE.
  assert (Hsame : forall rem' conf',
            GLib.fresh c /\
            engine_owns_ticks {| _state := st; _timer_source_id := tid;
                                 _remaining_seconds := rem';
                                 _configured_interval_seconds := conf' |} c /\
            loop_frame not_tick c c).
  { intros rem' conf'. split; [exact Hf|]. split; [exact HE|apply loop_frame_refl]. }
  assert (Hoff : forall st' rem' conf' t0, tid = Some t0 ->
            GLib.fresh (GLib.source_remove t0 c) /\
            engine_owns_ticks {| _state := st'; _timer_source_id := None;
                                 _remaining_seconds := rem';
                                 _configured_interval_seconds := conf' |}
              (GLib.source_remove t0 c) /\
            loop_frame not_tick c (GLib.source_remove t0 c)).
  { intros st' rem' conf' t0 ->.
    destruct (@owns_ticks_off st rem conf st' rem' conf' t0 c HE) as (H1 & H2 & _).
    split; [apply GLibFacts.fresh_source_remove, Hf|]. auto. }
  assert (Hidle : forall st' rem' conf', tid = None ->
            GLib.fresh c /\
            engine_owns_ticks {| _state := st'; _timer_source_id := None;
                                 _remaining_seconds := rem';
                                 _configured_interval_seconds := conf' |} c /\
            loop_frame not_tick c c).
  { intros st' rem' conf' ->.
    destruct (@owns_ticks_idle st rem conf st' rem' conf' c HE) as (H1 & _).
    split; [exact Hf|]. split; [exact H1|apply loop_frame_refl]. }
  assert (Hnew0 : forall rem' conf', tid = None ->
            GLib.fresh (snd (GLib.timeout_add_seconds 1 GLib.TimerManager_tick c)) /\
            engine_owns_ticks {| _state := STATE_RUNNING;
                                 _timer_source_id := Some (GLib.next_source_id c);
                                 _remaining_seconds := rem';
                                 _configured_interval_seconds := conf' |}
              (snd (GLib.timeout_add_seconds 1 GLib.TimerManager_tick c)) /\
            loop_frame not_tick c (snd (GLib.timeout_add_seconds 1 GLib.TimerManager_tick c))).
  { intros rem' conf' ->.
    destruct (@owns_ticks_idle st rem conf st rem conf c HE) as (_ & Hno).
    apply (owns_ticks_new rem' conf' Hf Hno). }
  assert (Hnew1 : forall rem' conf' t0, tid = Some t0 ->
            GLib.fresh (snd (GLib.timeout_add_seconds 1 GLib.TimerManager_tick
                               (GLib.source_remove t0 c))) /\
            engine_owns_ticks {| _state := STATE_RUNNING;
                                 _timer_source_id := Some (GLib.next_source_id c);
                                 _remaining_seconds := rem';
                                 _configured_interval_seconds := conf' |}
              (snd (GLib.timeout_add_seconds 1 GLib.TimerManager_tick
                      (GLib.source_remove t0 c))) /\
            loop_frame not_tick c
              (snd (GLib.timeout_add_seconds 1 GLib.TimerManager_tick
                      (GLib.source_remove t0 c)))).
  { intros rem' conf' t0 ->.
    destruct (@owns_ticks_off st rem conf st rem conf t0 c HE) as (_ & Hfr & Hno).
    pose proof (GLibFacts.fresh_source_remove t0 Hf) as Hf'.
    destruct (owns_ticks_new rem' conf' Hf' Hno) as (H1 & H2 & H3).
    split; [exact H1|]. split; [exact H2|].
    apply (loop_frame_trans Hfr H3). }
  destruct o; unfold_engine; cbn.
  - destruct st; cbn; apply Hsame.
  - destruct tid as [t0|]; cbn; destruct (Z.leb_spec conf 0); cbn.
    + apply (Hoff st rem conf t0 eq_refl).
    + apply (Hnew1 conf conf t0 eq_refl).
    + apply Hsame.
    + apply (Hnew0 conf conf eq_refl).
  - destruct st; cbn; try apply Hsame. destruct tid as [t0|]; cbn.
    + apply (Hoff STATE_PAUSED rem conf t0 eq_refl).
    + apply (Hidle STATE_PAUSED rem conf eq_refl).
  - destruct st; cbn; try apply Hsame.
    assert (E : tid = None).
    { destruct tid as [t0|]; [|reflexivity].
      destruct HE as [Hlive _]. destruct (Hlive _ eq_refl); discriminate. }
    destruct (Z.ltb_spec 0 rem); cbn.
    + apply (Hnew0 rem conf E).
    + subst tid. apply (Hidle STATE_BREAK_ACTIVE 0 conf eq_refl).
  - destruct tid as [t0|]; destruct st; cbn;
      first [apply (Hoff STATE_STOPPED conf conf t0 eq_refl)
            | apply (Hidle STATE_STOPPED conf conf eq_refl)].
  - destruct tid as [t0|]; cbn.
    + apply (Hnew1 (to_seconds minutes) conf t0 eq_refl).
    + apply (Hnew0 (to_seconds minutes) conf eq_refl).
  - destruct (Hnf id eq_refl).
Qed.

End TimerManagerExtra.
(** ** The idle detector, continued *)

Module IdleMonitorExtra.
Import SW IdleMonitor IdleMonitorSpec IdleMonitorMore IdleMonitorFacts.

#[local] Arguments GLib.find_source : simpl never.
#[local] Arguments GLib.source_remove : simpl never.
#[local] Arguments _check_idle : simpl never.

Lemma construct_failed thr x :
  available x = false -> stopped (self (construct thr x)).
Proof.
  unfold available, construct, __init__, stopped.
  destruct (XOpenDisplay x =? 0), (XDefaultRootWindow x =? 0),
    (XScreenSaverAllocInfo x =? 0); cbn; intros H; try discriminate; auto.
Qed.

Lemma construct_succeeded thr x :
  available x = true ->
  self (construct thr x) =
  {| _idle_threshold_ms := (if thr <? 1 then 1 else thr) * 1000;
     _is_idle := false; _timer_source_id := None;
     _display := Some (XOpenDisplay x);
     _root_window := Some (XDefaultRootWindow x);
     _saver_info := Some (XScreenSaverAllocInfo x);
     _initialized_successfully := true |} /\
  snd (__init__ thr x) = [].
Proof.
  unfold available, construct, __init__.
  destruct (XOpenDisplay x =? 0), (XDefaultRootWindow x =? 0),
    (XScreenSaverAllocInfo x =? 0); cbn; intros H; try discriminate; auto.
Qed.

(** X6. When the X server fails any of the constructor's three calls the
    detector is built disabled: nothing that is later called or dispatched
    changes it, emits a signal or attaches a source.  The constructor does not
    close a display it could not open, and closes an opened one twice. *)
Theorem failed_construction_disables_detector (thr : Z) (x : X11) :
  available x = false ->
  let w := construct thr x in
  _initialized_successfully (self w) = false /\
  snd (__init__ thr x)
  = (if XOpenDisplay x =? 0 then []
     else [XCloseDisplay (XOpenDisplay x); XCloseDisplay (XOpenDisplay x)]) /\
  forall os,
    self (exec (run os) w) = self w /\
    emitted (run os) w = [] /\
    forall id, GLib.find_source id (loop (exec (run os) w)) = None.
Proof.
  intros Hx. cbn zeta. split; [apply (construct_failed thr x Hx)|]. split.
  - revert Hx. unfold available, __init__.
    destruct (XOpenDisplay x =? 0), (XDefaultRootWindow x =? 0),
      (XScreenSaverAllocInfo x =? 0); cbn; intros H; try discriminate; reflexivity.
  - intros os.
    destruct (@stopped_run os (construct thr x) (construct_failed thr x Hx))
      as (Hs & He & Hsub).
    repeat split; auto.
    intros id. destruct (GLib.find_source id (loop (exec (run os) (construct thr x))))
      as [s|] eqn:E; [|reflexivity].
    apply Hsub in E. discriminate E.
Qed.

Lemma failed_construction_disables_detector_witness :
  let x := {| XOpenDisplay := 100; XDefaultRootWindow := 7; XScreenSaverAllocInfo := 0 |} in
  available x = false /\
  snd (__init__ 5 x) = [XCloseDisplay 100; XCloseDisplay 100] /\
  emitted (run [OpStart 30; OpFire 1%positive (QueryInfo 1 9000); OpStop]) (construct 5 x) = [].
Proof.
  cbn zeta. split; [reflexivity|].
  pose proof (@failed_construction_disables_detector 5
                {| XOpenDisplay := 100; XDefaultRootWindow := 7;
                   XScreenSaverAllocInfo := 0 |} eq_refl) as H.
  cbn zeta in H. destruct H as (_ & Hc & Hrun).
  split; [exact Hc | apply Hrun].
Defined.

(** *** Starting *)

Lemma start_spec n w :
  _initialized_successfully (self w) = true -> _timer_source_id (self w) = None ->
  start n w =
  (tt,
   {| self := {| _idle_threshold_ms := _idle_threshold_ms (self w);
                 _is_idle := _is_idle (self w);
                 _timer_source_id := Some (Pos.succ (GLib.next_source_id (loop w)));
                 _display := _display (self w);
                 _root_window := _root_window (self w);
                 _saver_info := _saver_info (self w);
                 _initialized_successfully := true |};
      loop := snd (GLib.timeout_add_seconds (if n <? 1 then 1 else n)
                     GLib.IdleMonitor_check_idle
                     (snd (GLib.idle_add GLib.IdleMonitor_check_idle (loop w)))) |},
   []).
Proof.
  destruct w as [[thr idle tid d r sv ini] c]; cbn. intros -> ->.
  unfold_monitor; cbn. reflexivity.
Qed.

Lemma start_started n w :
  _timer_source_id (self w) <> None -> start n w = (tt, w, []).
Proof.
  destruct w as [[thr idle tid d r sv ini] c]; cbn. intros H.
  unfold_monitor; cbn. destruct ini; cbn; [|reflexivity].
  destruct tid; [reflexivity|contradiction].
Qed.

(** X7. [start] on an initialized detector that is not polling attaches exactly
    two sources, both calling [_check_idle]: an immediate one and a periodic
    one with the given interval, at least 1 second, whose id the detector
    stores.  Sources already on the loop are untouched, and a second [start],
    whatever its interval, does nothing. *)
Theorem start_installs_two_checks_once (n : Z) (w : world) :
  _initialized_successfully (self w) = true ->
  _timer_source_id (self w) = None ->
  GLib.fresh (loop w) ->
  let id0 := GLib.next_source_id (loop w) in
  let id1 := Pos.succ id0 in
  let w1 := exec (start n) w in
  emitted (start n) w = [] /\
  _timer_source_id (self w1) = Some id1 /\
  GLib.find_source id0 (loop w1) = Some (immediate_check id0) /\
  GLib.find_source id1 (loop w1) = Some (periodic_check id1 (Z.max 1 n)) /\
  (forall id, id <> id0 -> id <> id1 ->
     GLib.find_source id (loop w1) = GLib.find_source id (loop w)) /\
  (forall m, start m w1 = (tt, w1, [])).
Proof.
  intros Hini Htid Hf. cbn zeta. unfold exec, emitted.
  rewrite (start_spec n w Hini Htid). unfold final, SW.output; cbn [fst snd self loop
    _timer_source_id].
  set (c0 := snd (GLib.idle_add GLib.IdleMonitor_check_idle (loop w))).
  assert (Hf0 : GLib.fresh c0) by (apply GLibFacts.fresh_attach, Hf).
  assert (Hn0 : GLib.next_source_id c0 = Pos.succ (GLib.next_source_id (loop w)))
    by reflexivity.
  replace (if n <? 1 then 1 else n) with (Z.max 1 n)
    by (destruct (Z.ltb_spec n 1); lia).
  split; [reflexivity|]. split; [reflexivity|]. split; [|split; [|split]].
  - unfold GLib.timeout_add_seconds. rewrite GLibFacts.find_source_attach_old.
    + apply (GLibFacts.find_source_attach_new None GLib.IdleMonitor_check_idle Hf).
    + rewrite Hn0. lia.
  - rewrite <- Hn0.
    apply (GLibFacts.find_source_attach_new (Some (Z.max 1 n))
             GLib.IdleMonitor_check_idle Hf0).
  - intros id H0 H1. unfold GLib.timeout_add_seconds.
    rewrite GLibFacts.find_source_attach_old by (rewrite Hn0; exact H1).
    unfold c0, GLib.idle_add. apply GLibFacts.find_source_attach_old, H0.
  - intros m. apply start_started. cbn. discriminate.
Qed.

Lemma start_installs_two_checks_once_witness :
  let w := construct 5 {| XOpenDisplay := 100; XDefaultRootWindow := 7;
                          XScreenSaverAllocInfo := 200 |} in
  (_initialized_successfully (self w) = true /\ _timer_source_id (self w) = None /\
   GLib.fresh (loop w)) /\
  GLib.find_source 2%positive (loop (exec (start 0) w))
  = Some (periodic_check 2%positive 1).
Proof.
  cbn zeta. split; [repeat split; constructor|].
  exact (proj1 (proj2 (proj2 (proj2
    (@start_installs_two_checks_once 0
       (construct 5 {| XOpenDisplay := 100; XDefaultRootWindow := 7;
                       XScreenSaverAllocInfo := 200 |})
       eq_refl eq_refl (Forall_nil _)))))).
Defined.

(** *** Dispatches of a started detector are polls *)

Lemma fire_is_poll id q w s :
  GLib.find_source id (loop w) = Some s ->
  GLib.src_callback s = GLib.IdleMonitor_check_idle ->
  operational (self w) = true ->
  _timer_source_id (self w) <> None ->
  fire id q w = (tt, final (_check_idle q w), SW.output (_check_idle q w)).
Proof.
  intros Hs Hcb Hop Ht. rewrite monitor_fire_spec, Hs.
  destruct s as [i iv cb]; cbn in Hcb; subst cb. cbn zeta.
  replace (value (_check_idle q w)) with true; [reflexivity|].
  rewrite (check_idle_operational q w Hop). cbn zeta.
  destruct (_timer_source_id (self w)); [|contradiction].
  destruct (measured (self w) q); [reflexivity|]. destruct q; reflexivity.
Qed.

Lemma fires_are_polls id s qs : forall w,
  GLib.find_source id (loop w) = Some s ->
  GLib.src_callback s = GLib.IdleMonitor_check_idle ->
  operational (self w) = true ->
  _timer_source_id (self w) <> None ->
  run (map (OpFire id) qs) w = (tt, final (polls qs w), SW.output (polls qs w)).
Proof.
  induction qs as [|q qs IH]; intros w Hs Hcb Hop Ht.
  - reflexivity.
  - cbn [map]. rewrite monitor_run_cons, polls_cons. cbn [perform].
    rewrite (fire_is_poll id q w Hs Hcb Hop Ht).
    unfold final at 2 5, SW.output at 1 3; cbn [fst snd].
    destruct (check_idle_frame q w) as (Hl & _ & Htid & _).
    rewrite IH; [reflexivity | rewrite Hl; exact Hs | exact Hcb
                | rewrite check_idle_keeps_operational; exact Hop
                | rewrite Htid; exact Ht].
Qed.

Lemma polls_frame qs : forall w,
  let w' := final (polls qs w) in
  loop w' = loop w /\
  _initialized_successfully (self w') = _initialized_successfully (self w) /\
  _timer_source_id (self w') = _timer_source_id (self w).
Proof.
  induction qs as [|q qs IH]; intros w; cbn zeta.
  - cbn. auto.
  - assert (E : final (polls (q :: qs) w) = final (polls qs (final (_check_idle q w))))
      by (rewrite polls_cons; reflexivity).
    rewrite E.
    destruct (IH (final (_check_idle q w))) as (Hl & Hi & Ht).
    destruct (check_idle_frame q w) as (Hl' & Hi' & Ht' & _).
    rewrite Hl, Hi, Ht. auto.
Qed.

Lemma started_check_keeps_polling id0 t w1 :
  operational (self w1) = true ->
  _timer_source_id (self w1) = Some t -> t <> id0 ->
  GLib.find_source id0 (loop w1) = Some (immediate_check id0) ->
  (forall qs,
     let w2 := exec (run (map (OpFire id0) qs)) w1 in
     GLib.find_source id0 (loop w2) = Some (immediate_check id0) /\
     signals (emitted (run (map (OpFire id0) qs)) w1)
     = edge_events (_is_idle (self w1)) (map (measured (self w1)) qs)) /\
  (forall qs q,
     let w2 := exec stop (exec (run (map (OpFire id0) qs)) w1) in
     GLib.find_source id0 (loop w2) = Some (immediate_check id0) /\
     emitted (fire id0 q) w2 = [] /\
     GLib.find_source id0 (loop (exec (fire id0 q) w2)) = None).
Proof.
  intros Hop1 Ht1 Hne Hsrc.
  assert (Hini1 : _initialized_successfully (self w1) = true).
  { unfold operational in Hop1. apply andb_prop in Hop1. destruct Hop1 as [Hop _].
    apply andb_prop in Hop. tauto. }
  assert (Hruns : forall qs,
            run (map (OpFire id0) qs) w1
            = (tt, final (polls qs w1), SW.output (polls qs w1))).
  { intros qs. apply (fires_are_polls _ qs w1 Hsrc eq_refl Hop1).
    rewrite Ht1. discriminate. }
  split.
  - intros qs. cbn zeta.
    assert (E : exec (run (map (OpFire id0) qs)) w1 = final (polls qs w1))
      by (unfold exec; rewrite Hruns; reflexivity).
    assert (Eo : emitted (run (map (OpFire id0) qs)) w1 = emitted (polls qs) w1)
      by (unfold emitted; rewrite Hruns; reflexivity).
    rewrite E, Eo.
    destruct (polls_frame qs w1) as (Hl & _). rewrite Hl. split; [exact Hsrc|].
    rewrite polls_edge_events, Hop1. reflexivity.
  - intros qs q. cbn zeta.
    assert (E : exec (run (map (OpFire id0) qs)) w1 = final (polls qs w1))
      by (unfold exec; rewrite Hruns; reflexivity).
    rewrite E. clear E.
    destruct (polls_frame qs w1) as (Hl & Hi & Ht).
    set (w2 := final (polls qs w1)) in *.
    assert (Hini2 : _initialized_successfully (self w2) = true)
      by (rewrite Hi; exact Hini1).
    assert (E : exec stop w2 =
                {| self := {| _idle_threshold_ms := _idle_threshold_ms (self w2);
                              _is_idle := _is_idle (self w2);
                              _timer_source_id := None;
                              _display := if truthy (_display (self w2)) then None
                                          else _display (self w2);
                              _root_window := _root_window (self w2);
                              _saver_info := if truthy (_saver_info (self w2)) then None
                                             else _saver_info (self w2);
                              _initialized_successfully := false |};
                   loop := GLib.source_remove t (loop w2) |}).
    { unfold exec. rewrite (monitor_stop_spec w2 Hini2). unfold final; cbn [fst snd].
      rewrite Ht, Ht1. reflexivity. }
    rewrite E. clear E. cbn [loop].
    assert (Hkept : GLib.find_source id0 (GLib.source_remove t (loop w2))
                    = Some (immediate_check id0)).
    { rewrite GLibFacts.find_source_remove_other by congruence. rewrite Hl. exact Hsrc. }
    split; [exact Hkept|].
    unfold exec, emitted. rewrite monitor_fire_spec. cbn [loop]. rewrite Hkept.
    unfold immediate_check. cbn zeta.
    rewrite check_idle_not_operational by reflexivity.
    cbn [value final SW.output fst snd self loop]. split; [reflexivity|].
    apply GLibFacts.find_source_remove_same.
Qed.

(** X8. The immediate check that [start] schedules is not a one-shot: the
    detector stores its periodic timer before the main loop first dispatches
    it, so [_check_idle] answers that the source be kept.  Every dispatch of it
    is a full poll, with the same edge-triggered emissions, and it stays on the
    loop until the detector is stopped; its first dispatch after [stop] emits
    nothing and removes it. *)
Theorem immediate_check_is_not_one_shot (n : Z) (w : world) :
  operational (self w) = true ->
  _timer_source_id (self w) = None ->
  GLib.fresh (loop w) ->
  let id0 := GLib.next_source_id (loop w) in
  let w1 := exec (start n) w in
  (forall qs,
     let w2 := exec (run (map (OpFire id0) qs)) w1 in
     GLib.find_source id0 (loop w2) = Some (immediate_check id0) /\
     signals (emitted (run (map (OpFire id0) qs)) w1)
     = edge_events (_is_idle (self w)) (map (measured (self w)) qs)) /\
  (forall qs q,
     let w2 := exec stop (exec (run (map (OpFire id0) qs)) w1) in
     GLib.find_source id0 (loop w2) = Some (immediate_check id0) /\
     emitted (fire id0 q) w2 = [] /\
     GLib.find_source id0 (loop (exec (fire id0 q) w2)) = None).
Proof.
  intros Hop Htid Hf. cbn zeta.
  assert (Hini : _initialized_successfully (self w) = true).
  { unfold operational in Hop. apply andb_prop in Hop. destruct Hop as [Hop _].
    apply andb_prop in Hop. tauto. }
  assert (E : exec (start n) w = final (start n w)) by reflexivity.
  rewrite E. clear E. rewrite (start_spec n w Hini Htid). unfold final; cbn [fst snd].
  set (w1 := {| self := _; loop := _ |}).
  assert (Hsrc : GLib.find_source (GLib.next_source_id (loop w)) (loop w1)
                 = Some (immediate_check (GLib.next_source_id (loop w)))).
  { unfold w1; cbn [loop]. unfold GLib.timeout_add_seconds.
    rewrite GLibFacts.find_source_attach_old.
    - apply (GLibFacts.find_source_attach_new None GLib.IdleMonitor_check_idle Hf).
    - cbn. lia. }
  assert (Hop1 : operational (self w1) = true).
  { unfold w1, operational in *; cbn. rewrite Hini in Hop. exact Hop. }
  assert (Hne : Pos.succ (GLib.next_source_id (loop w)) <> GLib.next_source_id (loop w))
    by lia.
  exact (@started_check_keeps_polling (GLib.next_source_id (loop w)) _ w1
           Hop1 eq_refl Hne Hsrc).
Qed.

Lemma immediate_check_is_not_one_shot_witness :
  let w := construct 5 {| XOpenDisplay := 100; XDefaultRootWindow := 7;
                          XScreenSaverAllocInfo := 200 |} in
  (operational (self w) = true /\ _timer_source_id (self w) = None /\
   GLib.fresh (loop w)) /\
  signals (emitted (run (map (OpFire 1%positive)
                           [QueryInfo 1 6000; QueryInfo 1 7000; QueryInfo 1 10]))
             (exec (start 30) w))
  = [user_idle; user_active].
Proof.
  cbn zeta. split; [repeat split; constructor|].
  exact (proj2 (proj1
    (@immediate_check_is_not_one_shot 30
       (construct 5 {| XOpenDisplay := 100; XDefaultRootWindow := 7;
                       XScreenSaverAllocInfo := 200 |})
       eq_refl eq_refl (Forall_nil _))
    [QueryInfo 1 6000; QueryInfo 1 7000; QueryInfo 1 10])).
Defined.

(** *** Resources *)

Lemma releases_app l1 l2 : releases (l1 ++ l2) = releases l1 ++ releases l2.
Proof. apply filter_app. Qed.

Lemma releases_map_Emit l : releases (map Emit l) = [].
Proof. induction l as [|a l IH]; [reflexivity|exact IH]. Qed.

Lemma holds_operational d p s : holds d p s -> operational s = true.
Proof.
  intros (Hi & Hd & Hd0 & Hp & Hp0). unfold operational. rewrite Hi, Hd, Hp. cbn.
  destruct (Z.eqb_spec d 0), (Z.eqb_spec p 0); try contradiction. reflexivity.
Qed.

Lemma holds_perform d p o w :
  holds d p (self w) ->
  o <> OpStop ->
  holds d p (self (exec (perform o) w)) /\ releases (emitted (perform o) w) = [].
Proof.
  intros H Hns. pose proof (holds_operational H) as Hop.
  destruct H as (Hi & Hd & Hd0 & Hp & Hp0).
  destruct o as [n| |id q]; [| contradiction |].
  - destruct w as [[thr idle tid dd r sv ini] c]; cbn in *; subst.
    unfold_monitor; cbn. destruct tid; cbn; unfold holds; cbn; repeat split; auto.
  - cbn [perform]. unfold exec, emitted. rewrite monitor_fire_spec.
    destruct (GLib.find_source id (loop w)) as [[i iv []]|];
      try solve [cbn; unfold holds; repeat split; auto].
    cbn zeta. rewrite (check_idle_operational q w Hop).
    destruct (measured (self w) q) as [now|].
    + cbn. destruct (_timer_source_id (self w)); cbn; unfold holds; cbn;
        rewrite releases_map_Emit; repeat split; auto.
    + destruct q; cbn; destruct (_timer_source_id (self w)); cbn; unfold holds;
        repeat split; auto.
Qed.

Lemma holds_stop d p w :
  holds d p (self w) ->
  stopped (self (exec stop w)) /\ emitted stop w = [XFree p; XCloseDisplay d].
Proof.
  intros (Hi & Hd & Hd0 & Hp & Hp0).
  unfold exec, emitted. rewrite (monitor_stop_spec w Hi). cbn.
  rewrite Hd, Hp. cbn.
  destruct (Z.eqb_spec d 0), (Z.eqb_spec p 0); try contradiction.
  cbn. unfold stopped; cbn. auto.
Qed.

Lemma releases_run d p os : forall w,
  holds d p (self w) ->
  releases (emitted (run os) w)
  = if stops os then [XFree p; XCloseDisplay d] else [].
Proof.
  induction os as [|o os IH]; intros w H.
  - reflexivity.
  - unfold emitted. rewrite monitor_run_cons. cbn [SW.output snd]. rewrite releases_app.
    destruct o as [n| |id q].
    + destruct (@holds_perform d p (OpStart n) w H ltac:(discriminate)) as [H' Hr].
      unfold emitted in Hr. rewrite Hr. cbn [app stops existsb orb].
      apply (IH _ H').
    + destruct (@holds_stop d p w H) as [Hs He]. cbn [perform stops existsb orb].
      unfold emitted in He. rewrite He.
      destruct (@stopped_run os _ Hs) as (_ & Ho & _). unfold emitted, exec in Ho.
      rewrite Ho. reflexivity.
    + destruct (@holds_perform d p (OpFire id q) w H ltac:(discriminate)) as [H' Hr].
      unfold emitted in Hr. rewrite Hr. cbn [app stops existsb orb].
      apply (IH _ H').
Qed.

(** X9. A detector that was constructed successfully releases what it acquired
    exactly once.  Over any sequence of calls and dispatches, [XFree] of the
    result structure and then [XCloseDisplay] of the display are called once
    if the sequence contains a [stop()], neither is called otherwise, and no
    other release ever happens. *)
Theorem resources_released_once (thr : Z) (x : X11) (os : list op) :
  available x = true ->
  snd (__init__ thr x) = [] /\
  releases (emitted (run os) (construct thr x))
  = if stops os
    then [XFree (XScreenSaverAllocInfo x); XCloseDisplay (XOpenDisplay x)]
    else [].
Proof.
  intros Hx. destruct (construct_succeeded thr x Hx) as [Hs Hc].
  split; [exact Hc|].
  apply releases_run. rewrite Hs. unfold holds; cbn.
  unfold available in Hx.
  destruct (Z.eqb_spec (XOpenDisplay x) 0), (Z.eqb_spec (XScreenSaverAllocInfo x) 0),
    (XDefaultRootWindow x =? 0); cbn in Hx; try discriminate; auto.
Qed.

Lemma resources_released_once_witness :
  let x := {| XOpenDisplay := 100; XDefaultRootWindow := 7; XScreenSaverAllocInfo := 200 |} in
  available x = true /\
  releases (emitted (run [OpStart 30; OpFire 2%positive (QueryInfo 1 9000); OpStop;
                          OpStart 30; OpStop; OpFire 1%positive QueryRaises])
              (construct 5 x))
  = [XFree 200; XCloseDisplay 100].
Proof.
  cbn zeta. split; [reflexivity|].
  exact (proj2 (@resources_released_once 5
                  {| XOpenDisplay := 100; XDefaultRootWindow := 7;
                     XScreenSaverAllocInfo := 200 |}
                  [OpStart 30; OpFire 2%positive (QueryInfo 1 9000); OpStop;
                   OpStart 30; OpStop; OpFire 1%positive QueryRaises] eq_refl)).
Defined.

(** *** The threshold *)

Lemma threshold_perform o w :
  _idle_threshold_ms (self (exec (perform o) w)) = _idle_threshold_ms (self w).
Proof.
  destruct o as [n| |id q].
  - destruct w as [[thr idle tid d r sv ini] c]. unfold_monitor; cbn.
    destruct ini; cbn; [|reflexivity]. destruct tid; reflexivity.
  - destruct w as [[thr idle tid d r sv ini] c]. unfold_monitor; cbn.
    destruct tid, ini; cbn; try reflexivity;
      destruct (truthy sv), (truthy d); reflexivity.
  - cbn [perform]. unfold exec. rewrite monitor_fire_spec.
    destruct (GLib.find_source id (loop w)) as [[i iv []]|]; try reflexivity.
    cbn zeta. unfold final at 1; cbn [fst snd].
    destruct (value (_check_idle q w)); cbn [self]; apply check_idle_keeps_threshold.
Qed.

Lemma threshold_run os : forall w,
  _idle_threshold_ms (self (exec (run os) w)) = _idle_threshold_ms (self w).
Proof.
  induction os as [|o os IH]; intros w; [reflexivity|].
  unfold exec. rewrite monitor_run_cons. unfold final at 1; cbn [fst snd].
  rewrite <- (threshold_perform o w). apply IH.
Qed.

Lemma threshold_construct thr x :
  _idle_threshold_ms (self (construct thr x)) = 1000 * Z.max 1 thr.
Proof.
  assert (E : (if thr <? 1 then 1 else thr) * 1000 = 1000 * Z.max 1 thr)
    by (destruct (Z.ltb_spec thr 1); lia).
  unfold construct, __init__.
  destruct (XOpenDisplay x =? 0), (XDefaultRootWindow x =? 0),
    (XScreenSaverAllocInfo x =? 0); exact E.
Qed.

Lemma fire_emits_crossing id q w :
  emitted (fire id q) w = []
  \/ exists now, measured (self w) q = Some now /\
       emitted (fire id q) w = map Emit (crossing (_is_idle (self w)) now).
Proof.
  unfold emitted. rewrite monitor_fire_spec.
  destruct (GLib.find_source id (loop w)) as [[i iv []]|]; auto.
  cbn zeta. cbn [SW.output snd].
  destruct (operational (self w)) eqn:Hop.
  - rewrite (check_idle_operational q w Hop).
    destruct (measured (self w) q) as [now|]; [right; exists now; auto|left; reflexivity].
  - rewrite (check_idle_not_operational q w Hop). auto.
Qed.

(** X10. The threshold given to the constructor, raised to one second if it is
    smaller, is the one every later poll compares against.  Whatever was called
    or dispatched since construction, a dispatch that emits [user_idle] has
    read an idle time of at least that many milliseconds from a successful
    query, and one that emits [user_active] has read less. *)
Theorem idle_threshold_is_honoured
    (thr : Z) (x : X11) (os : list op) (id : GLib.source_id) (q : query) :
  let w := exec (run os) (construct thr x) in
  let limit := 1000 * Z.max 1 thr in
  (In (Emit user_idle) (emitted (fire id q) w) ->
     exists status idle, q = QueryInfo status idle /\ status <> 0 /\ limit <= idle) /\
  (In (Emit user_active) (emitted (fire id q) w) ->
     exists status idle, q = QueryInfo status idle /\ status <> 0 /\ idle < limit).
Proof.
  cbn zeta.
  set (w := exec (run os) (construct thr x)).
  assert (Ht : _idle_threshold_ms (self w) = 1000 * Z.max 1 thr).
  { unfold w. rewrite threshold_run. apply threshold_construct. }
  destruct (fire_emits_crossing id q w) as [E | (now & Hm & E)]; rewrite E.
  - split; intros [].
  - destruct q as [|status idle]; [discriminate|]. cbn in Hm.
    destruct (Z.eqb_spec status 0) as [|Hst]; [discriminate|].
    inversion Hm; subst now. rewrite Ht.
    split; intros Hin; exists status, idle; (split; [reflexivity|]); (split; [exact Hst|]);
      destruct (Z.leb_spec (1000 * Z.max 1 thr) idle) as [Hle|Hlt];
      destruct (_is_idle (self w)); cbn in Hin;
      try lia; try contradiction;
      destruct Hin as [Hin|[]]; discriminate Hin.
Qed.

End IdleMonitorExtra.
(** ** The arbiter, continued *)

Module MindfulBreakAppExtra.
Import SW MindfulBreakApp MindfulBreakAppSpec MindfulBreakAppMore MindfulBreakAppFacts.
Import TimerManagerMore TimerManagerExtra.

#[local] Arguments GLib.find_source : simpl never.
#[local] Arguments GLib.source_remove : simpl never.
#[local] Arguments GLib.timeout_add_seconds : simpl never.
#[local] Arguments GLib.attach : simpl never.

(** *** The invariant on a shared main loop *)

Lemma loop_frame_weaken (P Q : GLib.callback -> Prop) c c' :
  (forall cb, Q cb -> P cb) -> loop_frame P c c' -> loop_frame Q c c'.
Proof.
  intros HQ (Hn & Ho & Hk). unfold loop_frame. repeat split; auto.
Qed.

Lemma pinned_frame P p c c' : pinned p c -> loop_frame P c c' -> pinned p c'.
Proof.
  intros [Hlt Hcb] (Hn & Ho & _). split; [lia|].
  intros s Hs. destruct (Ho _ _ Hs) as [H|H]; [auto|lia].
Qed.

Lemma bind_get {A} (k : world -> Op A) w : bind get k w = k w w.
Proof.
  unfold bind, get. destruct (k w w) as [[a s] o]. reflexivity.
Qed.

Lemma preserves_get_bind {A} (P : world -> Prop) (k : world -> Op A) :
  (forall w, P w -> P (final (k w w))) -> preserves P (bind get k).
Proof. intros H w Hw. rewrite bind_get. apply H, Hw. Qed.

Lemma preserves_bind_at {A B} (P : world -> Prop) (m : Op A) (k : A -> Op B) w :
  P (final (m w)) -> (forall a, preserves P (k a)) -> P (final (bind m k w)).
Proof.
  intros Hm Hk. unfold bind, final in *.
  destruct (m w) as [[a w1] o1]. cbn in Hm.
  specialize (Hk a w1 Hm). unfold final in Hk.
  destruct (k a w1) as [[b w2] o2]. exact Hk.
Qed.

(** One step that keeps the manual pause id, or clears it. *)
Lemma consistent_step c0 w w' :
  consistent c0 w ->
  TimerManagerSpec.values_ok (timer_manager w') ->
  GLib.fresh (loop w') ->
  engine_owns_ticks (timer_manager w') (loop w') ->
  loop_frame is_check_idle (loop w) (loop w') ->
  (_manual_pause_timer_id (self w') = _manual_pause_timer_id (self w)
   \/ _manual_pause_timer_id (self w') = None) ->
  consistent c0 w'.
Proof.
  intros (Hv & Hf & HE & HM & Hfr) Hv' Hf' HE' Hfr' Hid.
  split; [exact Hv'|]. split; [exact Hf'|]. split; [exact HE'|]. split.
  - intros mid H. destruct Hid as [E|E]; rewrite E in H; [|discriminate].
    apply (pinned_frame (HM _ H) Hfr').
  - apply (loop_frame_trans Hfr Hfr').
Qed.

Lemma consistent_set_paused_due_to_idle c0 v :
  preserves (consistent c0) (set_paused_due_to_idle v).
Proof.
  intros w H. apply (@consistent_step c0 w _ H); try apply H; [apply loop_frame_refl|auto].
Qed.

Lemma consistent_set_manual_pause_remaining_seconds c0 v :
  preserves (consistent c0) (set_manual_pause_remaining_seconds v).
Proof.
  intros w H. apply (@consistent_step c0 w _ H); try apply H; [apply loop_frame_refl|auto].
Qed.

Lemma consistent_clear_manual_pause_timer_id c0 :
  preserves (consistent c0) (set_manual_pause_timer_id None).
Proof.
  intros w H. apply (@consistent_step c0 w _ H); try apply H; [apply loop_frame_refl|auto].
Qed.

Lemma consistent_source_remove c0 id w :
  consistent c0 w ->
  (forall s, GLib.find_source id (loop w) = Some s ->
             GLib.src_callback s = GLib.App_manual_pause_tick) ->
  consistent c0 (final (GLib_source_remove id w)).
Proof.
  intros H Hid. pose proof H as (Hv & Hf & [Hlive Honly] & HM & Hfr).
  apply (@consistent_step c0 w _ H); cbn; auto.
  - apply GLibFacts.fresh_source_remove, Hf.
  - split.
    + intros t Ht. destruct (Hlive _ Ht) as [Hst Hl]. split; [exact Hst|].
      rewrite GLibFacts.find_source_remove_other; [exact Hl|].
      intros ->. specialize (Hid _ Hl). discriminate Hid.
    + intros t s Hs Hcb. apply (Honly t s); [|exact Hcb].
      apply (GLibFacts.find_source_remove_some _ _ _ Hs).
  - apply loop_frame_remove. intros s Hs Hp. rewrite (Hid _ Hs) in Hp. discriminate Hp.
Qed.

Lemma consistent_engine_method c0 m : preserves (consistent c0) (engine (method m)).
Proof.
  intros w H. pose proof H as (Hv & Hf & HE & HM & Hfr).
  assert (E : exists o, method m = TimerManager.perform o /\ forall id, o <> TimerManager.OpFire id).
  { destruct m; [exists (TimerManager.OpSetInterval minutes) | exists TimerManager.OpStart
                | exists TimerManager.OpPause | exists TimerManager.OpResume
                | exists TimerManager.OpStop | exists (TimerManager.OpPostpone minutes)];
      split; try reflexivity; discriminate. }
  destruct E as (o & -> & Hnf).
  destruct (@TimerManagerExtra.method_on_shared_loop o
              {| TimerManager.self := timer_manager w; TimerManager.loop := loop w |}
              Hnf Hf HE) as (Hf' & HE' & Hfr').
  apply (@consistent_step c0 w _ H); unfold engine, final; cbn [fst snd self timer_manager loop]; auto.
  - apply (@TimerManagerFacts.values_ok_perform o
             {| TimerManager.self := timer_manager w; TimerManager.loop := loop w |} Hv).
  - apply (loop_frame_weaken (P := not_tick)); [|exact Hfr'].
    intros cb ->. discriminate.
Qed.

Ltac consist_with tac :=
  repeat first
    [ tac
    | apply consistent_set_paused_due_to_idle
    | apply consistent_set_manual_pause_remaining_seconds
    | apply consistent_clear_manual_pause_timer_id
    | apply consistent_engine_method
    | apply preserves_ret
    | apply preserves_get
    | apply preserves_emit
    | apply preserves_bind; [|intros ?]
    | match goal with
      | |- preserves _ (if ?b then _ else _) => destruct b
      | |- preserves _ (match ?x with _ => _ end) => destruct x
      end ].

Lemma consistent_on_timer_paused c0 : preserves (consistent c0) on_timer_paused.
Proof. unfold on_timer_paused. consist_with fail. Qed.

Lemma consistent_cancel_manual_pause c0 : preserves (consistent c0) _cancel_manual_pause.
Proof.
  unfold _cancel_manual_pause. apply preserves_get_bind. intros w H.
  destruct (_manual_pause_timer_id (self w)) as [mid|] eqn:Hmid; [|exact H].
  apply preserves_bind_at.
  - apply (@consistent_source_remove c0 mid w H). destruct H as (_ & _ & _ & HM & _).
    apply (HM _ Hmid).
  - intros _. consist_with ltac:(apply consistent_on_timer_paused).
Qed.

Ltac consist :=
  consist_with ltac:(first [ apply consistent_cancel_manual_pause
                           | apply consistent_on_timer_paused ]).

Lemma consistent_handler c0 s : preserves (consistent c0) (handler s).
Proof.
  destruct s; cbn [handler];
    unfold on_timer_started, on_timer_resumed, on_timer_stopped,
      on_timer_tick, on_break_started;
    consist.
Qed.

Lemma consistent_deliver c0 sigs : preserves (consistent c0) (deliver sigs).
Proof.
  induction sigs as [|s sigs IH]; cbn [deliver]; [apply preserves_ret|].
  apply preserves_bind; [apply preserves_emit|intros _].
  apply preserves_bind; [apply consistent_handler|intros _]. exact IH.
Qed.

Lemma consistent_call c0 m : preserves (consistent c0) (call m).
Proof.
  unfold call.
  apply preserves_bind; [apply preserves_emit|intros _].
  apply preserves_bind; [apply consistent_engine_method|intros r].
  apply consistent_deliver.
Qed.

Lemma owns_ticks_attach_other tm interval cb c :
  cb <> GLib.TimerManager_tick -> GLib.fresh c ->
  engine_owns_ticks tm c -> engine_owns_ticks tm (snd (GLib.attach interval cb c)).
Proof.
  intros Hcb Hf [Hlive Honly]. split.
  - intros t Ht. destruct (Hlive _ Ht) as [Hst Hl]. split; [exact Hst|].
    rewrite GLibFacts.find_source_attach_old; [exact Hl|].
    pose proof (GLibFacts.find_source_lt _ Hf Hl). lia.
  - intros t s Hs Hc. destruct (Pos.eq_dec t (GLib.next_source_id c)) as [->|Hne].
    + rewrite GLibFacts.find_source_attach_new in Hs by exact Hf.
      inversion Hs; subst. destruct (Hcb Hc).
    + rewrite GLibFacts.find_source_attach_old in Hs by exact Hne. eauto.
Qed.

Lemma consistent_begin_manual_pause c0 (o : output) :
  preserves (consistent c0)
    (bind (GLib_timeout_add_seconds 1 GLib.App_manual_pause_tick)
          (fun id => bind (set_manual_pause_timer_id (Some id)) (fun _ => emit o))).
Proof.
  intros w (Hv & Hf & HE & HM & Hfr).
  unfold bind, GLib_timeout_add_seconds, set_manual_pause_timer_id, update, modify, emit,
    final, GLib.timeout_add_seconds; cbn [fst snd self timer_manager loop
    _manual_pause_timer_id].
  split; [exact Hv|]. split; [apply GLibFacts.fresh_attach, Hf|].
  split; [apply owns_ticks_attach_other; [discriminate|exact Hf|exact HE]|]. split.
  - intros mid E. inversion E; subst mid.
    change (fst (GLib.attach (Some 1) GLib.App_manual_pause_tick (loop w)))
      with (GLib.next_source_id (loop w)).
    split; cbn [fst snd].
    + unfold GLib.attach; cbn. lia.
    + intros s Hs. cbn [loop] in Hs.
      rewrite GLibFacts.find_source_attach_new in Hs by exact Hf.
      inversion Hs; reflexivity.
  - apply (loop_frame_trans Hfr). apply loop_frame_attach, Hf.
Qed.

Ltac consist ::=
  consist_with ltac:(first [ apply consistent_cancel_manual_pause
                           | apply consistent_on_timer_paused
                           | apply consistent_call
                           | apply consistent_begin_manual_pause ]).

Lemma consistent_manual_pause_tick c0 : preserves (consistent c0) _manual_pause_tick.
Proof. unfold _manual_pause_tick. consist. Qed.

Lemma preserves_and {A} (P Q : world -> Prop) (m : Op A) :
  preserves P m -> preserves Q m -> preserves (fun w => P w /\ Q w) m.
Proof. intros HP HQ w [H1 H2]. split; [apply HP, H1|apply HQ, H2]. Qed.

Lemma consistent_refl c0 w : consistent c0 w -> consistent (loop w) w.
Proof.
  intros (Hv & Hf & HE & HM & Hfr).
  split; [exact Hv|]. split; [exact Hf|]. split; [exact HE|]. split; [exact HM|].
  apply loop_frame_refl.
Qed.

(** What one dispatch of the engine's timer does to the application. *)
Lemma app_fire_tick id w :
  GLib.find_source id (loop w) = Some (tick_source id) ->
  TimerManager._state (timer_manager w) = TimerManager.STATE_RUNNING ->
  fire id w =
  let rem := TimerManager._remaining_seconds (timer_manager w) - 1 in
  if 0 <? rem then
    (tt,
     {| self := self w;
        timer_manager := TimerManagerSpec.with_remaining rem (timer_manager w);
        loop := loop w |},
     [Signal (TimerManager.timer_tick rem); tray_update_status TRAY_RUNNING rem])
  else
    (tt,
     {| self := self w;
        timer_manager :=
          {| TimerManager._state := TimerManager.STATE_BREAK_ACTIVE;
             TimerManager._timer_source_id := None;
             TimerManager._remaining_seconds := 0;
             TimerManager._configured_interval_seconds :=
               TimerManager._configured_interval_seconds (timer_manager w) |};
        loop := GLib.source_remove id (loop w) |},
     [Signal TimerManager.break_started; play_break_sound;
      tray_update_status TRAY_BREAK 0; show_overlay]).
Proof.
  destruct w as [s [st tid rem conf] c]; cbn. intros Hs Hst; subst st.
  unfold_app; cbn. rewrite Hs. unfold tick_source; cbn.
  destruct (0 <? rem - 1); reflexivity.
Qed.

Lemma consistent_fire c0 id : preserves (consistent c0) (fire id).
Proof.
  intros w H. pose proof H as (Hv & Hf & [Hlive Honly] & HM & Hfr).
  destruct (GLib.find_source id (loop w)) as [[i iv cb]|] eqn:Hs.
  2:{ unfold fire. rewrite bind_get, Hs. exact H. }
  destruct cb.
  - pose proof (Honly _ _ Hs eq_refl) as Ht. destruct (Hlive _ Ht) as [Hst Hl].
    rewrite (@app_fire_tick id w Hl Hst). cbn zeta.
    destruct Hv as [Hc Hrem]. rewrite Hst in Hrem.
    destruct (Z.ltb_spec 0 (TimerManager._remaining_seconds (timer_manager w) - 1)).
    + apply (@consistent_step c0 w _ H); unfold final; cbn [fst snd self timer_manager loop];
        auto; [| |apply loop_frame_refl].
      * split; cbn; [exact Hc|]. rewrite Hst. lia.
      * split; cbn; [exact Hlive|exact Honly].
    + destruct (@owns_ticks_off TimerManager.STATE_RUNNING
                  (TimerManager._remaining_seconds (timer_manager w))
                  (TimerManager._configured_interval_seconds (timer_manager w))
                  TimerManager.STATE_BREAK_ACTIVE 0
                  (TimerManager._configured_interval_seconds (timer_manager w))
                  id (loop w)) as (HE' & Hfr' & _).
      { destruct (timer_manager w) as [st tid rem conf]; cbn in *. subst. split; auto. }
      apply (@consistent_step c0 w _ H); unfold final; cbn [fst snd self timer_manager loop];
        auto.
      * split; cbn; [exact Hc|reflexivity].
      * apply GLibFacts.fresh_source_remove, Hf.
      * apply (loop_frame_weaken (P := not_tick)); [|exact Hfr'].
        intros cb ->. discriminate.
  - unfold fire. rewrite bind_get, Hs.
    pose proof (@preserves_and _ _ _ _ (@consistent_manual_pause_tick c0)
                  (@consistent_manual_pause_tick (loop w)) w
                  (conj H (@consistent_refl c0 w H))) as H1.
    unfold bind, final in *.
    destruct (_manual_pause_tick w) as [[keep w1] o1]. cbn [fst snd] in H1.
    destruct H1 as [H1 (_ & _ & _ & _ & (_ & Hold & _))].
    destruct keep; cbn; [exact H1|].
    apply (@consistent_source_remove c0 id w1 H1).
    intros s Hs1. destruct (Hold _ _ Hs1) as [Hs0|Hge].
    + rewrite Hs in Hs0. inversion Hs0; reflexivity.
    + pose proof (GLibFacts.find_source_lt _ Hf Hs). lia.
  - unfold fire. rewrite bind_get, Hs. exact H.
Qed.

Lemma consistent_handle c0 e : preserves (consistent c0) (handle e).
Proof.
  destruct e; cbn [handle]; try apply consistent_fire;
    unfold on_start_timer_requested, on_resume_timer_requested, on_pause_for_requested,
      on_set_time_requested, on_pause_dialog_response, on_set_time_dialog_response,
      on_overlay_postponed, on_user_idle, on_user_active;
    consist.
Qed.

Lemma consistent_run c0 es : preserves (consistent c0) (run es).
Proof.
  induction es as [|e es IH]; cbn [run]; [apply preserves_ret|].
  apply preserves_bind; [apply consistent_handle|intros _; exact IH].
Qed.

Lemma consistent_init :
  consistent GLib.new {| self := __init__; timer_manager := TimerManager.__init__;
                         loop := GLib.new |}.
Proof.
  split; [exact TimerManagerFacts.values_ok_init|]. split; [exact GLibFacts.fresh_new|].
  split; [split; cbn; intros; discriminate|]. split; [cbn; intros; discriminate|].
  apply loop_frame_refl.
Qed.

Lemma consistent_startup interval : consistent GLib.new (do_startup interval).
Proof.
  apply (@consistent_engine_method GLib.new (m_set_interval interval)), consistent_init.
Qed.

Lemma reachable_consistent w : reachable w -> consistent GLib.new w.
Proof.
  induction 1 as [interval|w e Hr IH];
    [apply consistent_startup|apply (@consistent_handle GLib.new e), IH].
Qed.

(** *** Pausing and resuming keep the time left *)

Lemma time_left_update r f : preserves (time_left r) (update f).
Proof. intros w H. exact H. Qed.

Lemma time_left_timeout_add r n cb : preserves (time_left r) (GLib_timeout_add_seconds n cb).
Proof. intros w H. exact H. Qed.

Lemma time_left_source_remove r id : preserves (time_left r) (GLib_source_remove id).
Proof. intros w H. exact H. Qed.

Lemma time_left_pause r : preserves (time_left r) (engine (method m_pause)).
Proof.
  intros [s [st tid rem conf] c] [[Hc Hv] Hr]; cbn in *.
  unfold time_left, TimerManagerSpec.values_ok. unfold_app; cbn.
  destruct st; cbn; auto. destruct tid; cbn; auto.
Qed.

Lemma time_left_resume r : preserves (time_left r) (engine (method m_resume)).
Proof.
  intros [s [st tid rem conf] c] [[Hc Hv] Hr]; cbn in *.
  unfold time_left, TimerManagerSpec.values_ok. unfold_app; cbn.
  destruct st; cbn; auto. destruct (Z.ltb_spec 0 rem); cbn; [auto|lia].
Qed.

Ltac keep_time_with tac :=
  repeat first
    [ tac
    | apply time_left_update
    | apply time_left_timeout_add
    | apply time_left_source_remove
    | apply preserves_ret
    | apply preserves_get
    | apply preserves_emit
    | apply preserves_bind; [|intros ?]
    | match goal with
      | |- preserves _ (if ?b then _ else _) => destruct b
      | |- preserves _ (match ?x with _ => _ end) => destruct x
      end ].

Lemma time_left_handler r s : preserves (time_left r) (handler s).
Proof.
  destruct s; cbn [handler];
    unfold on_timer_started, on_timer_paused, on_timer_resumed, on_timer_stopped,
      on_timer_tick, on_break_started, _cancel_manual_pause, on_timer_paused,
      set_paused_due_to_idle, set_manual_pause_timer_id,
      set_manual_pause_remaining_seconds;
    keep_time_with fail.
Qed.

Lemma time_left_deliver r sigs : preserves (time_left r) (deliver sigs).
Proof.
  induction sigs as [|s sigs IH]; cbn [deliver]; [apply preserves_ret|].
  apply preserves_bind; [apply preserves_emit|intros _].
  apply preserves_bind; [apply time_left_handler|intros _]. exact IH.
Qed.

Lemma time_left_call_pause r : preserves (time_left r) (call m_pause).
Proof.
  unfold call.
  apply preserves_bind; [apply preserves_emit|intros _].
  apply preserves_bind; [apply time_left_pause|intros ?]. apply time_left_deliver.
Qed.

Lemma time_left_call_resume r : preserves (time_left r) (call m_resume).
Proof.
  unfold call.
  apply preserves_bind; [apply preserves_emit|intros _].
  apply preserves_bind; [apply time_left_resume|intros ?]. apply time_left_deliver.
Qed.

Ltac keep_time :=
  keep_time_with ltac:(first [ apply time_left_call_pause | apply time_left_call_resume ]).

Lemma time_left_manual_pause_tick r : preserves (time_left r) _manual_pause_tick.
Proof.
  unfold _manual_pause_tick, _cancel_manual_pause, on_timer_paused,
    set_manual_pause_timer_id, set_manual_pause_remaining_seconds.
  keep_time.
Qed.

Lemma time_left_on_user_idle r : preserves (time_left r) on_user_idle.
Proof. unfold on_user_idle, set_paused_due_to_idle. keep_time. Qed.

Lemma time_left_on_user_active r : preserves (time_left r) on_user_active.
Proof. unfold on_user_active, set_paused_due_to_idle. keep_time. Qed.

(** A dispatch in the arbiter takes one second off the countdown when it is
    the engine's timer, and none otherwise. *)
Lemma fire_time c0 id w :
  consistent c0 w ->
  let rem := TimerManager._remaining_seconds (timer_manager w) in
  let rem' := TimerManager._remaining_seconds (timer_manager (exec (fire id) w)) in
  (TimerManager._timer_source_id (timer_manager w) = Some id ->
     TimerManager._state (timer_manager w) = TimerManager.STATE_RUNNING /\
     rem' = rem - 1) /\
  (TimerManager._timer_source_id (timer_manager w) <> Some id -> rem' = rem).
Proof.
  intros H. cbn zeta. pose proof H as (Hv & Hf & [Hlive Honly] & HM & Hfr).
  split.
  - intros Ht. destruct (Hlive _ Ht) as [Hst Hl]. split; [exact Hst|].
    unfold exec. rewrite (@app_fire_tick id w Hl Hst). cbn zeta.
    destruct Hv as [_ Hrem]. rewrite Hst in Hrem.
    destruct (Z.ltb_spec 0 (TimerManager._remaining_seconds (timer_manager w) - 1));
      cbn; lia.
  - intros Hne. unfold exec, fire. rewrite bind_get.
    destruct (GLib.find_source id (loop w)) as [[i iv cb]|] eqn:Hs; [|reflexivity].
    destruct cb; [destruct (Hne (Honly _ _ Hs eq_refl))| |reflexivity].
    assert (P : time_left (TimerManager._remaining_seconds (timer_manager w))
                  (final (bind _manual_pause_tick
                            (fun keep => if keep then ret tt else GLib_source_remove id) w))).
    { apply preserves_bind; [apply time_left_manual_pause_tick| |split; [exact Hv|reflexivity]].
      intros []; [apply preserves_ret|apply time_left_source_remove]. }
    apply P.
Qed.

(** *** Shutting the arbiter down *)

Lemma shutdown_arbiter w :
  let w' := final (call m_stop (final (_cancel_manual_pause w))) in
  TimerManager._state (timer_manager w') = TimerManager.STATE_STOPPED /\
  TimerManager._timer_source_id (timer_manager w') = None /\
  TimerManager._remaining_seconds (timer_manager w')
  = TimerManager._configured_interval_seconds (timer_manager w') /\
  _manual_pause_timer_id (self w') = None.
Proof.
  destruct w as [[flag m mrem] [st tid rem conf] c].
  unfold_app; cbn.
  destruct m as [m0|], st, tid as [t0|]; cbn; try (destruct flag; cbn); auto.
Qed.

(** A manual pause countdown that is dispatched while the engine is STOPPED
    and no manual pause is tracked touches neither the engine nor the
    tracking, and asks nothing of the engine. *)
Lemma fire_manual_when_stopped id w iv :
  GLib.find_source id (loop w)
  = Some {| GLib.src_id := id; GLib.src_interval := iv;
            GLib.src_callback := GLib.App_manual_pause_tick |} ->
  TimerManager._state (timer_manager w) = TimerManager.STATE_STOPPED ->
  _manual_pause_timer_id (self w) = None ->
  timer_manager (final (fire id w)) = timer_manager w /\
  _manual_pause_timer_id (self (final (fire id w))) = None /\
  calls (SW.output (fire id w)) = [] /\
  signals (SW.output (fire id w)) = [].
Proof.
  destruct w as [[flag m mrem] [st tid rem conf] c]; cbn. intros Hs -> ->.
  unfold_app; cbn. rewrite Hs; cbn.
  destruct (mrem <=? 0); cbn; auto.
  destruct (mrem - 1 <=? 0); cbn; auto.
Qed.

(** *** The idle handlers, step by step *)

Lemma on_user_idle_running w :
  TimerManager._state (timer_manager w) = TimerManager.STATE_RUNNING ->
  _manual_pause_timer_id (self w) = None ->
  on_user_idle w =
  (tt,
   {| self := {| _paused_due_to_idle := true; _manual_pause_timer_id := None;
                 _manual_pause_remaining_seconds := _manual_pause_remaining_seconds (self w) |};
      timer_manager :=
        {| TimerManager._state := TimerManager.STATE_PAUSED;
           TimerManager._timer_source_id := None;
           TimerManager._remaining_seconds :=
             TimerManager._remaining_seconds (timer_manager w);
           TimerManager._configured_interval_seconds :=
             TimerManager._configured_interval_seconds (timer_manager w) |};
      loop := match TimerManager._timer_source_id (timer_manager w) with
              | Some id => GLib.source_remove id (loop w)
              | None => loop w
              end |},
   [Call m_pause; Signal TimerManager.timer_paused; tray_update_status TRAY_IDLE 0]).
Proof.
  destruct w as [[flag m mrem] [st tid rem conf] c]; cbn. intros -> ->.
  unfold_app; cbn. destruct tid; reflexivity.
Qed.

Lemma on_user_active_after_idle w :
  TimerManager._state (timer_manager w) = TimerManager.STATE_PAUSED ->
  _paused_due_to_idle (self w) = true ->
  _manual_pause_timer_id (self w) = None ->
  0 < TimerManager._remaining_seconds (timer_manager w) ->
  on_user_active w =
  (tt,
   {| self := {| _paused_due_to_idle := false; _manual_pause_timer_id := None;
                 _manual_pause_remaining_seconds := _manual_pause_remaining_seconds (self w) |};
      timer_manager :=
        {| TimerManager._state := TimerManager.STATE_RUNNING;
           TimerManager._timer_source_id := Some (GLib.next_source_id (loop w));
           TimerManager._remaining_seconds :=
             TimerManager._remaining_seconds (timer_manager w);
           TimerManager._configured_interval_seconds :=
             TimerManager._configured_interval_seconds (timer_manager w) |};
      loop := snd (GLib.timeout_add_seconds 1 GLib.TimerManager_tick (loop w)) |},
   [Call m_resume; Signal TimerManager.timer_resumed;
    tray_update_status TRAY_RUNNING (TimerManager._remaining_seconds (timer_manager w));
    Signal (TimerManager.timer_tick (TimerManager._remaining_seconds (timer_manager w)));
    tray_update_status TRAY_RUNNING (TimerManager._remaining_seconds (timer_manager w))]).
Proof.
  destruct w as [[flag m mrem] [st tid rem conf] c]; cbn. intros -> -> -> Hrem.
  unfold_app; cbn. destruct (Z.ltb_spec 0 rem); [|lia]. reflexivity.
Qed.

(** *** The countdown as the user sees it *)

Lemma app_exec_run_cons e es w :
  exec (run (e :: es)) w = exec (run es) (exec (handle e) w).
Proof. unfold exec. rewrite app_run_cons. reflexivity. Qed.

Lemma app_outputs_run_cons e es w :
  outputs (run (e :: es)) w
  = outputs (handle e) w ++ outputs (run es) (exec (handle e) w).
Proof. unfold outputs, exec. rewrite app_run_cons. reflexivity. Qed.

Lemma app_countdown id : forall k w,
  GLib.find_source id (loop w) = Some (tick_source id) ->
  TimerManager._state (timer_manager w) = TimerManager.STATE_RUNNING ->
  TimerManager._remaining_seconds (timer_manager w) = Z.of_nat (S k) ->
  outputs (run (repeat (source_fires id) (S k))) w
  = countdown_display k ++ break_announcement /\
  TimerManager._state (timer_manager (exec (run (repeat (source_fires id) (S k))) w))
  = TimerManager.STATE_BREAK_ACTIVE /\
  loop (exec (run (repeat (source_fires id) (S k))) w) = GLib.source_remove id (loop w) /\
  self (exec (run (repeat (source_fires id) (S k))) w) = self w.
Proof.
  induction k as [|k IH]; intros w Hs Hst Hrem.
  - unfold outputs, exec. cbn [repeat]. rewrite app_run_cons.
    cbn [handle run]. rewrite (@app_fire_tick id w Hs Hst). rewrite Hrem.
    cbn. repeat split.
  - pose proof (@app_fire_tick id w Hs Hst) as F. rewrite Hrem in F. cbv zeta in F.
    replace (Z.of_nat (S (S k)) - 1) with (Z.of_nat (S k)) in F by lia.
    destruct (Z.ltb_spec 0 (Z.of_nat (S k))) as [_|Hn]; [|lia].
    assert (E : exec (handle (source_fires id)) w
                = {| self := self w;
                     timer_manager :=
                       TimerManagerSpec.with_remaining (Z.of_nat (S k)) (timer_manager w);
                     loop := loop w |})
      by (unfold exec; cbn [handle]; rewrite F; reflexivity).
    assert (Eo : outputs (handle (source_fires id)) w
                 = [Signal (TimerManager.timer_tick (Z.of_nat (S k)));
                    tray_update_status TRAY_RUNNING (Z.of_nat (S k))])
      by (unfold outputs; cbn [handle]; rewrite F; reflexivity).
    change (repeat (source_fires id) (S (S k)))
      with (source_fires id :: repeat (source_fires id) (S k)).
    rewrite app_exec_run_cons, app_outputs_run_cons, E, Eo.
    destruct (IH {| self := self w;
                    timer_manager :=
                      TimerManagerSpec.with_remaining (Z.of_nat (S k)) (timer_manager w);
                    loop := loop w |} Hs Hst eq_refl) as (Ho & Est & El & Es).
    rewrite Ho, Est, El, Es. repeat split.
Qed.

Lemma call_postpone_engine q w :
  TimerManager._timer_source_id (timer_manager (exec (call (m_postpone q)) w))
  = Some (GLib.next_source_id (loop w)) /\
  TimerManager._remaining_seconds (timer_manager (exec (call (m_postpone q)) w))
  = TimerManager.to_seconds q.
Proof.
  destruct w as [[flag mid mrem] [st tid rem conf] c].
  unfold_app; cbn. destruct tid as [t0|], mid as [m0|]; cbn; split; reflexivity.
Qed.

(** X17. Postponing from the break overlay by [m >= 1] minutes leads to
    exactly one new announcement, [60 * m] seconds later: the new timer's
    first [60 * m - 1] dispatches each show the time left in the tray, and
    the next one emits [break_started], plays the sound, sets the tray to
    Break and shows the overlay; the timer is then gone from the main
    loop. *)
Theorem postponed_break_is_announced_once (w : world) (m : Z) :
  reachable w -> 1 <= m ->
  let id := GLib.next_source_id (loop w) in
  let w1 := exec (handle (overlay_postponed m)) w in
  let ticks := repeat (source_fires id) (Z.to_nat (60 * m)) in
  TimerManager._remaining_seconds (timer_manager w1) = 60 * m /\
  outputs (run ticks) w1
  = countdown_display (Z.to_nat (60 * m) - 1) ++ break_announcement /\
  TimerManager._state (timer_manager (exec (run ticks) w1))
  = TimerManager.STATE_BREAK_ACTIVE /\
  GLib.find_source id (loop (exec (run ticks) w1)) = None.
Proof.
  intros Hr Hm. cbn zeta.
  pose proof (reachable_consistent Hr) as Hc.
  pose proof (@consistent_handle GLib.new (overlay_postponed m) w Hc) as Hc1.
  fold (exec (handle (overlay_postponed m)) w) in Hc1.
  destruct (call_postpone_engine (inject_Z m) w) as [Hid Hrem].
  change (exec (call (m_postpone (inject_Z m))) w)
    with (exec (handle (overlay_postponed m)) w) in Hid, Hrem.
  rewrite (to_seconds_whole_minutes Hm) in Hrem.
  destruct Hc1 as (_ & _ & [Hlive _] & _).
  destruct (Hlive _ Hid) as [Hst Hs].
  split; [exact Hrem|].
  destruct (Z.to_nat (60 * m)) as [|k] eqn:Ek; [lia|].
  assert (Hk : TimerManager._remaining_seconds
                 (timer_manager (exec (handle (overlay_postponed m)) w)) = Z.of_nat (S k))
    by lia.
  destruct (@app_countdown (GLib.next_source_id (loop w)) k _ Hs Hst Hk)
    as (Ho & Est & El & _).
  replace (S k - 1)%nat with k by lia.
  split; [exact Ho|]. split; [exact Est|].
  rewrite El. apply GLibFacts.find_source_remove_same.
Qed.

Lemma postponed_break_is_announced_once_witness :
  let w := do_startup 25 in
  let w1 := exec (handle (overlay_postponed 1)) w in
  TimerManager._remaining_seconds (timer_manager w1) = 60 /\
  TimerManager._state
    (timer_manager (exec (run (repeat (source_fires 1%positive) 60)) w1))
  = TimerManager.STATE_BREAK_ACTIVE.
Proof.
  cbn zeta.
  pose proof (@postponed_break_is_announced_once (do_startup 25) 1
                (reach_startup 25) ltac:(lia)) as H.
  cbn zeta in H. destruct H as (Hrem & _ & Hst & _).
  split; [exact Hrem|exact Hst].
Defined.

(** *** The duration dialog and its two handlers *)

Lemma get_duration_seconds_positive dlg :
  1 <= PauseDurationDialog.get_duration_seconds dlg.
Proof. unfold PauseDurationDialog.get_duration_seconds. lia. Qed.

Lemma set_time_ok w d :
  1 <= d ->
  let w' := exec (handle (set_time_dialog_response true d)) w in
  TimerManager._state (timer_manager w') = TimerManager.STATE_RUNNING /\
  TimerManager._remaining_seconds (timer_manager w') = d /\
  _manual_pause_timer_id (self w') = None /\
  _paused_due_to_idle (self w') = false /\
  calls (outputs (handle (set_time_dialog_response true d)) w)
  = [m_postpone (inject_Z d / 60)].
Proof.
  intros Hd. cbn zeta. pose proof (to_seconds_of_seconds Hd) as Hsec.
  destruct w as [[flag mid mrem] [st tid rem conf] c].
  unfold_app; cbn. destruct (Z.leb_spec d 0); [lia|].
  cbn. destruct tid as [t0|], mid as [m0|]; cbn; rewrite ?Hsec; repeat split.
Qed.

Lemma pause_ok w d :
  1 <= d ->
  let w' := exec (handle (pause_dialog_response true d)) w in
  _manual_pause_timer_id (self w') = Some (GLib.next_source_id (loop w)) /\
  _manual_pause_remaining_seconds (self w') = d /\
  _paused_due_to_idle (self w') = false /\
  TimerManager._state (timer_manager w') <> TimerManager.STATE_RUNNING /\
  TimerManager._remaining_seconds (timer_manager w')
  = TimerManager._remaining_seconds (timer_manager w).
Proof.
  intros Hd. cbn zeta.
  destruct w as [[flag mid mrem] [st tid rem conf] c].
  unfold_app; cbn. destruct (Z.leb_spec d 0); [lia|].
  cbn. destruct st; cbn; destruct tid as [t0|]; cbn; destruct mid; cbn;
    repeat split; discriminate.
Qed.

(** X18. A confirmed duration dialog is never ignored.  Whatever the spin
    button holds, [get_duration_seconds] is at least 1 (and [60 * m] for a
    value [m >= 1]), so the handlers' "invalid duration" branch is not taken:
    "Set Remaining Time" restarts the countdown with exactly that many
    seconds, and "Pause for..." starts a manual pause of that many seconds
    with the engine not running and its time left kept.  A cancelled dialog
    changes nothing and outputs nothing. *)
Theorem confirmed_dialog_always_takes_effect (dlg : PauseDurationDialog.t) (w : world) :
  let d := PauseDurationDialog.get_duration_seconds dlg in
  (1 <= d /\
   forall m, PauseDurationDialog.spin_duration dlg = PauseDurationDialog.Returns m ->
             1 <= m -> d = 60 * m) /\
  (let w' := exec (handle (set_time_dialog_response true d)) w in
   TimerManager._state (timer_manager w') = TimerManager.STATE_RUNNING /\
   TimerManager._remaining_seconds (timer_manager w') = d /\
   _manual_pause_timer_id (self w') = None /\
   _paused_due_to_idle (self w') = false /\
   calls (outputs (handle (set_time_dialog_response true d)) w)
   = [m_postpone (inject_Z d / 60)]) /\
  (let w' := exec (handle (pause_dialog_response true d)) w in
   _manual_pause_timer_id (self w') = Some (GLib.next_source_id (loop w)) /\
   _manual_pause_remaining_seconds (self w') = d /\
   _paused_due_to_idle (self w') = false /\
   TimerManager._state (timer_manager w') <> TimerManager.STATE_RUNNING /\
   TimerManager._remaining_seconds (timer_manager w')
   = TimerManager._remaining_seconds (timer_manager w)) /\
  handle (set_time_dialog_response false d) w = (tt, w, []) /\
  handle (pause_dialog_response false d) w = (tt, w, []).
Proof.
  cbn zeta. pose proof (get_duration_seconds_positive dlg) as Hd.
  split; [split; [exact Hd|]|].
  { intros m Hm H1. unfold PauseDurationDialog.get_duration_seconds. rewrite Hm. lia. }
  split; [exact (set_time_ok w Hd)|].
  split; [exact (pause_ok w Hd)|].
  split; reflexivity.
Qed.

(** *** Two manual pause countdowns *)

Lemma app_exec_run_snoc es : forall e w,
  exec (run (es ++ [e])) w = exec (handle e) (exec (run es) w).
Proof.
  induction es as [|e0 es IH]; intros e w.
  - cbn [app]. rewrite app_exec_run_cons. reflexivity.
  - cbn [app]. rewrite !app_exec_run_cons. apply IH.
Qed.

Lemma fire_manual_continues id w s :
  GLib.find_source id (loop w) = Some s ->
  GLib.src_callback s = GLib.App_manual_pause_tick ->
  2 <= _manual_pause_remaining_seconds (self w) ->
  fire id w =
  (tt,
   {| self := {| _paused_due_to_idle := _paused_due_to_idle (self w);
                 _manual_pause_timer_id := _manual_pause_timer_id (self w);
                 _manual_pause_remaining_seconds :=
                   _manual_pause_remaining_seconds (self w) - 1 |};
      timer_manager := timer_manager w; loop := loop w |},
   [tray_update_status TRAY_MANUAL_PAUSE (_manual_pause_remaining_seconds (self w) - 1)]).
Proof.
  destruct w as [[flag mid mrem] tm c], s as [i iv cb]; cbn. intros Hs -> Hrem.
  unfold_app; cbn. rewrite Hs; cbn.
  destruct (Z.leb_spec mrem 0); [lia|]. cbn.
  destruct (Z.leb_spec (mrem - 1) 0); [lia|]. reflexivity.
Qed.

Lemma fire_manual_last id w s :
  GLib.find_source id (loop w) = Some s ->
  GLib.src_callback s = GLib.App_manual_pause_tick ->
  _manual_pause_remaining_seconds (self w) = 1 ->
  _manual_pause_timer_id (self (exec (fire id) w)) = None /\
  GLib.find_source id (loop (exec (fire id) w)) = None.
Proof.
  destruct w as [[flag mid mrem] [st tid rem conf] c], s as [i iv cb]; cbn.
  intros Hs -> ->.
  unfold_app; cbn. rewrite Hs; cbn.
  destruct st; cbn; try (split; [reflexivity|apply GLibFacts.find_source_remove_same]).
  destruct (0 <? rem); cbn; (split; [reflexivity|apply GLibFacts.find_source_remove_same]).
Qed.

Lemma shared_countdown_run id1 id2 s1 s2 : forall es w,
  GLib.find_source id1 (loop w) = Some s1 ->
  GLib.src_callback s1 = GLib.App_manual_pause_tick ->
  GLib.find_source id2 (loop w) = Some s2 ->
  GLib.src_callback s2 = GLib.App_manual_pause_tick ->
  Forall (fun e => e = source_fires id1 \/ e = source_fires id2) es ->
  Z.of_nat (length es) < _manual_pause_remaining_seconds (self w) ->
  let w' := exec (run es) w in
  _manual_pause_remaining_seconds (self w')
  = _manual_pause_remaining_seconds (self w) - Z.of_nat (length es) /\
  _manual_pause_timer_id (self w') = _manual_pause_timer_id (self w) /\
  timer_manager w' = timer_manager w /\ loop w' = loop w.
Proof.
  induction es as [|e es IH]; intros w H1 C1 H2 C2 Hes Hlen; cbn zeta.
  - unfold exec, final; cbn. split; [lia|auto].
  - inversion Hes as [|? ? He Hes']; subst. cbn [length] in Hlen.
    rewrite app_exec_run_cons.
    assert (F : exists s, GLib.find_source
                            match e with source_fires id => id | _ => id1 end (loop w)
                          = Some s /\ GLib.src_callback s = GLib.App_manual_pause_tick /\
                          handle e = fire match e with source_fires id => id | _ => id1 end).
    { destruct He as [->| ->]; [exists s1|exists s2]; auto. }
    destruct F as (s & Hs & Cs & Eh). rewrite Eh.
    assert (Hrem : 2 <= _manual_pause_remaining_seconds (self w)) by lia.
    assert (E : exec (fire match e with source_fires id => id | _ => id1 end) w
                = {| self := {| _paused_due_to_idle := _paused_due_to_idle (self w);
                                _manual_pause_timer_id := _manual_pause_timer_id (self w);
                                _manual_pause_remaining_seconds :=
                                  _manual_pause_remaining_seconds (self w) - 1 |};
                     timer_manager := timer_manager w; loop := loop w |})
      by (unfold exec; rewrite (@fire_manual_continues _ w s Hs Cs Hrem); reflexivity).
    rewrite E.
    match goal with
    | |- context [exec (run es) ?W] =>
        destruct (IH W H1 C1 H2 C2 Hes' ltac:(cbn; lia)) as (R & M & T & L)
    end.
    cbn zeta in R, M, T, L. rewrite R, M, T, L. cbn [self _manual_pause_remaining_seconds
      _manual_pause_timer_id timer_manager loop length].
    split; [lia|auto].
Qed.

(** X19. Confirming a pause dialog while a manual pause countdown is still
    live does not stop that countdown: both sources stay in the main loop and
    each dispatch of either takes a second off the one stored duration.  The
    new pause of [D] seconds is therefore over after [D] dispatches in all,
    that is, in half the time when both fire every second. *)
Theorem second_pause_confirmation_shares_the_countdown
    (w : world) (id1 : GLib.source_id) (s1 : GLib.source) (D : Z) (es : list event) :
  let id2 := GLib.next_source_id (loop w) in
  let w1 := exec (handle (pause_dialog_response true D)) w in
  reachable w ->
  GLib.find_source id1 (loop w) = Some s1 ->
  GLib.src_callback s1 = GLib.App_manual_pause_tick ->
  Forall (fun e => e = source_fires id1 \/ e = source_fires id2) es ->
  Z.of_nat (length es) < D ->
  id1 <> id2 /\
  _manual_pause_timer_id (self w1) = Some id2 /\
  GLib.find_source id1 (loop w1) = Some s1 /\
  GLib.find_source id2 (loop w1) = Some (manual_source id2) /\
  _manual_pause_remaining_seconds (self (exec (run es) w1)) = D - Z.of_nat (length es) /\
  (Z.of_nat (length es) = D - 1 ->
   forall id, id = id1 \/ id = id2 ->
     _manual_pause_timer_id (self (exec (run (es ++ [source_fires id])) w1)) = None).
Proof.
  cbn zeta. intros Hr Hs1 Hc1 Hes Hlen.
  pose proof (reachable_consistent Hr) as (_ & Hf & [Hlive _] & _ & _).
  assert (HD : 1 <= D) by lia.
  pose proof (GLibFacts.find_source_lt _ Hf Hs1) as Hlt.
  assert (Hne : id1 <> GLib.next_source_id (loop w)) by lia.
  destruct (pause_ok w HD) as (Hmid & Hrem & _).
  assert (Hloop : GLib.find_source id1 (loop (exec (handle (pause_dialog_response true D)) w))
                  = Some s1 /\
                  GLib.find_source (GLib.next_source_id (loop w))
                    (loop (exec (handle (pause_dialog_response true D)) w))
                  = Some (manual_source (GLib.next_source_id (loop w)))).
  { clear Hmid Hrem Hes Hr.
    destruct w as [[flag mid mrem] [st tid rem conf] c]; cbn in *.
    unfold_app; cbn. destruct (Z.leb_spec D 0); [lia|]. cbn.
    assert (Hrm : forall t, tid = Some t ->
              GLib.find_source id1 (GLib.source_remove t c) = Some s1 /\
              GLib.fresh (GLib.source_remove t c)).
    { intros t ->. destruct (Hlive t eq_refl) as [_ Ht].
      split; [|apply GLibFacts.fresh_source_remove, Hf].
      rewrite GLibFacts.find_source_remove_other; [exact Hs1|].
      intros ->. rewrite Ht in Hs1. inversion Hs1; subst s1. discriminate. }
    destruct st; cbn; try destruct tid as [t0|]; cbn;
      try destruct mid; cbn; unfold GLib.timeout_add_seconds;
      first
        [ destruct (Hrm _ eq_refl) as [Hs1' Hf'];
          split; [rewrite GLibFacts.find_source_attach_old by exact Hne; exact Hs1'
                 |exact (GLibFacts.find_source_attach_new (Some 1)
                           GLib.App_manual_pause_tick Hf')]
        | split; [rewrite GLibFacts.find_source_attach_old by exact Hne; exact Hs1
                 |exact (GLibFacts.find_source_attach_new (Some 1)
                           GLib.App_manual_pause_tick Hf)] ]. }
  destruct Hloop as [Hl1 Hl2].
  split; [exact Hne|]. split; [exact Hmid|]. split; [exact Hl1|]. split; [exact Hl2|].
  destruct (@shared_countdown_run id1 (GLib.next_source_id (loop w)) s1 _ es _
              Hl1 Hc1 Hl2 eq_refl Hes ltac:(rewrite Hrem; exact Hlen)) as (R & M & T & L).
  cbn zeta in R, M, T, L. rewrite Hrem in R.
  split; [exact R|].
  intros Hlast id Hid. rewrite app_exec_run_snoc. cbn [handle].
  assert (F : exists s, GLib.find_source id
                          (loop (exec (run es)
                                   (exec (handle (pause_dialog_response true D)) w)))
                        = Some s /\ GLib.src_callback s = GLib.App_manual_pause_tick).
  { rewrite L. destruct Hid as [->| ->]; [exists s1|eexists]; eauto. }
  destruct F as (s & Hs & Cs).
  apply (@fire_manual_last id _ s Hs Cs). lia.
Qed.

Lemma second_pause_confirmation_shares_the_countdown_witness :
  let w := exec (run [start_timer_requested 25; pause_dialog_response true 60])
             (do_startup 25) in
  let w1 := exec (handle (pause_dialog_response true 10)) w in
  _manual_pause_remaining_seconds
    (self (exec (run [source_fires 2%positive; source_fires 3%positive]) w1)) = 8.
Proof.
  cbn zeta.
  refine (proj1 (proj2 (proj2 (proj2 (proj2
    (@second_pause_confirmation_shares_the_countdown
       (exec (run [start_timer_requested 25; pause_dialog_response true 60])
          (do_startup 25))
       2%positive (manual_source 2%positive) 10
       [source_fires 2%positive; source_fires 3%positive] _ _ _ _ _)))))).
  - change (reachable
              (exec (handle (pause_dialog_response true 60))
                 (exec (handle (start_timer_requested 25)) (do_startup 25)))).
    apply (reach_handle (pause_dialog_response true 60)),
          (reach_handle (start_timer_requested 25)), reach_startup.
  - reflexivity.
  - reflexivity.
  - constructor; [left; reflexivity|]. constructor; [right; reflexivity|]. constructor.
  - cbn. lia.
Defined.

End MindfulBreakAppExtra.
(** ** The application as a whole *)

Module ApplicationFacts.
Import SW Application ApplicationSpec.
Import TimerManagerMore IdleMonitorMore MindfulBreakAppMore.

#[local] Arguments GLib.find_source : simpl never.
#[local] Arguments GLib.source_remove : simpl never.
#[local] Arguments GLib.timeout_add_seconds : simpl never.
#[local] Arguments GLib.idle_add : simpl never.
#[local] Arguments GLib.attach : simpl never.
#[local] Arguments IdleMonitor._check_idle : simpl never.

(** *** The monad *)

Lemma all_bind_get {A} (k : world -> Op A) w : bind get k w = k w w.
Proof. unfold bind, get. destruct (k w w) as [[a s] o]. reflexivity. Qed.

Lemma all_preserves_ret {A} P (a : A) : preserves P (ret a).
Proof. intros w H. exact H. Qed.

Lemma all_preserves_emit P (o : output) : preserves P (emit o).
Proof. intros w H. exact H. Qed.

Lemma all_preserves_bind {A B} P (m : Op A) (k : A -> Op B) :
  preserves P m -> (forall a, preserves P (k a)) -> preserves P (bind m k).
Proof.
  intros Hm Hk w H. unfold bind, final.
  specialize (Hm w H). unfold final in Hm.
  destruct (m w) as [[a w1] o1]. cbn in Hm.
  specialize (Hk a w1 Hm). unfold final in Hk.
  destruct (k a w1) as [[b w2] o2]. exact Hk.
Qed.

Lemma all_preserves_get_bind {A} (P : world -> Prop) (k : world -> Op A) :
  (forall w, P w -> P (final (k w w))) -> preserves P (bind get k).
Proof. intros H w Hw. rewrite all_bind_get. apply H, Hw. Qed.

Lemma all_bind_at {A B} (P Q : world -> Prop) (m : Op A) (k : A -> Op B) w :
  P (final (m w)) -> (forall a w1, P w1 -> Q (final (k a w1))) -> Q (final (bind m k w)).
Proof.
  intros Hm Hk. unfold bind, final in *.
  destruct (m w) as [[a w1] o1]. cbn in Hm.
  specialize (Hk a w1 Hm). destruct (k a w1) as [[b w2] o2]. exact Hk.
Qed.

Lemma all_run_cons e es w :
  run (e :: es) w =
  (tt, final (run es (final (handle e w))),
   SW.output (handle e w) ++ SW.output (run es (final (handle e w)))).
Proof.
  cbn [run]. unfold bind, final, SW.output.
  destruct (handle e w) as [[[] w1] out1]; cbn.
  destruct (run es w1) as [[[] w'] out']. reflexivity.
Qed.

Lemma exec_run_cons e es w :
  exec (run (e :: es)) w = exec (run es) (exec (handle e) w).
Proof. unfold exec. rewrite all_run_cons. reflexivity. Qed.

Lemma outputs_run_cons e es w :
  outputs (run (e :: es)) w
  = outputs (handle e) w ++ outputs (run es) (exec (handle e) w).
Proof. unfold outputs, exec. rewrite all_run_cons. reflexivity. Qed.

(** *** Lifting the arbiter *)

Lemma lift_spec {A} (m : MindfulBreakApp.Op A) w :
  lift m w =
  (value (m (app w)),
   {| app := final (m (app w)); idle_monitor := idle_monitor w;
      _idle_monitor_enabled := _idle_monitor_enabled w;
      _idle_threshold_seconds := _idle_threshold_seconds w;
      detectors := detectors w; bound := bound w |},
   map App (SW.output (m (app w)))).
Proof. unfold lift. destruct (m (app w)) as [[a s] o]. reflexivity. Qed.

Lemma consistent_app_sound c0 a : consistent c0 a -> app_sound a.
Proof. intros (Hv & Hf & HE & HM & _). split; [exact Hv|]. split; [exact Hf|]. split; [exact HE|exact HM]. Qed.

Lemma app_sound_consistent a : app_sound a -> consistent (MindfulBreakApp.loop a) a.
Proof.
  intros (Hv & Hf & HE & HM).
  split; [exact Hv|]. split; [exact Hf|]. split; [exact HE|]. split; [exact HM|].
  apply TimerManagerExtra.loop_frame_refl.
Qed.

(** A step that changes only the arbiter's part, within the arbiter's
    invariant, keeps the application's. *)
Lemma sound_app_step w a' :
  sound w ->
  consistent (loop w) a' ->
  sound {| app := a'; idle_monitor := idle_monitor w;
           _idle_monitor_enabled := _idle_monitor_enabled w;
           _idle_threshold_seconds := _idle_threshold_seconds w;
           detectors := detectors w; bound := bound w |}.
Proof.
  intros (Ha & HB & HD & HC) Hc.
  pose proof Hc as (_ & _ & _ & _ & (Hn & Hold & Hkeep)).
  split; [apply (consistent_app_sound Hc)|]. split; [|split; [|exact HC]].
  - intros p Hp. specialize (HB p Hp). unfold loop in *; cbn. lia.
  - intros i d Hd. destruct (HD i d Hd) as (D1 & D2 & D3).
    split; [exact D1|]. split; [|exact D3].
    intros t Ht. destruct (D2 t Ht) as (Hi & Hl & Ho).
    split; [exact Hi|]. split; [|exact Ho].
    unfold loop; cbn. apply Hkeep; [exact Hl|reflexivity].
Qed.

Lemma sound_lift {A} (m : MindfulBreakApp.Op A) :
  (forall c0, MindfulBreakAppSpec.preserves (consistent c0) m) ->
  preserves sound (lift m).
Proof.
  intros Hm w H. rewrite lift_spec. unfold final at 1; cbn [fst snd].
  apply (sound_app_step H). apply Hm, app_sound_consistent, H.
Qed.

(** *** The heap of detectors *)

Lemma nth_error_set_nth_same {A} (a : A) l : forall i,
  (i < length l)%nat -> nth_error (set_nth i a l) i = Some a.
Proof.
  induction l as [|b l IH]; intros i Hi; cbn in Hi; [lia|].
  destruct i as [|i]; cbn; [reflexivity|]. apply IH. lia.
Qed.

Lemma nth_error_set_nth_other {A} (a : A) l : forall i j,
  i <> j -> nth_error (set_nth i a l) j = nth_error l j.
Proof.
  induction l as [|b l IH]; intros i j Hne; [destruct i; reflexivity|].
  destruct i as [|i], j as [|j]; cbn; try reflexivity; try contradiction.
  apply IH. congruence.
Qed.

Lemma length_set_nth {A} (a : A) l : forall i, length (set_nth i a l) = length l.
Proof.
  induction l as [|b l IH]; intros i; [destruct i; reflexivity|].
  destruct i as [|i]; cbn; [reflexivity|]. rewrite IH. reflexivity.
Qed.

Lemma set_nth_last {A} (a b : A) l : set_nth (length l) a (l ++ [b]) = l ++ [a].
Proof. induction l as [|c l IH]; cbn; [reflexivity|]. rewrite IH. reflexivity. Qed.

Lemma nth_error_set_nth {A} (a : A) l i j x :
  nth_error (set_nth i a l) j = Some x ->
  (j = i /\ x = a /\ (i < length l)%nat) \/ (j <> i /\ nth_error l j = Some x).
Proof.
  intros H. destruct (Nat.eq_dec j i) as [->|Hne].
  - left. assert (Hi : (i < length l)%nat).
    { rewrite <- (length_set_nth a l i). apply nth_error_Some. congruence. }
    rewrite nth_error_set_nth_same in H by exact Hi. inversion H. auto.
  - right. rewrite nth_error_set_nth_other in H by congruence. auto.
Qed.

(** *** Sources and their owners *)

Lemma attached_none c c' :
  GLib.fresh c' -> GLib.next_source_id c' = GLib.next_source_id c -> attached c c' = [].
Proof.
  unfold GLib.fresh, attached. intros Hf <-.
  induction (GLib.sources c') as [|s l IH]; [reflexivity|].
  inversion Hf; subst. cbn.
  destruct (Pos.ltb_spec (GLib.src_id s) (GLib.next_source_id c')); [|lia].
  cbn. apply IH. assumption.
Qed.

Lemma attached_start c n :
  GLib.fresh c ->
  attached c (snd (GLib.timeout_add_seconds n GLib.IdleMonitor_check_idle
                     (snd (GLib.idle_add GLib.IdleMonitor_check_idle c))))
  = [GLib.next_source_id c; Pos.succ (GLib.next_source_id c)].
Proof.
  intros Hf. unfold attached, GLib.timeout_add_seconds, GLib.idle_add, GLib.attach.
  cbn [fst snd GLib.sources GLib.next_source_id].
  rewrite !filter_app, !map_app.
  pose proof (@attached_none c c Hf eq_refl) as E. unfold attached in E. rewrite E.
  cbn.
  destruct (Pos.ltb_spec (GLib.next_source_id c) (GLib.next_source_id c)); [lia|].
  destruct (Pos.ltb_spec (Pos.succ (GLib.next_source_id c)) (GLib.next_source_id c));
    [lia|]. reflexivity.
Qed.

Lemma owner_old id w (extra : list (GLib.source_id * nat)) i :
  owner id w = Some i ->
  owner id {| app := app w; idle_monitor := idle_monitor w;
              _idle_monitor_enabled := _idle_monitor_enabled w;
              _idle_threshold_seconds := _idle_threshold_seconds w;
              detectors := detectors w; bound := bound w ++ extra |} = Some i.
Proof.
  unfold owner; cbn [bound].
  induction (bound w) as [|p l IH]; simpl; [discriminate|].
  match goal with |- context [if ?b then _ else _] => destruct b end; simpl; auto.
Qed.

Lemma owner_bound (f : world -> world) id w :
  bound (f w) = bound w -> owner id (f w) = owner id w.
Proof. unfold owner. intros ->. reflexivity. Qed.

(** *** Methods of a detector *)

Lemma detector_call_spec {A} i (m : IdleMonitor.Op A) w d :
  nth_error (detectors w) i = Some d ->
  detector_call i m w =
  let r := m {| IdleMonitor.self := obj d; IdleMonitor.loop := loop w |} in
  ((Some (value r), if connected d then IdleMonitor.signals (SW.output r) else []),
   {| app := with_loop (IdleMonitor.loop (final r)) (app w);
      idle_monitor := idle_monitor w;
      _idle_monitor_enabled := _idle_monitor_enabled w;
      _idle_threshold_seconds := _idle_threshold_seconds w;
      detectors :=
        set_nth i {| obj := IdleMonitor.self (final r); connected := connected d |}
                (detectors w);
      bound := bound w ++
        map (fun id => (id, i)) (attached (loop w) (IdleMonitor.loop (final r))) |},
   map (Detector i) (SW.output r)).
Proof.
  intros H. unfold detector_call, loop. rewrite H.
  destruct (m _) as [[a s] o]. reflexivity.
Qed.

Lemma detector_method_silent {A} i (m : IdleMonitor.Op A) w d :
  nth_error (detectors w) i = Some d ->
  (if connected d
   then IdleMonitor.signals
          (SW.output (m {| IdleMonitor.self := obj d; IdleMonitor.loop := loop w |}))
   else []) = [] ->
  detector_method i m w =
  (Some (value (m {| IdleMonitor.self := obj d; IdleMonitor.loop := loop w |})),
   final (detector_call i m w),
   SW.output (detector_call i m w)).
Proof.
  intros H Hs. unfold detector_method, bind.
  rewrite (detector_call_spec i m w H). cbn zeta. revert Hs.
  destruct (m {| IdleMonitor.self := obj d; IdleMonitor.loop := loop w |}) as [[a s] o].
  unfold value, final, SW.output; cbn [fst snd]. intros ->.
  cbn. rewrite app_nil_r. reflexivity.
Qed.

Lemma stop_general dw :
  IdleMonitor.stop dw =
  (tt,
   {| IdleMonitor.self :=
        let s := IdleMonitor.self dw in
        let ini := IdleMonitor._initialized_successfully s in
        {| IdleMonitor._idle_threshold_ms := IdleMonitor._idle_threshold_ms s;
           IdleMonitor._is_idle := IdleMonitor._is_idle s;
           IdleMonitor._timer_source_id := None;
           IdleMonitor._display :=
             if ini && IdleMonitor.truthy (IdleMonitor._display s) then None
             else IdleMonitor._display s;
           IdleMonitor._root_window := IdleMonitor._root_window s;
           IdleMonitor._saver_info :=
             if ini && IdleMonitor.truthy (IdleMonitor._saver_info s) then None
             else IdleMonitor._saver_info s;
           IdleMonitor._initialized_successfully := false |};
      IdleMonitor.loop :=
        match IdleMonitor._timer_source_id (IdleMonitor.self dw) with
        | Some t => GLib.source_remove t (IdleMonitor.loop dw)
        | None => IdleMonitor.loop dw
        end |},
   releases (SW.output (IdleMonitor.stop dw))) /\
  IdleMonitor.signals (SW.output (IdleMonitor.stop dw)) = [].
Proof.
  destruct dw as [[thr idle tid dsp r sv ini] c].
  unfold IdleMonitor.stop, IdleMonitor.GLib_source_remove, IdleMonitor.set_timer_source_id,
    IdleMonitor.set_saver_info, IdleMonitor.set_display,
    IdleMonitor.set_initialized_successfully, IdleMonitor.update,
    bind, ret, get, modify, emit, SW.output; cbn.
  destruct tid, ini; cbn; try (split; reflexivity);
    destruct (IdleMonitor.truthy sv); cbn; destruct (IdleMonitor.truthy dsp); cbn;
    split; reflexivity.
Qed.

(** *** The invariant under a detector's step *)

Lemma owns_ticks_remove_other tm c t :
  engine_owns_ticks tm c ->
  (forall s, GLib.find_source t c = Some s ->
             GLib.src_callback s <> GLib.TimerManager_tick) ->
  engine_owns_ticks tm (GLib.source_remove t c).
Proof.
  intros [Hlive Honly] Ht. split.
  - intros id Hid. destruct (Hlive _ Hid) as [Hst Hl]. split; [exact Hst|].
    rewrite GLibFacts.find_source_remove_other; [exact Hl|].
    intros ->. apply (Ht _ Hl). reflexivity.
  - intros id s Hs Hcb. apply (Honly id s); [|exact Hcb].
    apply (GLibFacts.find_source_remove_some _ _ _ Hs).
Qed.

Lemma app_sound_with_loop a c' :
  app_sound a -> GLib.fresh c' ->
  engine_owns_ticks (MindfulBreakApp.timer_manager a) c' ->
  loop_frame (fun _ => False) (MindfulBreakApp.loop a) c' ->
  app_sound (with_loop c' a).
Proof.
  intros (Hv & Hf & HE & HM) Hf' HE' Hfr.
  split; [exact Hv|]. split; [exact Hf'|]. split; [exact HE'|].
  intros mid Hmid. apply (MindfulBreakAppExtra.pinned_frame (HM _ Hmid) Hfr).
Qed.

(** Detector [i] goes from [obj d] to [o'] and the loop to [c'], which has
    lost at most sources and gained none. *)
Lemma sound_detector_step w i d o' c' :
  sound w -> nth_error (detectors w) i = Some d ->
  GLib.fresh c' -> GLib.next_source_id c' = GLib.next_source_id (loop w) ->
  engine_owns_ticks (engine w) c' ->
  loop_frame (fun _ => False) (loop w) c' ->
  (idle_monitor w <> Some i -> IdleMonitorSpec.stopped o') ->
  (forall t, IdleMonitor._timer_source_id o' = Some t ->
     IdleMonitor._initialized_successfully o' = true /\
     GLib.find_source t c' = Some (poll_source t) /\ owner t w = Some i) ->
  (IdleMonitor._initialized_successfully o' = true ->
     IdleMonitorSpec.operational o' = true /\ connected d = true /\
     IdleMonitor._timer_source_id o' <> None) ->
  (forall j dj t, j <> i -> nth_error (detectors w) j = Some dj ->
     IdleMonitor._timer_source_id (obj dj) = Some t ->
     GLib.find_source t c' = Some (poll_source t)) ->
  sound {| app := with_loop c' (app w);
           idle_monitor := idle_monitor w;
           _idle_monitor_enabled := _idle_monitor_enabled w;
           _idle_threshold_seconds := _idle_threshold_seconds w;
           detectors := set_nth i {| obj := o'; connected := connected d |} (detectors w);
           bound := bound w ++ map (fun id => (id, i)) (attached (loop w) c') |}.
Proof.
  intros (Ha & HB & HD & HC) Hd Hf' Hn' HE' Hfr D1 D2 D3 Hothers.
  rewrite (@attached_none (loop w) c' Hf' Hn'). cbn [map]. rewrite app_nil_r.
  split; [apply (@app_sound_with_loop (app w) c' Ha Hf' HE' Hfr)|]. split; [|split].
  - intros p Hp. specialize (HB p Hp). unfold loop in *; cbn. rewrite Hn'. exact HB.
  - intros j dj Hj. cbn [detectors] in Hj.
    destruct (nth_error_set_nth _ _ _ _ Hj) as [(-> & -> & _)|(Hne & Hj')].
    + split; [exact D1|]. split; [|exact D3].
      intros t Ht. destruct (D2 t Ht) as (H1 & H2 & H3). auto.
    + destruct (HD j dj Hj') as (E1 & E2 & E3).
      split; [exact E1|]. split; [|exact E3].
      intros t Ht. destruct (E2 t Ht) as (H1 & H2 & H3).
      split; [exact H1|]. split; [|exact H3].
      apply (Hothers j dj t Hne Hj' Ht).
  - intros j Hj. cbn [detectors idle_monitor] in *. rewrite length_set_nth.
    apply HC, Hj.
Qed.

Lemma stopped_no_timer w i d t :
  sound w -> nth_error (detectors w) i = Some d -> idle_monitor w <> Some i ->
  IdleMonitor._timer_source_id (obj d) = Some t -> False.
Proof.
  intros (_ & _ & HD & _) Hd Hne Ht.
  destruct (HD i d Hd) as (D1 & _). destruct (D1 Hne) as [_ Hnone]. congruence.
Qed.

(** [stop()] on the application's current detector. *)
Lemma sound_stop w i d :
  sound w -> idle_monitor w = Some i -> nth_error (detectors w) i = Some d ->
  let w1 := final (detector_method i IdleMonitor.stop w) in
  sound w1 /\
  idle_monitor w1 = Some i /\
  _idle_monitor_enabled w1 = _idle_monitor_enabled w /\
  _idle_threshold_seconds w1 = _idle_threshold_seconds w /\
  length (detectors w1) = length (detectors w) /\
  (forall j dj, nth_error (detectors w1) j = Some dj -> IdleMonitorSpec.stopped (obj dj)) /\
  MindfulBreakApp.self (app w1) = MindfulBreakApp.self (app w) /\
  engine w1 = engine w.
Proof.
  intros H Hcur Hd. cbn zeta.
  pose proof H as (Ha & HB & HD & HC). pose proof Ha as (Hv & Hf & HE & HM).
  destruct (HD i d Hd) as (D1 & D2 & D3).
  destruct (stop_general {| IdleMonitor.self := obj d; IdleMonitor.loop := loop w |})
    as [Hstop Hsig].
  rewrite (@detector_method_silent _ i IdleMonitor.stop w d Hd)
    by (rewrite Hsig; destruct (connected d); reflexivity).
  unfold final at 1; cbn [fst snd].
  rewrite (detector_call_spec i IdleMonitor.stop w Hd). cbn zeta.
  unfold final at 1; cbn [fst snd].
  rewrite Hstop. unfold final; cbn [fst snd IdleMonitor.self IdleMonitor.loop].
  set (o' := {| IdleMonitor._idle_threshold_ms := _; IdleMonitor._is_idle := _;
                IdleMonitor._timer_source_id := None; IdleMonitor._display := _;
                IdleMonitor._root_window := _; IdleMonitor._saver_info := _;
                IdleMonitor._initialized_successfully := false |}).
  set (c' := match IdleMonitor._timer_source_id (obj d) with
             | Some t => GLib.source_remove t (loop w)
             | None => loop w
             end).
  assert (Hstopped : IdleMonitorSpec.stopped o') by (split; reflexivity).
  assert (Hf' : GLib.fresh c').
  { unfold c'. destruct (IdleMonitor._timer_source_id (obj d));
      [apply GLibFacts.fresh_source_remove|]; exact Hf. }
  assert (Hn' : GLib.next_source_id c' = GLib.next_source_id (loop w)).
  { unfold c'. destruct (IdleMonitor._timer_source_id (obj d)); reflexivity. }
  assert (HE' : engine_owns_ticks (engine w) c').
  { unfold c'. destruct (IdleMonitor._timer_source_id (obj d)) as [t|] eqn:Et; [|exact HE].
    apply owns_ticks_remove_other; [exact HE|].
    intros s Hs. destruct (D2 t eq_refl) as (_ & Hl & _).
    rewrite Hl in Hs. inversion Hs; discriminate. }
  assert (Hfr : loop_frame (fun _ => False) (loop w) c').
  { unfold c'. destruct (IdleMonitor._timer_source_id (obj d)) as [t|];
      [apply TimerManagerExtra.loop_frame_remove; auto
      |apply TimerManagerExtra.loop_frame_refl]. }
  assert (Hs1 : sound
            {| app := with_loop c' (app w); idle_monitor := idle_monitor w;
               _idle_monitor_enabled := _idle_monitor_enabled w;
               _idle_threshold_seconds := _idle_threshold_seconds w;
               detectors := set_nth i {| obj := o'; connected := connected d |} (detectors w);
               bound := bound w ++ map (fun id => (id, i)) (attached (loop w) c') |}).
  { apply (@sound_detector_step w i d o' c' H Hd Hf' Hn' HE' Hfr); auto.
    - intros t Ht. discriminate Ht.
    - intros Hi. discriminate Hi.
    - intros j dj t Hne Hj Ht. exfalso.
      apply (@stopped_no_timer w j dj t H Hj); [congruence|exact Ht]. }
  split; [exact Hs1|]. cbn [idle_monitor _idle_monitor_enabled _idle_threshold_seconds
                            detectors app].
  split; [exact Hcur|]. split; [reflexivity|]. split; [reflexivity|].
  split; [apply length_set_nth|]. split; [|split; reflexivity].
  intros j dj Hj. destruct (nth_error_set_nth _ _ _ _ Hj) as [(-> & -> & _)|(Hne & Hj')].
  - exact Hstopped.
  - destruct (HD j dj Hj') as (E1 & _). apply E1. congruence.
Qed.

(** Removing a detector's source that no detector stores as its timer. *)
Lemma sound_remove_source w id :
  sound w ->
  (forall s, GLib.find_source id (loop w) = Some s ->
             GLib.src_callback s = GLib.IdleMonitor_check_idle) ->
  (forall j dj, nth_error (detectors w) j = Some dj ->
                IdleMonitor._timer_source_id (obj dj) <> Some id) ->
  sound (final (lift (MindfulBreakApp.GLib_source_remove id) w)).
Proof.
  intros H Hid Hno. pose proof H as (Ha & HB & HD & HC).
  pose proof Ha as (Hv & Hf & HE & HM).
  rewrite lift_spec. unfold final; cbn [fst snd].
  split; [|split; [|split; [|exact HC]]].
  - apply (@app_sound_with_loop (app w) (GLib.source_remove id (loop w)) Ha).
    + apply GLibFacts.fresh_source_remove, Hf.
    + apply owns_ticks_remove_other; [exact HE|].
      intros s Hs. rewrite (Hid _ Hs). discriminate.
    + apply TimerManagerExtra.loop_frame_remove. auto.
  - exact HB.
  - intros j dj Hj. destruct (HD j dj Hj) as (D1 & D2 & D3).
    split; [exact D1|]. split; [|exact D3].
    intros t Ht. destruct (D2 t Ht) as (H1 & H2 & H3).
    split; [exact H1|]. split; [|exact H3].
    unfold loop; cbn. rewrite GLibFacts.find_source_remove_other; [exact H2|].
    intros ->. apply (Hno j dj Hj Ht).
Qed.

Lemma sound_deliver sigs : preserves sound (deliver sigs).
Proof.
  induction sigs as [|s sigs IH]; cbn [deliver]; [apply all_preserves_ret|].
  apply all_preserves_bind; [|intros _; exact IH].
  destruct s; cbn [on_signal]; apply sound_lift; intros c0.
  - apply (@MindfulBreakAppExtra.consistent_handle c0 MindfulBreakApp.user_idle).
  - apply (@MindfulBreakAppExtra.consistent_handle c0 MindfulBreakApp.user_active).
Qed.

(** One poll of detector [i], before its signals are delivered. *)
Lemma sound_check_idle w i d q :
  sound w -> nth_error (detectors w) i = Some d ->
  sound (final (detector_call i (IdleMonitor._check_idle q) w)).
Proof.
  intros H Hd. pose proof H as (Ha & HB & HD & HC). pose proof Ha as (Hv & Hf & HE & HM).
  destruct (HD i d Hd) as (D1 & D2 & D3).
  rewrite (detector_call_spec i (IdleMonitor._check_idle q) w Hd). cbn zeta.
  unfold final at 1; cbn [fst snd].
  set (dw := {| IdleMonitor.self := obj d; IdleMonitor.loop := loop w |}).
  destruct (IdleMonitorFacts.check_idle_frame q dw) as (Hl & Hi & Ht & _).
  pose proof (IdleMonitorFacts.check_idle_keeps_operational q dw) as Hop.
  cbn [IdleMonitor.self IdleMonitor.loop dw] in Hl, Hi, Ht, Hop.
  rewrite Hl.
  apply (@sound_detector_step w i d _ (loop w) H Hd Hf eq_refl HE
           (TimerManagerExtra.loop_frame_refl _ _)).
  - intros Hne. destruct (D1 Hne) as [S1 S2]. split; congruence.
  - intros t Et. rewrite Ht in Et. rewrite Hi. apply (D2 t Et).
  - intros Ei. rewrite Hi in Ei. rewrite Hop, Ht. apply (D3 Ei).
  - intros j dj t Hne Hj Etj. destruct (HD j dj Hj) as (_ & E2 & _).
    apply (E2 t Etj).
Qed.

(** *** Dispatches *)

(** What the dispatch of a detector's source does. *)
Lemma fire_check_spec id q w s i d :
  GLib.find_source id (loop w) = Some s ->
  GLib.src_callback s = GLib.IdleMonitor_check_idle ->
  owner id w = Some i -> nth_error (detectors w) i = Some d ->
  let r := IdleMonitor._check_idle q
             {| IdleMonitor.self := obj d; IdleMonitor.loop := loop w |} in
  let sigs := if connected d then IdleMonitor.signals (SW.output r) else [] in
  let w1 := final (detector_call i (IdleMonitor._check_idle q) w) in
  let w2 := final (deliver sigs w1) in
  fire id q w =
  (tt,
   (if value r then w2 else final (lift (MindfulBreakApp.GLib_source_remove id) w2)),
   map (Detector i) (SW.output r) ++ SW.output (deliver sigs w1)).
Proof.
  intros Hs Hcb Ho Hd. cbn zeta. unfold fire. rewrite all_bind_get.
  unfold loop in Hs. rewrite Hs. destruct s as [si iv cb]; cbn in Hcb; subst cb.
  rewrite Ho. unfold detector_method, bind.
  rewrite (detector_call_spec i (IdleMonitor._check_idle q) w Hd). cbn zeta.
  destruct (IdleMonitor._check_idle q _) as [[v s1] o1].
  unfold value, final, SW.output; cbn [fst snd].
  destruct (deliver _ _) as [[[] w2] o2]. cbn [fst snd ret].
  destruct v.
  - unfold ret. rewrite !app_nil_r. reflexivity.
  - rewrite lift_spec. unfold value, final, SW.output; cbn. rewrite !app_nil_r. reflexivity.
Qed.

Lemma check_idle_stays w i d q :
  sound w -> nth_error (detectors w) i = Some d ->
  IdleMonitorSpec.operational (obj d) = true ->
  value (IdleMonitor._check_idle q {| IdleMonitor.self := obj d; IdleMonitor.loop := loop w |})
  = true.
Proof.
  intros (_ & _ & HD & _) Hd Hop. destruct (HD i d Hd) as (_ & _ & D3).
  assert (Hini : IdleMonitor._initialized_successfully (obj d) = true).
  { unfold IdleMonitorSpec.operational in Hop. apply andb_prop in Hop.
    destruct Hop as [Hop _]. apply andb_prop in Hop. tauto. }
  destruct (D3 Hini) as (_ & _ & Ht).
  rewrite (IdleMonitorFacts.check_idle_operational q
             {| IdleMonitor.self := obj d; IdleMonitor.loop := loop w |} Hop). cbn zeta.
  cbn [IdleMonitor.self].
  destruct (IdleMonitor._timer_source_id (obj d)); [|contradiction].
  destruct (IdleMonitorSpec.measured (obj d) q); [reflexivity|]. destruct q; reflexivity.
Qed.

Lemma sound_fire id q : preserves sound (fire id q).
Proof.
  intros w H.
  destruct (GLib.find_source id (loop w)) as [[si iv cb]|] eqn:Hs.
  2:{ unfold fire. rewrite all_bind_get. unfold loop in Hs. rewrite Hs. exact H. }
  destruct cb.
  - unfold fire. rewrite all_bind_get. unfold loop in Hs. rewrite Hs.
    apply sound_lift; [|exact H]. intros c0.
    apply MindfulBreakAppExtra.consistent_fire.
  - unfold fire. rewrite all_bind_get. unfold loop in Hs. rewrite Hs.
    apply sound_lift; [|exact H]. intros c0.
    apply MindfulBreakAppExtra.consistent_fire.
  - destruct (owner id w) as [i|] eqn:Ho.
    2:{ unfold fire. rewrite all_bind_get. unfold loop in Hs. rewrite Hs, Ho. exact H. }
    destruct (nth_error (detectors w) i) as [d|] eqn:Hd.
    + rewrite (@fire_check_spec id q w _ i d Hs eq_refl Ho Hd). cbn zeta.
      unfold final at 1; cbn [fst snd].
      pose proof (@sound_check_idle w i d q H Hd) as H1.
      destruct (IdleMonitorSpec.operational (obj d)) eqn:Hop.
      * rewrite (@check_idle_stays w i d q H Hd Hop). apply sound_deliver, H1.
      * revert H1. rewrite (detector_call_spec i (IdleMonitor._check_idle q) w Hd).
        cbn zeta.
        rewrite (IdleMonitorFacts.check_idle_not_operational q
                   {| IdleMonitor.self := obj d; IdleMonitor.loop := loop w |} Hop).
        unfold value, final, SW.output; cbn [fst snd IdleMonitor.self IdleMonitor.loop
          IdleMonitor.signals flat_map].
        replace (if connected d then [] else []) with (@nil IdleMonitor.signal)
          by (destruct (connected d); reflexivity).
        cbn [deliver ret fst snd]. intros H1.
        apply (@sound_remove_source _ id H1).
        -- intros s Hs'. unfold loop in *; cbn in Hs'. rewrite Hs in Hs'.
           inversion Hs'; reflexivity.
        -- intros j dj Hj Ht. cbn [detectors] in Hj.
           pose proof H as (_ & _ & HD & _).
           destruct (nth_error_set_nth _ _ _ _ Hj) as [(-> & -> & _)|(Hne & Hj')].
           ++ cbn [obj] in Ht. destruct (HD i d Hd) as (_ & D2 & D3).
              destruct (D2 _ Ht) as (Hini & _). destruct (D3 Hini) as (Hop' & _).
              congruence.
           ++ destruct (HD j dj Hj') as (_ & D2 & _).
              destruct (D2 _ Ht) as (_ & _ & Ho'). congruence.
    + unfold fire. rewrite all_bind_get. unfold loop in Hs. rewrite Hs, Ho.
      unfold detector_method, detector_call, bind. rewrite Hd.
      cbn [fst snd deliver ret]. rewrite lift_spec. unfold final; cbn [fst snd].
      pose proof (@sound_remove_source w id H) as Hr. rewrite lift_spec in Hr.
      unfold final in Hr; cbn [fst snd] in Hr. apply Hr.
      * intros s Hs'. unfold loop in Hs'. rewrite Hs in Hs'. inversion Hs'; reflexivity.
      * intros j dj Hj Ht. pose proof H as (_ & _ & HD & _).
        destruct (HD j dj Hj) as (_ & D2 & _). destruct (D2 _ Ht) as (_ & _ & Ho').
        congruence.
Qed.

(** *** A new detector *)

Lemma nth_error_last {A} (l : list A) a : nth_error (l ++ [a]) (length l) = Some a.
Proof. induction l as [|b l IH]; [reflexivity|exact IH]. Qed.

Lemma init_available thr x :
  available x = true ->
  IdleMonitor.__init__ thr x =
  ({| IdleMonitor._idle_threshold_ms := (if thr <? 1 then 1 else thr) * 1000;
      IdleMonitor._is_idle := false; IdleMonitor._timer_source_id := None;
      IdleMonitor._display := Some (IdleMonitor.XOpenDisplay x);
      IdleMonitor._root_window := Some (IdleMonitor.XDefaultRootWindow x);
      IdleMonitor._saver_info := Some (IdleMonitor.XScreenSaverAllocInfo x);
      IdleMonitor._initialized_successfully := true |}, []).
Proof.
  unfold available, IdleMonitor.__init__.
  destruct (IdleMonitor.XOpenDisplay x =? 0), (IdleMonitor.XDefaultRootWindow x =? 0),
    (IdleMonitor.XScreenSaverAllocInfo x =? 0); cbn; intros H; try discriminate; reflexivity.
Qed.

Lemma init_unavailable thr x :
  available x = false ->
  IdleMonitor._initialized_successfully (fst (IdleMonitor.__init__ thr x)) = false /\
  IdleMonitor._timer_source_id (fst (IdleMonitor.__init__ thr x)) = None.
Proof. intros H. apply (IdleMonitorExtra.construct_failed thr x H). Qed.

Lemma start_new thr x c :
  IdleMonitor.start MindfulBreakApp.IDLE_POLL_INTERVAL_SECONDS
    {| IdleMonitor.self :=
         {| IdleMonitor._idle_threshold_ms := (if thr <? 1 then 1 else thr) * 1000;
            IdleMonitor._is_idle := false; IdleMonitor._timer_source_id := None;
            IdleMonitor._display := Some (IdleMonitor.XOpenDisplay x);
            IdleMonitor._root_window := Some (IdleMonitor.XDefaultRootWindow x);
            IdleMonitor._saver_info := Some (IdleMonitor.XScreenSaverAllocInfo x);
            IdleMonitor._initialized_successfully := true |};
       IdleMonitor.loop := c |}
  = (tt,
     {| IdleMonitor.self := started_detector thr x (Pos.succ (GLib.next_source_id c));
        IdleMonitor.loop := start_checks c |}, []).
Proof. reflexivity. Qed.

(** What [_update_idle_monitor_state] does once it has decided to construct
    a detector. *)
Lemma new_detector_in_update thr x w :
  GLib.fresh (loop w) ->
  bind (new_idle_monitor thr x)
       (fun i =>
          bind (initialized i)
               (fun ok =>
                  if ok then
                    bind (connect i)
                         (fun _ =>
                            bind (detector_method i
                                    (IdleMonitor.start
                                       MindfulBreakApp.IDLE_POLL_INTERVAL_SECONDS))
                                 (fun _ => ret tt))
                  else set_idle_monitor None)) w
  = (tt, with_new_detector thr x w,
     map (Detector (length (detectors w))) (snd (IdleMonitor.__init__ thr x))).
Proof.
  intros Hf. unfold with_new_detector. destruct (available x) eqn:Hx.
  - unfold bind at 1. unfold new_idle_monitor. rewrite (init_available thr x Hx).
    cbn [fst snd map].
    unfold bind at 1. unfold initialized. rewrite all_bind_get. cbn [detectors].
    rewrite nth_error_last. cbn [obj IdleMonitor._initialized_successfully ret].
    unfold bind at 1. unfold connect, modify. cbn [detectors fst snd].
    rewrite nth_error_last, set_nth_last. cbn [obj].
    unfold bind at 1.
    erewrite detector_method_silent;
      [ | cbn [detectors]; apply nth_error_last
        | cbn [obj connected]; unfold loop; cbn [app]; rewrite start_new; reflexivity ].
    erewrite detector_call_spec; [|cbn [detectors]; apply nth_error_last].
    cbn zeta. cbn [obj connected]. unfold loop; cbn [app].
    rewrite !start_new. unfold final, SW.output, ret; cbn [fst snd IdleMonitor.self
      IdleMonitor.loop map app idle_monitor _idle_monitor_enabled _idle_threshold_seconds
      detectors bound].
    rewrite set_nth_last.
    pose proof (@attached_start (loop w) MindfulBreakApp.IDLE_POLL_INTERVAL_SECONDS Hf)
      as Hat.
    unfold loop in Hat. unfold start_checks. rewrite Hat. reflexivity.
  - pose proof (init_unavailable thr x Hx) as [Hi _].
    unfold bind at 1. unfold new_idle_monitor.
    destruct (IdleMonitor.__init__ thr x) as [m o] eqn:E. cbn [fst snd] in *.
    unfold bind at 1. unfold initialized. rewrite all_bind_get. cbn [detectors].
    rewrite nth_error_last. cbn [obj ret]. rewrite Hi.
    unfold set_idle_monitor, modify. cbn. rewrite !app_nil_r. reflexivity.
Qed.

Lemma find_bound_none (l : list (GLib.source_id * nat)) id :
  (forall p, In p l -> (fst p < id)%positive) ->
  find (fun p => Pos.eqb (fst p) id) l = None.
Proof.
  unfold GLib.source_id in *.
  induction l as [|p l IH]; intros H; [reflexivity|]. simpl.
  match goal with |- context [if ?b then _ else _] => destruct b eqn:E end.
  - apply Pos.eqb_eq in E. specialize (H p (or_introl eq_refl)). lia.
  - apply IH. intros p' Hp'. apply H. right. exact Hp'.
Qed.

Lemma owner_new w (f : world) id0 n :
  (forall p, In p (bound w) -> (fst p < id0)%positive) ->
  bound f = bound w ++ [(id0, n); (Pos.succ id0, n)] ->
  owner id0 f = Some n /\ owner (Pos.succ id0) f = Some n.
Proof.
  intros HB E. unfold owner. rewrite E. split.
  - rewrite GLibFacts.find_app_none by (apply find_bound_none, HB).
    simpl. rewrite Pos.eqb_refl. reflexivity.
  - rewrite GLibFacts.find_app_none.
    + simpl. replace (id0 =? Pos.succ id0)%positive with false
        by (symmetry; apply Pos.eqb_neq; lia).
      rewrite Pos.eqb_refl. reflexivity.
    + apply find_bound_none. intros p Hp. specialize (HB p Hp). lia.
Qed.

Lemma start_checks_facts c :
  GLib.fresh c ->
  GLib.fresh (start_checks c) /\
  GLib.next_source_id (start_checks c) = Pos.succ (Pos.succ (GLib.next_source_id c)) /\
  GLib.find_source (GLib.next_source_id c) (start_checks c)
  = Some (immediate_check (GLib.next_source_id c)) /\
  GLib.find_source (Pos.succ (GLib.next_source_id c)) (start_checks c)
  = Some (poll_source (Pos.succ (GLib.next_source_id c))) /\
  (forall id, id <> GLib.next_source_id c -> id <> Pos.succ (GLib.next_source_id c) ->
     GLib.find_source id (start_checks c) = GLib.find_source id c) /\
  (forall tm, engine_owns_ticks tm c -> engine_owns_ticks tm (start_checks c)) /\
  loop_frame (fun _ => False) c (start_checks c).
Proof.
  intros Hf. unfold start_checks, GLib.timeout_add_seconds, GLib.idle_add.
  set (c0 := snd (GLib.attach None GLib.IdleMonitor_check_idle c)).
  assert (Hf0 : GLib.fresh c0) by (apply GLibFacts.fresh_attach, Hf).
  assert (Hn0 : GLib.next_source_id c0 = Pos.succ (GLib.next_source_id c)) by reflexivity.
  split; [apply GLibFacts.fresh_attach, Hf0|]. split; [reflexivity|].
  split; [|split; [|split; [|split]]].
  - rewrite GLibFacts.find_source_attach_old by (rewrite Hn0; lia).
    apply (GLibFacts.find_source_attach_new None GLib.IdleMonitor_check_idle Hf).
  - rewrite <- Hn0.
    apply (GLibFacts.find_source_attach_new
             (Some MindfulBreakApp.IDLE_POLL_INTERVAL_SECONDS)
             GLib.IdleMonitor_check_idle Hf0).
  - intros id H0 H1.
    rewrite GLibFacts.find_source_attach_old by (rewrite Hn0; exact H1).
    apply GLibFacts.find_source_attach_old, H0.
  - intros tm HE.
    apply MindfulBreakAppExtra.owns_ticks_attach_other; [discriminate|exact Hf0|].
    apply MindfulBreakAppExtra.owns_ticks_attach_other; [discriminate|exact Hf|exact HE].
  - apply (@TimerManagerExtra.loop_frame_trans _ c c0).
    + apply TimerManagerExtra.loop_frame_attach, Hf.
    + apply TimerManagerExtra.loop_frame_attach, Hf0.
Qed.

Lemma all_stopped w :
  sound w -> idle_monitor w = None ->
  forall j dj, nth_error (detectors w) j = Some dj -> IdleMonitorSpec.stopped (obj dj).
Proof.
  intros (_ & _ & HD & _) Hn j dj Hj. destruct (HD j dj Hj) as (D1 & _).
  apply D1. rewrite Hn. discriminate.
Qed.

Lemma detector_ok_stopped w i d : IdleMonitorSpec.stopped (obj d) -> detector_ok w i d.
Proof.
  intros [Hi Ht]. split; [intros _; split; assumption|]. split.
  - intros t E. congruence.
  - intros E. congruence.
Qed.

Lemma sound_with_new_detector thr x w :
  sound w -> idle_monitor w = None -> sound (with_new_detector thr x w).
Proof.
  intros H Hnone. pose proof H as (Ha & HB & HD & HC).
  pose proof Ha as (Hv & Hf & HE & HM).
  pose proof (all_stopped H Hnone) as Hall.
  unfold with_new_detector. destruct (available x) eqn:Hx.
  - destruct (start_checks_facts Hf) as (Hf' & Hn' & _ & Hpoll & _ & HE' & Hfr).
    fold (loop w) in Hf', Hn', Hpoll, HE', Hfr.
    split; [|split; [|split]].
    + apply (@app_sound_with_loop (app w) (start_checks (loop w)) Ha Hf' (HE' _ HE) Hfr).
    + intros p Hp. cbn [bound] in Hp. unfold loop at 1; cbn [app with_loop
        MindfulBreakApp.loop]. rewrite Hn'.
      apply in_app_or in Hp. destruct Hp as [Hp|[<-|[<-|[]]]]; cbn [fst];
        [specialize (HB p Hp)|..]; lia.
    + intros j dj Hj. cbn [detectors] in Hj.
      destruct (Nat.lt_ge_cases j (length (detectors w))) as [Hlt|Hge].
      * rewrite nth_error_app1 in Hj by exact Hlt.
        apply detector_ok_stopped, (Hall j dj Hj).
      * assert (Hjn : j = length (detectors w)).
        { assert (Hlen : (j < length (detectors w ++ [{| obj := started_detector thr x
                     (Pos.succ (GLib.next_source_id (loop w))); connected := true |}]))%nat)
            by (apply nth_error_Some; congruence).
          rewrite length_app in Hlen. cbn in Hlen. lia. }
        subst j. rewrite nth_error_last in Hj. inversion Hj; subst dj. clear Hj.
        split; [intros Hne; cbn [idle_monitor] in Hne; congruence|]. split.
        -- intros t Ht. cbn in Ht. inversion Ht; subst t.
           split; [reflexivity|]. split; [exact Hpoll|].
           refine (proj2 (@owner_new w _ (GLib.next_source_id (loop w))
                            (length (detectors w)) HB _)).
           reflexivity.
        -- intros _. cbn [obj connected]. split; [|split; [reflexivity|discriminate]].
           unfold IdleMonitorSpec.operational, started_detector; cbn.
           unfold available in Hx.
           destruct (IdleMonitor.XOpenDisplay x =? 0),
             (IdleMonitor.XDefaultRootWindow x =? 0),
             (IdleMonitor.XScreenSaverAllocInfo x =? 0); cbn in *; congruence.
    + intros j Hj. cbn [idle_monitor detectors] in *. inversion Hj; subst j.
      rewrite length_app. cbn. lia.
  - destruct (init_unavailable thr x Hx) as [Hi Ht].
    split; [exact Ha|]. split; [exact HB|]. split.
    + intros j dj Hj. cbn [detectors] in Hj.
      destruct (Nat.lt_ge_cases j (length (detectors w))) as [Hlt|Hge].
      * rewrite nth_error_app1 in Hj by exact Hlt.
        apply detector_ok_stopped, (Hall j dj Hj).
      * assert (Hjn : j = length (detectors w)).
        { assert (Hlen : (j < length (detectors w ++
                     [{| obj := fst (IdleMonitor.__init__ thr x);
                         connected := false |}]))%nat)
            by (apply nth_error_Some; congruence).
          rewrite length_app in Hlen. cbn in Hlen. lia. }
        subst j. rewrite nth_error_last in Hj. inversion Hj; subst dj.
        apply detector_ok_stopped. split; assumption.
    + intros j Hj. discriminate Hj.
Qed.

(** What start-up does once it has decided to construct a detector. *)
Lemma new_detector_in_startup thr x w :
  GLib.fresh (loop w) ->
  bind (bind (new_idle_monitor thr x)
             (fun i =>
                bind (initialized i)
                     (fun ok =>
                        if ok then
                          bind (detector_method i
                                  (IdleMonitor.start
                                     MindfulBreakApp.IDLE_POLL_INTERVAL_SECONDS))
                               (fun _ => ret tt)
                        else set_idle_monitor None)))
       (fun _ => _connect_signals) w
  = (tt, with_new_detector thr x w,
     map (Detector (length (detectors w))) (snd (IdleMonitor.__init__ thr x))).
Proof.
  intros Hf. unfold with_new_detector. destruct (available x) eqn:Hx.
  - unfold bind at 1 2. unfold new_idle_monitor. rewrite (init_available thr x Hx).
    cbn [fst snd map].
    unfold bind at 1. unfold initialized at 1. rewrite all_bind_get. cbn [detectors].
    rewrite nth_error_last. cbn [obj IdleMonitor._initialized_successfully ret].
    unfold bind at 1.
    erewrite detector_method_silent;
      [ | cbn [detectors]; apply nth_error_last
        | cbn [obj connected]; reflexivity ].
    erewrite detector_call_spec; [|cbn [detectors]; apply nth_error_last].
    cbn zeta. cbn [obj connected]. unfold loop; cbn [app].
    rewrite !start_new. unfold final, SW.output, ret; cbn [fst snd IdleMonitor.self
      IdleMonitor.loop map app idle_monitor _idle_monitor_enabled _idle_threshold_seconds
      detectors bound].
    rewrite set_nth_last.
    pose proof (@attached_start (loop w) MindfulBreakApp.IDLE_POLL_INTERVAL_SECONDS Hf)
      as Hat.
    unfold loop in Hat. unfold start_checks. rewrite Hat.
    unfold _connect_signals. rewrite all_bind_get. cbn [idle_monitor].
    unfold bind at 1. unfold initialized. rewrite all_bind_get. cbn [detectors].
    rewrite nth_error_last. cbn [obj started_detector
      IdleMonitor._initialized_successfully ret].
    unfold connect, modify. cbn [detectors fst snd].
    rewrite nth_error_last, set_nth_last. cbn [obj app]. reflexivity.
  - pose proof (init_unavailable thr x Hx) as [Hi _].
    unfold bind at 1 2. unfold new_idle_monitor.
    destruct (IdleMonitor.__init__ thr x) as [m o] eqn:E. cbn [fst snd] in *.
    unfold bind at 1. unfold initialized. rewrite all_bind_get. cbn [detectors].
    rewrite nth_error_last. cbn [obj ret]. rewrite Hi.
    unfold set_idle_monitor, modify. cbn [fst snd].
    unfold _connect_signals. rewrite all_bind_get. cbn. rewrite !app_nil_r. reflexivity.
Qed.

(** *** The invariant holds in every reachable state *)

Lemma sound_fields w e t :
  sound w ->
  sound {| app := app w; idle_monitor := idle_monitor w;
           _idle_monitor_enabled := e; _idle_threshold_seconds := t;
           detectors := detectors w; bound := bound w |}.
Proof. intros H. exact H. Qed.

Lemma sound_drop w :
  sound w ->
  (forall j dj, nth_error (detectors w) j = Some dj -> IdleMonitorSpec.stopped (obj dj)) ->
  sound {| app := app w; idle_monitor := None;
           _idle_monitor_enabled := _idle_monitor_enabled w;
           _idle_threshold_seconds := _idle_threshold_seconds w;
           detectors := detectors w; bound := bound w |}.
Proof.
  intros (Ha & HB & HD & HC) Hall.
  split; [exact Ha|]. split; [exact HB|]. split.
  - intros j dj Hj. apply detector_ok_stopped, (Hall j dj Hj).
  - intros j Hj. discriminate Hj.
Qed.

Lemma sound_update_and_start e t x w :
  sound w -> idle_monitor w = None ->
  sound (final
    (bind (set_idle_monitor_enabled e)
       (fun _ =>
          bind (set_idle_threshold_seconds t)
            (fun _ =>
               bind get
                 (fun w0 =>
                    if _idle_monitor_enabled w0 then
                      match idle_monitor w0 with
                      | None =>
                          bind (new_idle_monitor (_idle_threshold_seconds w0) x)
                            (fun i =>
                               bind (initialized i)
                                 (fun ok =>
                                    if ok then
                                      bind (connect i)
                                        (fun _ =>
                                           bind (detector_method i
                                                   (IdleMonitor.start
                                                      MindfulBreakApp.IDLE_POLL_INTERVAL_SECONDS))
                                             (fun _ => ret tt))
                                    else set_idle_monitor None))
                      | Some _ => ret tt
                      end
                    else lift (MindfulBreakApp.set_paused_due_to_idle false)))) w)).
Proof.
  intros H Hnone.
  apply (@all_bind_at _ _ (fun w1 => sound w1 /\ idle_monitor w1 = None)).
  { split; [apply sound_fields, H|exact Hnone]. }
  intros _ w1 [H1 Hn1].
  apply (@all_bind_at _ _ (fun w1 => sound w1 /\ idle_monitor w1 = None)).
  { split; [apply sound_fields, H1|exact Hn1]. }
  intros _ w2 [H2 Hn2]. rewrite all_bind_get.
  destruct (_idle_monitor_enabled w2).
  - rewrite Hn2. rewrite new_detector_in_update by apply H2.
    apply sound_with_new_detector; assumption.
  - apply sound_lift; [|exact H2]. intros c0.
    apply MindfulBreakAppExtra.consistent_set_paused_due_to_idle.
Qed.

Lemma current_exists w i :
  sound w -> idle_monitor w = Some i -> exists d, nth_error (detectors w) i = Some d.
Proof.
  intros (_ & _ & _ & HC) Hi. specialize (HC i Hi).
  destruct (nth_error (detectors w) i) as [d|] eqn:E; [eauto|].
  apply nth_error_None in E. lia.
Qed.

Lemma sound_update_idle_monitor_state e t x :
  preserves sound (_update_idle_monitor_state e t x).
Proof.
  unfold _update_idle_monitor_state. cbv zeta. apply all_preserves_get_bind. intros w H.
  destruct (idle_monitor w) as [i|] eqn:Hi.
  - match goal with |- context [if ?b then _ else _] => destruct b end; [|exact H].
    destruct (current_exists H Hi) as [d Hd].
    destruct (@sound_stop w i d H Hi Hd) as (H1 & _ & _ & _ & _ & Hall & _).
    apply (@all_bind_at _ _ (fun w1 => sound w1 /\
             forall j dj, nth_error (detectors w1) j = Some dj ->
                          IdleMonitorSpec.stopped (obj dj))).
    { split; assumption. }
    intros _ w1 [Hs1 Hall1].
    apply (@all_bind_at _ _ (fun w1 => sound w1 /\ idle_monitor w1 = None)).
    { split; [apply (sound_drop Hs1 Hall1)|reflexivity]. }
    intros _ w2 [H2 Hn2]. apply sound_update_and_start; assumption.
  - apply sound_update_and_start; assumption.
Qed.

Lemma sound_on_settings_saved n e t x : preserves sound (on_settings_saved n e t x).
Proof.
  unfold on_settings_saved.
  apply all_preserves_bind.
  { apply sound_lift. intros c0. apply MindfulBreakAppExtra.consistent_call. }
  intros _. apply all_preserves_get_bind. intros w H.
  apply (@all_bind_at _ _ sound).
  - destruct (TimerManager.state_eqb _ _); exact H.
  - intros _ w1 H1. apply sound_update_idle_monitor_state, H1.
Qed.

Lemma sound_do_shutdown : preserves sound do_shutdown.
Proof.
  unfold do_shutdown.
  apply all_preserves_bind.
  { apply sound_lift. intros c0. apply MindfulBreakAppExtra.consistent_cancel_manual_pause. }
  intros _. apply all_preserves_bind.
  { apply sound_lift. intros c0. apply MindfulBreakAppExtra.consistent_call. }
  intros _. apply all_preserves_get_bind. intros w H.
  destruct (idle_monitor w) as [i|] eqn:Hi; [|exact H].
  destruct (current_exists H Hi) as [d Hd].
  destruct (@sound_stop w i d H Hi Hd) as (H1 & _).
  apply (@all_bind_at _ _ sound); [exact H1|]. intros _ w1 Hw1. exact Hw1.
Qed.

Lemma sound_handle e : preserves sound (handle e).
Proof.
  destruct e; cbn [handle].
  - unfold do_activate. apply sound_lift. intros c0. unfold MindfulBreakApp.do_activate.
    apply MindfulBreakAppFacts.preserves_bind; [apply MindfulBreakAppFacts.preserves_emit|].
    intros _.
    apply (@MindfulBreakAppExtra.consistent_handle c0
             (MindfulBreakApp.start_timer_requested interval)).
  - apply sound_lift. intros c0.
    apply (@MindfulBreakAppExtra.consistent_handle c0
             (MindfulBreakApp.start_timer_requested interval)).
  - apply sound_lift. intros c0.
    apply (@MindfulBreakAppExtra.consistent_handle c0 MindfulBreakApp.resume_timer_requested).
  - apply sound_lift. intros c0.
    apply (@MindfulBreakAppExtra.consistent_handle c0 MindfulBreakApp.pause_for_requested).
  - apply sound_lift. intros c0.
    apply (@MindfulBreakAppExtra.consistent_handle c0 MindfulBreakApp.set_time_requested).
  - apply sound_lift. intros c0.
    apply (@MindfulBreakAppExtra.consistent_handle c0
             (MindfulBreakApp.pause_dialog_response ok duration_seconds)).
  - apply sound_lift. intros c0.
    apply (@MindfulBreakAppExtra.consistent_handle c0
             (MindfulBreakApp.set_time_dialog_response ok duration_seconds)).
  - apply sound_lift. intros c0.
    apply (@MindfulBreakAppExtra.consistent_handle c0
             (MindfulBreakApp.overlay_postponed minutes)).
  - apply sound_on_settings_saved.
  - apply sound_do_shutdown.
  - apply sound_fire.
Qed.

Lemma sound_run es : preserves sound (run es).
Proof.
  induction es as [|e es IH]; cbn [run]; [apply all_preserves_ret|].
  apply all_preserves_bind; [apply sound_handle|intros _; exact IH].
Qed.

Lemma sound_init : sound __init__.
Proof.
  split; [apply (consistent_app_sound MindfulBreakAppExtra.consistent_init)|].
  split; [intros p []|]. split.
  - intros i d Hd. destruct i; discriminate Hd.
  - intros i Hi. discriminate Hi.
Qed.

Lemma sound_do_startup interval enabled threshold x w :
  sound w -> idle_monitor w = None ->
  sound (final (do_startup interval enabled threshold x w)).
Proof.
  intros H Hnone. unfold do_startup.
  apply (@all_bind_at _ _ (fun w1 => sound w1 /\ idle_monitor w1 = None)).
  { split.
    - apply sound_lift; [|exact H]. intros c0.
      apply (@MindfulBreakAppExtra.consistent_engine_method c0
               (MindfulBreakApp.m_set_interval interval)).
    - rewrite lift_spec. exact Hnone. }
  intros _ w1 [H1 Hn1].
  apply (@all_bind_at _ _ (fun w1 => sound w1 /\ idle_monitor w1 = None)).
  { split; [|reflexivity]. apply (sound_drop H1), (all_stopped H1 Hn1). }
  intros _ w2 [H2 Hn2].
  apply (@all_bind_at _ _ (fun w1 => sound w1 /\ idle_monitor w1 = None)).
  { split; [apply sound_fields, H2|exact Hn2]. }
  intros _ w3 [H3 Hn3].
  apply (@all_bind_at _ _ (fun w1 => sound w1 /\ idle_monitor w1 = None)).
  { split; [apply sound_fields, H3|exact Hn3]. }
  intros _ w4 [H4 Hn4]. rewrite all_bind_get.
  destruct (_idle_monitor_enabled w4).
  - rewrite new_detector_in_startup by apply H4.
    apply sound_with_new_detector; assumption.
  - unfold bind at 1. unfold ret at 1. unfold _connect_signals.
    rewrite all_bind_get, Hn4. exact H4.
Qed.

(** In every state the application reaches: the engine's data-model invariant
    holds; source ids are fresh; the engine's timer is the only live source
    that calls [_tick]; a manual pause id names nothing but a manual pause
    countdown; every detector but the current one is stopped; and a detector
    that is initialized can poll, is connected, and its stored timer is its
    own live periodic poll. *)
Lemma reachable_sound w : reachable w -> sound w.
Proof.
  induction 1 as [interval enabled threshold x|w e Hr IH].
  - apply sound_do_startup; [exact sound_init|reflexivity].
  - apply sound_handle, IH.
Qed.

(** *** Time accounting *)

Lemma lift_keeps {A} (P : MindfulBreakApp.world -> Prop) (m : MindfulBreakApp.Op A) :
  MindfulBreakAppSpec.preserves P m -> preserves (fun w => P (app w)) (lift m).
Proof. intros Hm w H. rewrite lift_spec. apply Hm, H. Qed.

Lemma detector_call_keeps_engine {A} i (m : IdleMonitor.Op A) w :
  let w' := final (detector_call i m w) in
  MindfulBreakApp.self (app w') = MindfulBreakApp.self (app w) /\
  engine w' = engine w /\ idle_monitor w' = idle_monitor w.
Proof.
  cbn zeta. unfold detector_call.
  destruct (nth_error (detectors w) i) as [d|]; [|auto].
  destruct (m _) as [[a s] o]. cbn. auto.
Qed.

Lemma all_time_left_deliver r sigs :
  preserves (fun w => time_left r (app w)) (deliver sigs).
Proof.
  induction sigs as [|s sigs IH]; cbn [deliver]; [apply all_preserves_ret|].
  apply all_preserves_bind; [|intros _; exact IH].
  destruct s; cbn [on_signal]; apply lift_keeps.
  - apply MindfulBreakAppExtra.time_left_on_user_idle.
  - apply MindfulBreakAppExtra.time_left_on_user_active.
Qed.

Lemma time_left_fire_check r i q id :
  preserves (fun w => time_left r (app w))
    (bind (detector_method i (IdleMonitor._check_idle q))
          (fun keep => match keep with
                       | Some true => ret tt
                       | _ => lift (MindfulBreakApp.GLib_source_remove id)
                       end)).
Proof.
  apply all_preserves_bind.
  - unfold detector_method. apply all_preserves_bind.
    + intros w H.
      destruct (detector_call_keeps_engine i (IdleMonitor._check_idle q) w) as (_ & He & _).
      unfold time_left, engine in *. rewrite He. exact H.
    + intros r0. apply all_preserves_bind; [apply all_time_left_deliver|].
      intros _. apply all_preserves_ret.
  - intros [[|]|]; try apply all_preserves_ret;
      apply lift_keeps, MindfulBreakAppExtra.time_left_source_remove.
Qed.

(** X11. Every dispatch in the running application, of whichever source,
    changes the time left on the countdown by nothing or by one second: by one
    second exactly when the source is the engine's own timer, which exists only
    while RUNNING.  The manual pause countdown and the detectors' polls share
    the main loop with it but never consume break time, whether they pause or
    resume the engine or not. *)
Theorem only_the_engine_timer_consumes_time
    (w : world) (id : GLib.source_id) (q : IdleMonitor.query) :
  reachable w ->
  let rem := TimerManager._remaining_seconds (engine w) in
  let rem' := TimerManager._remaining_seconds (engine (exec (fire id q) w)) in
  (TimerManager._timer_source_id (engine w) = Some id ->
     TimerManager._state (engine w) = TimerManager.STATE_RUNNING /\ rem' = rem - 1) /\
  (TimerManager._timer_source_id (engine w) <> Some id -> rem' = rem).
Proof.
  intros Hr. cbn zeta. pose proof (reachable_sound Hr) as H.
  pose proof H as (Ha & _). pose proof Ha as (Hv & Hf & [Hlive Honly] & HM).
  pose proof (@MindfulBreakAppExtra.fire_time _ id (app w) (app_sound_consistent Ha)) as Ht.
  cbn zeta in Ht.
  assert (Hlift : exec (fire id q) w = final (lift (MindfulBreakApp.fire id) w) ->
            (TimerManager._timer_source_id (engine w) = Some id ->
               TimerManager._state (engine w) = TimerManager.STATE_RUNNING /\
               TimerManager._remaining_seconds (engine (exec (fire id q) w))
               = TimerManager._remaining_seconds (engine w) - 1) /\
            (TimerManager._timer_source_id (engine w) <> Some id ->
               TimerManager._remaining_seconds (engine (exec (fire id q) w))
               = TimerManager._remaining_seconds (engine w))).
  { intros ->. rewrite lift_spec. exact Ht. }
  unfold exec in *. unfold fire in *. rewrite all_bind_get in *.
  destruct (GLib.find_source id (MindfulBreakApp.loop (app w))) as [[si iv cb]|] eqn:Hs.
  2:{ split; [|reflexivity]. intros E. destruct (Hlive _ E) as [_ Hl]. congruence. }
  destruct cb; [apply Hlift; reflexivity|apply Hlift; reflexivity|].
  split.
  - intros E. destruct (Hlive _ E) as [_ Hl]. rewrite Hl in Hs. discriminate Hs.
  - intros _. destruct (owner id w) as [i|]; [|reflexivity].
    apply (@time_left_fire_check (TimerManager._remaining_seconds (engine w)) i q id w).
    split; [exact Hv|reflexivity].
Qed.

Lemma only_the_engine_timer_consumes_time_witness :
  let x := {| IdleMonitor.XOpenDisplay := 100; IdleMonitor.XDefaultRootWindow := 7;
              IdleMonitor.XScreenSaverAllocInfo := 200 |} in
  let w := exec (handle (activate 1)) (exec (do_startup 1 true 60 x) __init__) in
  reachable w /\
  TimerManager._remaining_seconds (engine w) = 60 /\
  TimerManager._remaining_seconds
    (engine (exec (fire 3%positive (IdleMonitor.QueryInfo 1 0)) w)) = 59 /\
  TimerManager._remaining_seconds
    (engine (exec (fire 2%positive (IdleMonitor.QueryInfo 1 70000)) w)) = 60.
Proof.
  cbn zeta.
  assert (Hr : reachable (exec (handle (activate 1))
                 (exec (do_startup 1 true 60
                          {| IdleMonitor.XOpenDisplay := 100;
                             IdleMonitor.XDefaultRootWindow := 7;
                             IdleMonitor.XScreenSaverAllocInfo := 200 |}) __init__))).
  { apply reach_handle, reach_startup. }
  split; [exact Hr|]. split; [reflexivity|]. split.
  - destruct (@only_the_engine_timer_consumes_time _ 3%positive
                (IdleMonitor.QueryInfo 1 0) Hr) as [H1 _].
    destruct (H1 eq_refl) as [_ E]. exact E.
  - destruct (@only_the_engine_timer_consumes_time _ 2%positive
                (IdleMonitor.QueryInfo 1 70000) Hr) as [_ H2].
    apply H2. discriminate.
Defined.

(** *** Detectors that are not the current one *)

Lemma set_nth_same {A} (l : list A) : forall i a,
  nth_error l i = Some a -> set_nth i a l = l.
Proof.
  induction l as [|b l IH]; intros i a H; [destruct i; reflexivity|].
  destruct i as [|i]; cbn in *; [congruence|]. rewrite IH by exact H. reflexivity.
Qed.

(** The dispatch of a source whose detector is stopped, or is gone. *)
Lemma fire_stopped_detector id q w s i :
  GLib.fresh (loop w) ->
  GLib.find_source id (loop w) = Some s ->
  GLib.src_callback s = GLib.IdleMonitor_check_idle ->
  owner id w = Some i ->
  (forall d, nth_error (detectors w) i = Some d -> IdleMonitorSpec.stopped (obj d)) ->
  fire id q w =
  (tt,
   {| app := with_loop (GLib.source_remove id (loop w)) (app w);
      idle_monitor := idle_monitor w;
      _idle_monitor_enabled := _idle_monitor_enabled w;
      _idle_threshold_seconds := _idle_threshold_seconds w;
      detectors := detectors w; bound := bound w |}, []).
Proof.
  intros Hf Hs Hcb Ho Hst.
  destruct (nth_error (detectors w) i) as [d|] eqn:Hd.
  - rewrite (@fire_check_spec id q w s i d Hs Hcb Ho Hd). cbn zeta.
    assert (Hop : IdleMonitorSpec.operational (obj d) = false).
    { destruct (Hst d eq_refl) as [Hi _]. unfold IdleMonitorSpec.operational.
      rewrite Hi. reflexivity. }
    rewrite (detector_call_spec i (IdleMonitor._check_idle q) w Hd). cbn zeta.
    rewrite (IdleMonitorFacts.check_idle_not_operational q
               {| IdleMonitor.self := obj d; IdleMonitor.loop := loop w |} Hop).
    unfold value, final, SW.output; cbn [fst snd IdleMonitor.self IdleMonitor.loop
      IdleMonitor.signals flat_map map app].
    replace (if connected d then [] else []) with (@nil IdleMonitor.signal)
      by (destruct (connected d); reflexivity).
    cbn [deliver ret fst snd]. rewrite lift_spec. unfold final; cbn [fst snd].
    rewrite (@attached_none (loop w) (loop w) Hf eq_refl).
    cbn [map]. rewrite app_nil_r.
    replace {| obj := obj d; connected := connected d |} with d by (destruct d; reflexivity).
    rewrite (set_nth_same _ _ Hd). reflexivity.
  - unfold fire. rewrite all_bind_get. unfold loop in Hs. rewrite Hs.
    destruct s as [si iv cb]; cbn in Hcb; subst cb. rewrite Ho.
    unfold detector_method, detector_call, bind. rewrite Hd.
    cbn [fst snd deliver ret]. rewrite lift_spec. reflexivity.
Qed.

(** X12. Only the application's current detector is live.  Every other
    detector it ever constructed is stopped, and a source such a detector left
    on the main loop is harmless: its next dispatch emits nothing, calls
    nothing, changes neither the engine nor the pause bookkeeping nor any
    detector, and removes the source. *)
Theorem replaced_detectors_are_silent
    (w : world) (id : GLib.source_id) (q : IdleMonitor.query) (s : GLib.source) (i : nat) :
  reachable w ->
  GLib.find_source id (loop w) = Some s ->
  GLib.src_callback s = GLib.IdleMonitor_check_idle ->
  owner id w = Some i ->
  idle_monitor w <> Some i ->
  let w' := exec (fire id q) w in
  (forall d, nth_error (detectors w) i = Some d -> IdleMonitorSpec.stopped (obj d)) /\
  outputs (fire id q) w = [] /\
  engine w' = engine w /\
  MindfulBreakApp.self (app w') = MindfulBreakApp.self (app w) /\
  detectors w' = detectors w /\
  idle_monitor w' = idle_monitor w /\
  GLib.find_source id (loop w') = None.
Proof.
  intros Hr Hs Hcb Ho Hne. cbn zeta. pose proof (reachable_sound Hr) as H.
  pose proof H as ((_ & Hf & _) & _ & HD & _).
  assert (Hst : forall d, nth_error (detectors w) i = Some d ->
                          IdleMonitorSpec.stopped (obj d)).
  { intros d Hd. destruct (HD i d Hd) as (D1 & _). apply D1, Hne. }
  split; [exact Hst|].
  unfold exec, outputs. rewrite (@fire_stopped_detector id q w s i Hf Hs Hcb Ho Hst).
  unfold final, SW.output; cbn [fst snd]. repeat split.
  unfold loop; cbn. apply GLibFacts.find_source_remove_same.
Qed.

Lemma replaced_detectors_are_silent_witness :
  let x := {| IdleMonitor.XOpenDisplay := 100; IdleMonitor.XDefaultRootWindow := 7;
              IdleMonitor.XScreenSaverAllocInfo := 200 |} in
  let w := exec (handle (settings_saved 1 true 120 x))
             (exec (do_startup 1 true 60 x) __init__) in
  (reachable w /\
   GLib.find_source 1%positive (loop w) = Some (immediate_check 1%positive) /\
   owner 1%positive w = Some 0%nat /\ idle_monitor w = Some 1%nat) /\
  outputs (fire 1%positive (IdleMonitor.QueryInfo 1 500000)) w = [].
Proof.
  cbn zeta.
  assert (Hr : reachable
            (exec (handle (settings_saved 1 true 120
                             {| IdleMonitor.XOpenDisplay := 100;
                                IdleMonitor.XDefaultRootWindow := 7;
                                IdleMonitor.XScreenSaverAllocInfo := 200 |}))
               (exec (do_startup 1 true 60
                        {| IdleMonitor.XOpenDisplay := 100;
                           IdleMonitor.XDefaultRootWindow := 7;
                           IdleMonitor.XScreenSaverAllocInfo := 200 |}) __init__))).
  { apply reach_handle, reach_startup. }
  split; [split; [exact Hr|repeat split; reflexivity]|].
  refine (proj1 (proj2 (@replaced_detectors_are_silent _ 1%positive
                            (IdleMonitor.QueryInfo 1 500000)
                            (immediate_check 1%positive) 0%nat Hr _ _ _ _)));
      [reflexivity|reflexivity|reflexivity|discriminate].
Defined.

(** *** Shutdown *)

Lemma calls_map_App o : calls (map App o) = MindfulBreakApp.calls o.
Proof.
  induction o as [|a o IH]; [reflexivity|].
  cbn [map]. unfold calls, MindfulBreakApp.calls in *. cbn [flat_map].
  rewrite IH. destruct a; reflexivity.
Qed.

Lemma engine_signals_map_App o : engine_signals (map App o) = MindfulBreakApp.signals o.
Proof.
  induction o as [|a o IH]; [reflexivity|].
  cbn [map]. unfold engine_signals, MindfulBreakApp.signals in *. cbn [flat_map].
  rewrite IH. destruct a; reflexivity.
Qed.

Lemma idle_signals_map_App o : idle_signals (map App o) = [].
Proof. induction o as [|a o IH]; [reflexivity|exact IH]. Qed.

Lemma all_calls_app l1 l2 : calls (l1 ++ l2) = calls l1 ++ calls l2.
Proof. apply flat_map_app. Qed.

Lemma engine_signals_app l1 l2 :
  engine_signals (l1 ++ l2) = engine_signals l1 ++ engine_signals l2.
Proof. apply flat_map_app. Qed.

Lemma idle_signals_app l1 l2 : idle_signals (l1 ++ l2) = idle_signals l1 ++ idle_signals l2.
Proof. apply flat_map_app. Qed.

Ltac split_all :=
  repeat first [ match goal with |- _ /\ _ => split end
               | progress (unfold shut_down, final, ret; cbn [fst snd]) ].

Lemma do_shutdown_shuts_down w : sound w -> shut_down (exec do_shutdown w).
Proof.
  intros H. unfold exec, do_shutdown.
  assert (H2 : sound (final (lift (MindfulBreakApp.call MindfulBreakApp.m_stop)
                        (final (lift MindfulBreakApp._cancel_manual_pause w))))).
  { apply sound_lift; [intros c0; apply MindfulBreakAppExtra.consistent_call|].
    apply sound_lift;
      [intros c0; apply MindfulBreakAppExtra.consistent_cancel_manual_pause|exact H]. }
  pose proof (MindfulBreakAppExtra.shutdown_arbiter (app w)) as Harb. cbn zeta in Harb.
  unfold bind at 1.
  destruct (lift MindfulBreakApp._cancel_manual_pause w) as [[[] w1] o1] eqn:E1.
  unfold bind at 1.
  destruct (lift (MindfulBreakApp.call MindfulBreakApp.m_stop) w1) as [[[] w2] o2] eqn:E2.
  assert (Ew1 : app w1 = final (MindfulBreakApp._cancel_manual_pause (app w))).
  { rewrite lift_spec in E1. inversion E1. reflexivity. }
  assert (Ew2 : app w2 = final (MindfulBreakApp.call MindfulBreakApp.m_stop (app w1))).
  { rewrite lift_spec in E2. inversion E2. reflexivity. }
  rewrite <- Ew1, <- Ew2 in Harb. unfold final in H2. rewrite ?E1, ?E2 in H2.
  cbn [fst snd] in H2. rewrite ?E2 in H2. cbn [fst snd] in H2.
  rewrite all_bind_get.
  destruct Harb as (A1 & A2 & A3 & A4).
  destruct (idle_monitor w2) as [i|] eqn:Hi.
  - destruct (current_exists H2 Hi) as [d Hd].
    destruct (@sound_stop w2 i d H2 Hi Hd) as (_ & _ & _ & _ & _ & Hall & Hself & Heng).
    unfold bind. destruct (detector_method i IdleMonitor.stop w2) as [[a w3] o3].
    unfold final in *; cbn [fst snd ret] in *.
    unfold shut_down. rewrite Heng, Hself. split_all; auto.
  - unfold final; cbn [fst snd ret]. unfold shut_down. split_all; auto.
    apply (all_stopped H2 Hi).
Qed.

(** One dispatch after shutdown. *)
Lemma fire_after_shutdown id q w :
  sound w -> shut_down w ->
  shut_down (exec (fire id q) w) /\
  engine (exec (fire id q) w) = engine w /\
  calls (outputs (fire id q) w) = [] /\
  engine_signals (outputs (fire id q) w) = [] /\
  idle_signals (outputs (fire id q) w) = [].
Proof.
  intros H (S1 & S2 & S3 & S4 & S5).
  pose proof H as (Ha & _). pose proof Ha as (Hv & Hf & [Hlive Honly] & HM).
  destruct (GLib.find_source id (loop w)) as [[si iv cb]|] eqn:Hs.
  2:{ unfold exec, outputs, fire. rewrite all_bind_get. unfold loop in Hs. rewrite Hs.
      split_all; auto. }
  destruct cb.
  - pose proof (Honly _ _ Hs eq_refl) as Ht. unfold engine in S2. congruence.
  - pose proof (GLibFacts.find_source_id _ _ Hs) as Eid. cbn in Eid. subst si.
    destruct (@MindfulBreakAppExtra.fire_manual_when_stopped id (app w) iv Hs S1 S4)
      as (F1 & F2 & F3 & F4).
    assert (Ex : exec (fire id q) w = final (lift (MindfulBreakApp.fire id) w)).
    { unfold exec, fire. rewrite all_bind_get. unfold loop in Hs. rewrite Hs. reflexivity. }
    assert (Eo : outputs (fire id q) w
                 = map App (SW.output (MindfulBreakApp.fire id (app w)))).
    { unfold outputs, fire. rewrite all_bind_get. unfold loop in Hs. rewrite Hs.
      rewrite lift_spec. reflexivity. }
    assert (Ew : final (lift (MindfulBreakApp.fire id) w)
                 = {| app := final (MindfulBreakApp.fire id (app w));
                      idle_monitor := idle_monitor w;
                      _idle_monitor_enabled := _idle_monitor_enabled w;
                      _idle_threshold_seconds := _idle_threshold_seconds w;
                      detectors := detectors w; bound := bound w |})
      by (rewrite lift_spec; reflexivity).
    rewrite Ex, Eo, Ew.
    rewrite calls_map_App, engine_signals_map_App, idle_signals_map_App.
    unfold shut_down, engine; cbn [app detectors].
    rewrite F1, F2. split_all; auto.
  - destruct (owner id w) as [i|] eqn:Ho.
    2:{ unfold exec, outputs, fire. rewrite all_bind_get. unfold loop in Hs.
        rewrite Hs, Ho. split_all; auto. }
    unfold exec, outputs.
    rewrite (@fire_stopped_detector id q w _ i Hf Hs eq_refl Ho (fun d Hd => S5 i d Hd)).
    unfold final, SW.output; cbn [fst snd]. split_all; auto.
Qed.

Lemma run_after_shutdown es : forall w,
  sound w -> shut_down w -> Forall dispatch es ->
  shut_down (exec (run es) w) /\
  engine (exec (run es) w) = engine w /\
  calls (outputs (run es) w) = [] /\
  engine_signals (outputs (run es) w) = [] /\
  idle_signals (outputs (run es) w) = [].
Proof.
  induction es as [|e es IH]; intros w H Hs Hes.
  - cbn. auto.
  - inversion Hes as [|e' es' He Hes']; subst.
    destruct e; try contradiction. cbn [handle] in *.
    destruct (@fire_after_shutdown id q w H Hs) as (F1 & F2 & F3 & F4 & F5).
    assert (H' : sound (exec (fire id q) w)) by apply (@sound_fire id q w H).
    destruct (IH (exec (fire id q) w) H' F1 Hes') as (R1 & R2 & R3 & R4 & R5).
    rewrite (exec_run_cons (source_fires id q) es w),
            (outputs_run_cons (source_fires id q) es w). cbn [handle].
    rewrite all_calls_app, engine_signals_app, idle_signals_app.
    rewrite F3, F4, F5, R3, R4, R5, R2, F2. auto.
Qed.

(** X13. [do_shutdown] leaves nothing running: the engine is STOPPED with no
    timer and the full interval, no manual pause is tracked, and every
    detector, the current one included, is stopped.  Sources that are still
    on the main loop are inert: whatever is dispatched afterwards, the engine
    stays as it is, no engine method is called, and neither the engine nor a
    detector emits a signal. *)
Theorem shutdown_stops_everything (w : world) (es : list event) :
  reachable w -> Forall dispatch es ->
  let w1 := exec do_shutdown w in
  let w2 := exec (run es) w1 in
  shut_down w1 /\
  shut_down w2 /\
  engine w2 = engine w1 /\
  calls (outputs (run es) w1) = [] /\
  engine_signals (outputs (run es) w1) = [] /\
  idle_signals (outputs (run es) w1) = [].
Proof.
  intros Hr Hes. cbn zeta. pose proof (reachable_sound Hr) as H.
  pose proof (do_shutdown_shuts_down H) as Hs.
  split; [exact Hs|].
  apply run_after_shutdown; [apply sound_do_shutdown, H|exact Hs|exact Hes].
Qed.

Lemma shutdown_stops_everything_witness :
  let x := {| IdleMonitor.XOpenDisplay := 100; IdleMonitor.XDefaultRootWindow := 7;
              IdleMonitor.XScreenSaverAllocInfo := 200 |} in
  let w := exec (run [activate 1; source_fires 3%positive IdleMonitor.QueryRaises;
                      pause_dialog_response true 5])
             (exec (do_startup 1 true 60 x) __init__) in
  let es := [source_fires 4%positive IdleMonitor.QueryRaises;
             source_fires 1%positive (IdleMonitor.QueryInfo 1 70000);
             source_fires 2%positive (IdleMonitor.QueryInfo 1 70000);
             source_fires 3%positive IdleMonitor.QueryRaises] in
  (reachable w /\ Forall dispatch es) /\
  TimerManager._state (engine (exec (run es) (exec do_shutdown w)))
  = TimerManager.STATE_STOPPED /\
  calls (outputs (run es) (exec do_shutdown w)) = [].
Proof.
  cbn zeta.
  assert (Hr : reachable
    (exec (run [activate 1; source_fires 3%positive IdleMonitor.QueryRaises;
                pause_dialog_response true 5])
       (exec (do_startup 1 true 60
                {| IdleMonitor.XOpenDisplay := 100; IdleMonitor.XDefaultRootWindow := 7;
                   IdleMonitor.XScreenSaverAllocInfo := 200 |}) __init__))).
  { unfold exec. rewrite !all_run_cons. unfold final at 1 2 3; cbn [fst snd run ret].
    apply (reach_handle (pause_dialog_response true 5)),
          (reach_handle (source_fires 3%positive IdleMonitor.QueryRaises)),
          (reach_handle (activate 1)), reach_startup. }
  assert (Hes : Forall dispatch
    [source_fires 4%positive IdleMonitor.QueryRaises;
     source_fires 1%positive (IdleMonitor.QueryInfo 1 70000);
     source_fires 2%positive (IdleMonitor.QueryInfo 1 70000);
     source_fires 3%positive IdleMonitor.QueryRaises]).
  { repeat constructor. }
  split; [split; assumption|].
  destruct (shutdown_stops_everything Hr Hes) as (_ & (S1 & _) & _ & C & _).
  split; [exact S1|exact C].
Defined.

(** *** Idle detection, end to end *)

Lemma with_loop_same a : with_loop (MindfulBreakApp.loop a) a = a.
Proof. destruct a; reflexivity. Qed.

(** The dispatch of the periodic poll of a running detector whose query
    succeeds: the detector records what it measured and the application's
    handlers get the edge, if there is one. *)
Lemma fire_current_poll w i d t q now :
  sound w -> nth_error (detectors w) i = Some d ->
  IdleMonitor._timer_source_id (obj d) = Some t ->
  IdleMonitorSpec.measured (obj d) q = Some now ->
  let sigs := IdleMonitorSpec.crossing (IdleMonitor._is_idle (obj d)) now in
  let w1 := with_detector i {| obj := with_is_idle now (obj d); connected := true |} w in
  fire t q w =
  (tt, final (deliver sigs w1),
   map (fun s => Detector i (IdleMonitor.Emit s)) sigs ++ SW.output (deliver sigs w1)).
Proof.
  intros H Hd Ht Hm. cbn zeta.
  pose proof H as ((_ & Hf & _) & _ & HD & _).
  destruct (HD i d Hd) as (_ & D2 & D3).
  destruct (D2 t Ht) as (Hini & Hl & Ho). destruct (D3 Hini) as (Hop & Hcon & _).
  rewrite (@fire_check_spec t q w _ i d Hl eq_refl Ho Hd). cbn zeta.
  rewrite (detector_call_spec i (IdleMonitor._check_idle q) w Hd). cbn zeta.
  rewrite (IdleMonitorFacts.check_idle_operational q
             {| IdleMonitor.self := obj d; IdleMonitor.loop := loop w |} Hop).
  cbn zeta. cbn [IdleMonitor.self IdleMonitor.loop]. rewrite Hm, Ht, Hcon.
  unfold value, final, SW.output; cbn [fst snd IdleMonitor.self IdleMonitor.loop].
  rewrite IdleMonitorFacts.signals_map_Emit.
  rewrite (@attached_none (loop w) (loop w) Hf eq_refl). cbn [map]. rewrite app_nil_r.
  unfold loop. rewrite with_loop_same. rewrite map_map.
  unfold with_detector, with_is_idle. rewrite Ht. reflexivity.
Qed.

Lemma deliver_one s w :
  deliver [s] w = (tt, final (on_signal s w), SW.output (on_signal s w)).
Proof.
  cbn [deliver]. unfold bind, ret, final, SW.output.
  destruct (on_signal s w) as [[[] w1] o1]. cbn. rewrite app_nil_r. reflexivity.
Qed.

(** X14. Idle detection end to end.  While the countdown is RUNNING and no
    manual pause is active, a poll of the application's detector that reads an
    idle time at or above the threshold emits [user_idle] and pauses the
    engine, marking the pause as caused by idleness; the next poll that reads
    less emits [user_active] and resumes it.  The time left is the same
    before, during and after, and the tray is told Idle, then Running. *)
Theorem idle_poll_pauses_and_activity_resumes
    (w : world) (i : nat) (d : detector) (t : GLib.source_id)
    (status1 idle1 status2 idle2 : Z) :
  reachable w ->
  nth_error (detectors w) i = Some d ->
  IdleMonitor._timer_source_id (obj d) = Some t ->
  IdleMonitor._is_idle (obj d) = false ->
  TimerManager._state (engine w) = TimerManager.STATE_RUNNING ->
  MindfulBreakApp._manual_pause_timer_id (MindfulBreakApp.self (app w)) = None ->
  status1 <> 0 -> IdleMonitor._idle_threshold_ms (obj d) <= idle1 ->
  status2 <> 0 -> idle2 < IdleMonitor._idle_threshold_ms (obj d) ->
  let rem := TimerManager._remaining_seconds (engine w) in
  let q1 := IdleMonitor.QueryInfo status1 idle1 in
  let q2 := IdleMonitor.QueryInfo status2 idle2 in
  let w1 := exec (fire t q1) w in
  let w2 := exec (fire t q2) w1 in
  outputs (fire t q1) w
  = [Detector i (IdleMonitor.Emit IdleMonitor.user_idle);
     App (MindfulBreakApp.Call MindfulBreakApp.m_pause);
     App (MindfulBreakApp.Signal TimerManager.timer_paused);
     App (MindfulBreakApp.tray_update_status MindfulBreakApp.TRAY_IDLE 0)] /\
  (TimerManager._state (engine w1) = TimerManager.STATE_PAUSED /\
   TimerManager._remaining_seconds (engine w1) = rem /\
   MindfulBreakApp._paused_due_to_idle (MindfulBreakApp.self (app w1)) = true) /\
  outputs (fire t q2) w1
  = [Detector i (IdleMonitor.Emit IdleMonitor.user_active);
     App (MindfulBreakApp.Call MindfulBreakApp.m_resume);
     App (MindfulBreakApp.Signal TimerManager.timer_resumed);
     App (MindfulBreakApp.tray_update_status MindfulBreakApp.TRAY_RUNNING rem);
     App (MindfulBreakApp.Signal (TimerManager.timer_tick rem));
     App (MindfulBreakApp.tray_update_status MindfulBreakApp.TRAY_RUNNING rem)] /\
  (TimerManager._state (engine w2) = TimerManager.STATE_RUNNING /\
   TimerManager._remaining_seconds (engine w2) = rem /\
   MindfulBreakApp._paused_due_to_idle (MindfulBreakApp.self (app w2)) = false).
Proof.
  intros Hr Hd Ht Hidle Hrun Hman Hs1 Hi1 Hs2 Hi2. cbn zeta.
  pose proof (reachable_sound Hr) as H.
  assert (Hrem : 0 < TimerManager._remaining_seconds (engine w)).
  { destruct H as ((Hv & _) & _). destruct Hv as [_ Hv]. unfold engine in *.
    rewrite Hrun in Hv. lia. }
  assert (Hm1 : IdleMonitorSpec.measured (obj d) (IdleMonitor.QueryInfo status1 idle1)
                = Some true).
  { cbn. destruct (Z.eqb_spec status1 0); [contradiction|].
    destruct (Z.leb_spec (IdleMonitor._idle_threshold_ms (obj d)) idle1); [reflexivity|lia]. }
  pose proof (@fire_current_poll w i d t _ true H Hd Ht Hm1) as F1. cbn zeta in F1.
  rewrite Hidle in F1. cbn [IdleMonitorSpec.crossing map] in F1.
  rewrite deliver_one in F1. cbn [on_signal] in F1. rewrite lift_spec in F1.
  unfold with_detector in F1. cbn [app] in F1.
  rewrite (MindfulBreakAppExtra.on_user_idle_running (app w) Hrun Hman) in F1.
  unfold value, final, SW.output in F1; cbn [fst snd map app idle_monitor
    _idle_monitor_enabled _idle_threshold_seconds detectors bound] in F1.
  assert (Hr1 : reachable (exec (fire t (IdleMonitor.QueryInfo status1 idle1)) w))
    by apply (reach_handle (source_fires t (IdleMonitor.QueryInfo status1 idle1)) Hr).
  pose proof (reachable_sound Hr1) as H1.
  match type of F1 with _ = (_, ?W, ?O) =>
    assert (E1 : exec (fire t (IdleMonitor.QueryInfo status1 idle1)) w = W)
      by (unfold exec; rewrite F1; reflexivity);
    assert (O1 : outputs (fire t (IdleMonitor.QueryInfo status1 idle1)) w = O)
      by (unfold outputs; rewrite F1; reflexivity)
  end.
  rewrite O1, E1 in *. clear F1 O1 E1.
  split; [reflexivity|]. split; [repeat split|].
  set (w1 := {| app := _; idle_monitor := _; _idle_monitor_enabled := _;
                _idle_threshold_seconds := _; detectors := _; bound := _ |}) in *.
  assert (Hlen : (i < length (detectors w))%nat) by (apply nth_error_Some; congruence).
  assert (Hd1 : nth_error (detectors w1) i
                = Some {| obj := with_is_idle true (obj d); connected := true |}).
  { unfold w1; cbn [detectors]. apply nth_error_set_nth_same, Hlen. }
  assert (Hm2 : IdleMonitorSpec.measured (with_is_idle true (obj d))
                  (IdleMonitor.QueryInfo status2 idle2) = Some false).
  { cbn. destruct (Z.eqb_spec status2 0); [contradiction|].
    destruct (Z.leb_spec (IdleMonitor._idle_threshold_ms (obj d)) idle2); [lia|reflexivity]. }
  pose proof (@fire_current_poll w1 i _ t _ false H1 Hd1 Ht Hm2) as F2. cbn zeta in F2.
  cbn [obj with_is_idle IdleMonitor._is_idle IdleMonitorSpec.crossing map] in F2.
  rewrite deliver_one in F2. cbn [on_signal] in F2. rewrite lift_spec in F2.
  unfold with_detector in F2. cbn [app w1] in F2.
  rewrite MindfulBreakAppExtra.on_user_active_after_idle in F2;
    [|reflexivity|reflexivity|reflexivity|exact Hrem].
  unfold value, final, SW.output in F2; cbn [fst snd map app] in F2.
  unfold exec, outputs, final, SW.output. rewrite F2. cbn [fst snd].
  split; [reflexivity|]. repeat split.
Qed.

Lemma idle_poll_pauses_and_activity_resumes_witness :
  let x := {| IdleMonitor.XOpenDisplay := 100; IdleMonitor.XDefaultRootWindow := 7;
              IdleMonitor.XScreenSaverAllocInfo := 200 |} in
  let w := exec (run [activate 1; source_fires 3%positive IdleMonitor.QueryRaises])
             (exec (do_startup 1 true 60 x) __init__) in
  let w2 := exec (fire 2%positive (IdleMonitor.QueryInfo 1 100))
              (exec (fire 2%positive (IdleMonitor.QueryInfo 1 60000)) w) in
  reachable w /\
  TimerManager._remaining_seconds (engine w) = 59 /\
  TimerManager._state (engine w2) = TimerManager.STATE_RUNNING /\
  TimerManager._remaining_seconds (engine w2) = 59.
Proof.
  cbn zeta.
  assert (Hr : reachable
    (exec (run [activate 1; source_fires 3%positive IdleMonitor.QueryRaises])
       (exec (do_startup 1 true 60
                {| IdleMonitor.XOpenDisplay := 100; IdleMonitor.XDefaultRootWindow := 7;
                   IdleMonitor.XScreenSaverAllocInfo := 200 |}) __init__))).
  { rewrite !exec_run_cons.
    apply (reach_handle (source_fires 3%positive IdleMonitor.QueryRaises)),
          (reach_handle (activate 1)), reach_startup. }
  split; [exact Hr|]. split; [reflexivity|].
  unshelve refine (let H := @idle_poll_pauses_and_activity_resumes _ 0%nat
                     {| obj := started_detector 60
                                 {| IdleMonitor.XOpenDisplay := 100;
                                    IdleMonitor.XDefaultRootWindow := 7;
                                    IdleMonitor.XScreenSaverAllocInfo := 200 |}
                                 2%positive;
                        connected := true |}
                     2%positive 1 60000 1 100 Hr _ _ _ _ _ _ _ _ _ in _);
    try reflexivity; try discriminate; try (cbn; lia).
  cbn zeta in H. destruct H as (_ & _ & _ & S1 & S2 & _). split; [exact S1|exact S2].
Defined.

(** *** Saved settings *)

Ltac unfold_all :=
  unfold exec, outputs, on_settings_saved, _update_idle_monitor_state, lift,
    set_idle_monitor, set_idle_monitor_enabled, set_idle_threshold_seconds,
    MindfulBreakApp.call, MindfulBreakApp.engine, MindfulBreakApp.method,
    MindfulBreakApp.deliver, TimerManager.set_interval,
    TimerManager.set_configured_interval_seconds, TimerManager.set_remaining_seconds,
    final, SW.output, value, bind, ret, get, modify, emit.

(** X15. Saving settings in which only the break interval changed restarts
    nothing.  The detector, its sources and the whole main loop are left as
    they are; the engine keeps its state, its timer and, unless it is STOPPED,
    the time left of the running countdown; only the configured interval
    becomes [60 * minutes], for the next cycle. *)
Theorem saving_only_the_interval_restarts_nothing
    (w : world) (i : nat) (minutes threshold : Z) (x : IdleMonitor.X11) :
  idle_monitor w = Some i ->
  _idle_monitor_enabled w = true ->
  threshold = _idle_threshold_seconds w ->
  1 <= minutes ->
  let w' := exec (on_settings_saved minutes true threshold x) w in
  (detectors w' = detectors w /\ idle_monitor w' = Some i /\ bound w' = bound w /\
   loop w' = loop w /\ MindfulBreakApp.self (app w') = MindfulBreakApp.self (app w)) /\
  (TimerManager._state (engine w') = TimerManager._state (engine w) /\
   TimerManager._timer_source_id (engine w') = TimerManager._timer_source_id (engine w) /\
   TimerManager._configured_interval_seconds (engine w') = 60 * minutes /\
   TimerManager._remaining_seconds (engine w')
   = if TimerManager.state_eqb (TimerManager._state (engine w)) TimerManager.STATE_STOPPED
     then 60 * minutes else TimerManager._remaining_seconds (engine w)) /\
  idle_signals (outputs (on_settings_saved minutes true threshold x) w) = [] /\
  engine_signals (outputs (on_settings_saved minutes true threshold x) w) = [].
Proof.
  intros Hi He Ht Hm. cbn zeta.
  destruct w as [[s [st tid rem conf] c] im en th ds bd]; cbn in *. subst.
  pose proof (to_seconds_whole_minutes Hm) as Hsec.
  destruct st; unfold_all; cbn; rewrite Z.eqb_refl; cbn;
    unfold engine, loop; cbn; rewrite ?Hsec; repeat split.
Qed.

Lemma saving_only_the_interval_restarts_nothing_witness :
  let x := {| IdleMonitor.XOpenDisplay := 100; IdleMonitor.XDefaultRootWindow := 7;
              IdleMonitor.XScreenSaverAllocInfo := 200 |} in
  let w := exec (run [activate 1; source_fires 3%positive IdleMonitor.QueryRaises])
             (exec (do_startup 1 true 60 x) __init__) in
  let w' := exec (on_settings_saved 25 true 60 x) w in
  (idle_monitor w = Some 0%nat /\ _idle_monitor_enabled w = true /\
   60 = _idle_threshold_seconds w) /\
  TimerManager._remaining_seconds (engine w') = 59 /\
  TimerManager._configured_interval_seconds (engine w') = 1500 /\
  loop w' = loop w.
Proof.
  cbn zeta. split; [repeat split|].
  unshelve refine (let H := @saving_only_the_interval_restarts_nothing
                     (exec (run [activate 1;
                                 source_fires 3%positive IdleMonitor.QueryRaises])
                        (exec (do_startup 1 true 60
                                 {| IdleMonitor.XOpenDisplay := 100;
                                    IdleMonitor.XDefaultRootWindow := 7;
                                    IdleMonitor.XScreenSaverAllocInfo := 200 |}) __init__))
                     0%nat 25 60
                     {| IdleMonitor.XOpenDisplay := 100; IdleMonitor.XDefaultRootWindow := 7;
                        IdleMonitor.XScreenSaverAllocInfo := 200 |} _ _ _ _ in _);
    try reflexivity; try lia.
  cbn zeta in H. destruct H as ((_ & _ & _ & L & _) & (_ & _ & C & R) & _).
  split; [rewrite R; reflexivity|]. split; [exact C|exact L].
Defined.

(** X16. Saving settings that switch idle detection off, or change its
    threshold, replaces the detector.  Every detector the application had,
    the current one included, ends up stopped; the application records the
    new setting.  If detection stays enabled and the X server answers, a new
    detector with the new threshold is current, connected, and polls from a
    live periodic source of its own; if it stays enabled and the X server
    does not answer, or detection is switched off, there is no current
    detector, and switching off also clears the idle flag. *)
Theorem changed_idle_settings_replace_the_detector
    (w : world) (i : nat) (minutes : Z) (e : bool) (t : Z) (x : IdleMonitor.X11) :
  reachable w ->
  idle_monitor w = Some i ->
  e = false \/ t <> _idle_threshold_seconds w ->
  let w' := exec (on_settings_saved minutes e t x) w in
  let n := length (detectors w) in
  (forall j dj, (j < n)%nat -> nth_error (detectors w') j = Some dj ->
     IdleMonitorSpec.stopped (obj dj)) /\
  _idle_monitor_enabled w' = e /\ _idle_threshold_seconds w' = t /\
  (if e && available x then
     exists tn,
       idle_monitor w' = Some n /\
       nth_error (detectors w') n
       = Some {| obj := started_detector t x tn; connected := true |} /\
       GLib.find_source tn (loop w') = Some (poll_source tn) /\
       owner tn w' = Some n
   else idle_monitor w' = None) /\
  (e = false ->
   MindfulBreakApp._paused_due_to_idle (MindfulBreakApp.self (app w')) = false).
Proof.
  intros Hr Hi Hch. cbn zeta. pose proof (reachable_sound Hr) as Hs.
  set (n := length (detectors w)).
  set (Post := fun w' : world =>
    (forall j dj, (j < n)%nat -> nth_error (detectors w') j = Some dj ->
       IdleMonitorSpec.stopped (obj dj)) /\
    _idle_monitor_enabled w' = e /\ _idle_threshold_seconds w' = t /\
    (if e && available x then
       exists tn,
         idle_monitor w' = Some n /\
         nth_error (detectors w') n
         = Some {| obj := started_detector t x tn; connected := true |} /\
         GLib.find_source tn (loop w') = Some (poll_source tn) /\
         owner tn w' = Some n
     else idle_monitor w' = None) /\
    (e = false ->
     MindfulBreakApp._paused_due_to_idle (MindfulBreakApp.self (app w')) = false)).
  change (Post (final (on_settings_saved minutes e t x w))).
  set (Q1 := fun w1 : world =>
    sound w1 /\ idle_monitor w1 = Some i /\ length (detectors w1) = n /\
    _idle_threshold_seconds w1 = _idle_threshold_seconds w).
  unfold on_settings_saved.
  apply (@all_bind_at _ _ Q1).
  { split; [|rewrite lift_spec; repeat split; exact Hi].
    apply sound_lift; [|exact Hs]. intros c0.
    apply MindfulBreakAppExtra.consistent_call. }
  intros _ w1 H1. rewrite all_bind_get.
  apply (@all_bind_at _ _ Q1).
  { destruct (TimerManager.state_eqb _ _); exact H1. }
  clear w1 H1. intros _ w1 (Hs1 & Hi1 & Hn1 & Ht1).
  unfold _update_idle_monitor_state. cbv zeta. rewrite all_bind_get. rewrite Hi1.
  assert (Hc : (negb (Bool.eqb (_idle_monitor_enabled w1) e)
                || e && negb (_idle_threshold_seconds w1 =? t)) || negb e = true).
  { destruct Hch as [->|Hne]; [apply orb_true_r|].
    destruct e; [|apply orb_true_r].
    destruct (Z.eqb_spec (_idle_threshold_seconds w1) t) as [E|E]; [congruence|].
    cbn. rewrite orb_true_r. reflexivity. }
  rewrite Hc. clear Hc.
  destruct (current_exists Hs1 Hi1) as [d1 Hd1].
  destruct (@sound_stop w1 i d1 Hs1 Hi1 Hd1) as (H2 & _ & _ & _ & Hlen & Hall & _).
  set (Q2 := fun w2 : world =>
    sound w2 /\ length (detectors w2) = n /\
    forall j dj, nth_error (detectors w2) j = Some dj -> IdleMonitorSpec.stopped (obj dj)).
  apply (@all_bind_at _ _ Q2).
  { split; [exact H2|]. split; [congruence|exact Hall]. }
  clear. intros _ w2 (Hs2 & Hn2 & Hall2).
  set (Q3 := fun w3 : world => Q2 w3 /\ idle_monitor w3 = None).
  apply (@all_bind_at _ _ Q3).
  { split; [|reflexivity]. split; [apply (sound_drop Hs2 Hall2)|].
    split; [exact Hn2|exact Hall2]. }
  clear w2 Hs2 Hn2 Hall2. intros _ w3 ((Hs3 & Hn3 & Hall3) & Hnone3).
  apply (@all_bind_at _ _ (fun w4 => Q3 w4 /\ _idle_monitor_enabled w4 = e)).
  { split; [|reflexivity]. split; [|exact Hnone3].
    split; [apply sound_fields, Hs3|]. split; [exact Hn3|exact Hall3]. }
  clear w3 Hs3 Hn3 Hall3 Hnone3. intros _ w4 (((Hs4 & Hn4 & Hall4) & Hnone4) & He4).
  apply (@all_bind_at _ _ (fun w5 => (Q3 w5 /\ _idle_monitor_enabled w5 = e) /\
                                     _idle_threshold_seconds w5 = t)).
  { split; [|reflexivity]. split; [|exact He4]. split; [|exact Hnone4].
    split; [apply sound_fields, Hs4|]. split; [exact Hn4|exact Hall4]. }
  clear w4 Hs4 Hn4 Hall4 Hnone4 He4.
  intros _ w5 ((((Hs5 & Hn5 & Hall5) & Hnone5) & He5) & Ht5).
  rewrite all_bind_get. rewrite He5. destruct e.
  - rewrite Hnone5. rewrite new_detector_in_update by apply Hs5.
    unfold final; cbn [fst snd]. rewrite Ht5.
    pose proof (sound_with_new_detector t x Hs5 Hnone5) as (_ & _ & HD & _).
    revert HD. unfold Post, with_new_detector. cbn [andb].
    destruct (available x) eqn:Hx; cbn [detectors idle_monitor _idle_monitor_enabled
      _idle_threshold_seconds bound app]; intros HD.
    + split; [|split; [exact He5|split; [exact Ht5|split; [|discriminate]]]].
      * intros j dj Hj Hnth. rewrite nth_error_app1 in Hnth by lia.
        apply (Hall5 j dj Hnth).
      * exists (Pos.succ (GLib.next_source_id (loop w5))).
        rewrite <- Hn5. split; [reflexivity|].
        assert (Hnth : nth_error
                  (detectors w5 ++
                   [{| obj := started_detector t x (Pos.succ (GLib.next_source_id (loop w5)));
                       connected := true |}]) (length (detectors w5))
                = Some {| obj := started_detector t x
                                   (Pos.succ (GLib.next_source_id (loop w5)));
                          connected := true |}).
        { apply nth_error_last. }
        split; [exact Hnth|].
        destruct (HD _ _ Hnth) as (_ & Hown & _).
        destruct (Hown (Pos.succ (GLib.next_source_id (loop w5))) eq_refl)
          as (_ & Hfind & Hownr).
        split; [exact Hfind|exact Hownr].
    + split; [|split; [exact He5|split; [exact Ht5|split; [reflexivity|discriminate]]]].
      intros j dj Hj Hnth. rewrite nth_error_app1 in Hnth by lia.
      apply (Hall5 j dj Hnth).
  - rewrite lift_spec. unfold final; cbn [fst snd]. unfold Post. cbn [andb].
    cbn [detectors idle_monitor _idle_monitor_enabled _idle_threshold_seconds app].
    split; [intros j dj _ Hnth; apply (Hall5 j dj Hnth)|].
    split; [exact He5|]. split; [exact Ht5|]. split; [exact Hnone5|].
    intros _. reflexivity.
Qed.

Lemma changed_idle_settings_replace_the_detector_witness :
  let x := {| IdleMonitor.XOpenDisplay := 100; IdleMonitor.XDefaultRootWindow := 7;
              IdleMonitor.XScreenSaverAllocInfo := 200 |} in
  let w := exec (handle (activate 1)) (exec (do_startup 1 true 60 x) __init__) in
  let w' := exec (on_settings_saved 1 true 90 x) w in
  (idle_monitor w = Some 0%nat /\ 90 <> _idle_threshold_seconds w) /\
  idle_monitor w' = Some 1%nat /\ _idle_threshold_seconds w' = 90.
Proof.
  cbn zeta. split; [split; [reflexivity|cbn; lia]|].
  unshelve refine (let H := @changed_idle_settings_replace_the_detector
                     (exec (handle (activate 1))
                        (exec (do_startup 1 true 60
                                 {| IdleMonitor.XOpenDisplay := 100;
                                    IdleMonitor.XDefaultRootWindow := 7;
                                    IdleMonitor.XScreenSaverAllocInfo := 200 |}) __init__))
                     0%nat 1 true 90
                     {| IdleMonitor.XOpenDisplay := 100; IdleMonitor.XDefaultRootWindow := 7;
                        IdleMonitor.XScreenSaverAllocInfo := 200 |} _ _ _ in _).
  - apply (reach_handle (activate 1)), reach_startup.
  - reflexivity.
  - right. cbn. lia.
  - cbn zeta in H. destruct H as (_ & _ & Ht & Hc & _).
    split; [reflexivity|exact Ht].
Defined.

(** *** A pause nothing ends *)

Lemma no_manual_source_remove id c :
  no_manual_source c = true -> no_manual_source (GLib.source_remove id c) = true.
Proof.
  unfold no_manual_source, GLib.source_remove; cbn [GLib.sources].
  induction (GLib.sources c) as [|s l IH]; cbn; [reflexivity|].
  intros H. apply andb_true_iff in H. destruct H as [Hs Hl].
  destruct (negb (Pos.eqb (GLib.src_id s) id)); cbn; [rewrite Hs|]; auto.
Qed.

Lemma no_manual_source_find c id s :
  no_manual_source c = true -> GLib.find_source id c = Some s ->
  GLib.src_callback s <> GLib.App_manual_pause_tick.
Proof.
  unfold no_manual_source, GLib.find_source. intros H Hs.
  apply find_some in Hs. destruct Hs as [Hin _].
  rewrite forallb_forall in H. specialize (H s Hin). intros E. rewrite E in H. discriminate.
Qed.

Lemma calls_map_Detector i (l : list IdleMonitor.output) :
  calls (map (Detector i) l) = [].
Proof. induction l as [|o l IH]; [reflexivity|exact IH]. Qed.

Lemma stop_loop w i d :
  nth_error (detectors w) i = Some d ->
  loop (final (detector_method i IdleMonitor.stop w))
  = match IdleMonitor._timer_source_id (obj d) with
    | Some t => GLib.source_remove t (loop w)
    | None => loop w
    end.
Proof.
  intros Hd.
  destruct (stop_general {| IdleMonitor.self := obj d; IdleMonitor.loop := loop w |})
    as [Hstop Hsig].
  rewrite (@detector_method_silent _ i IdleMonitor.stop w d Hd)
    by (rewrite Hsig; destruct (connected d); reflexivity).
  unfold final at 1; cbn [fst snd].
  rewrite (detector_call_spec i IdleMonitor.stop w Hd). cbn zeta.
  unfold final at 1; cbn [fst snd].
  rewrite Hstop. reflexivity.
Qed.

Lemma call_set_interval_paused q a :
  TimerManager._state (MindfulBreakApp.timer_manager a) = TimerManager.STATE_PAUSED ->
  MindfulBreakApp.call (MindfulBreakApp.m_set_interval q) a =
  (tt,
   {| MindfulBreakApp.self := MindfulBreakApp.self a;
      MindfulBreakApp.timer_manager :=
        {| TimerManager._state := TimerManager.STATE_PAUSED;
           TimerManager._timer_source_id :=
             TimerManager._timer_source_id (MindfulBreakApp.timer_manager a);
           TimerManager._remaining_seconds :=
             TimerManager._remaining_seconds (MindfulBreakApp.timer_manager a);
           TimerManager._configured_interval_seconds := TimerManager.to_seconds q |};
      MindfulBreakApp.loop := MindfulBreakApp.loop a |},
   [MindfulBreakApp.Call (MindfulBreakApp.m_set_interval q)]).
Proof.
  destruct a as [s [st tid rem conf] c]; cbn. intros ->. reflexivity.
Qed.

(** One dispatch while the engine is PAUSED, no manual pause countdown is
    live and every detector is stopped. *)
Lemma fire_without_cause id q w :
  sound w ->
  TimerManager._state (engine w) = TimerManager.STATE_PAUSED ->
  no_manual_source (loop w) = true ->
  (forall j dj, nth_error (detectors w) j = Some dj -> IdleMonitorSpec.stopped (obj dj)) ->
  let w' := exec (fire id q) w in
  outputs (fire id q) w = [] /\
  engine w' = engine w /\
  MindfulBreakApp.self (app w') = MindfulBreakApp.self (app w) /\
  idle_monitor w' = idle_monitor w /\
  detectors w' = detectors w /\
  no_manual_source (loop w') = true.
Proof.
  intros H Hst Hnm Hall. cbn zeta.
  pose proof H as (Ha & _). pose proof Ha as (Hv & Hf & [Hlive Honly] & HM).
  destruct (GLib.find_source id (loop w)) as [[si iv cb]|] eqn:Hs.
  2:{ unfold exec, outputs, fire. rewrite all_bind_get. unfold loop in Hs. rewrite Hs.
      unfold final, SW.output, ret; cbn [fst snd]. split_all; auto. }
  destruct cb.
  - pose proof (Honly _ _ Hs eq_refl) as Ht.
    destruct (Hlive _ Ht) as [Hrun _]. unfold engine in Hst. congruence.
  - exfalso. apply (@no_manual_source_find _ _ _ Hnm Hs). reflexivity.
  - destruct (owner id w) as [i|] eqn:Ho.
    2:{ unfold exec, outputs, fire. rewrite all_bind_get. unfold loop in Hs.
        rewrite Hs, Ho. unfold final, SW.output, ret; cbn [fst snd]. split_all; auto. }
    unfold exec, outputs.
    rewrite (@fire_stopped_detector id q w _ i Hf Hs eq_refl Ho (fun d Hd => Hall i d Hd)).
    unfold final, SW.output; cbn [fst snd]. split_all; auto.
    apply no_manual_source_remove, Hnm.
Qed.

Lemma run_without_cause es : forall w,
  sound w ->
  TimerManager._state (engine w) = TimerManager.STATE_PAUSED ->
  no_manual_source (loop w) = true ->
  (forall j dj, nth_error (detectors w) j = Some dj -> IdleMonitorSpec.stopped (obj dj)) ->
  Forall dispatch es ->
  let w' := exec (run es) w in
  outputs (run es) w = [] /\
  engine w' = engine w /\
  MindfulBreakApp.self (app w') = MindfulBreakApp.self (app w) /\
  idle_monitor w' = idle_monitor w /\
  no_manual_source (loop w') = true.
Proof.
  induction es as [|e es IH]; intros w H Hst Hnm Hall Hes; cbn zeta.
  - unfold exec, outputs, final, SW.output; cbn. split_all; auto.
  - inversion Hes as [|? ? He Hes']; subst.
    destruct e; try contradiction. clear He.
    rewrite exec_run_cons, outputs_run_cons. cbn [handle].
    destruct (@fire_without_cause id q w H Hst Hnm Hall) as (Fo & Fe & Fs & Fi & Fd & Fn).
    pose proof (sound_fire id q H) as H1. fold (exec (fire id q) w) in H1.
    destruct (IH (exec (fire id q) w) H1 ltac:(rewrite Fe; exact Hst) Fn
                ltac:(rewrite Fd; exact Hall) Hes') as (Ro & Re & Rs & Ri & Rn).
    rewrite Fo, Ro, Re, Rs, Ri, Fe, Fs, Fi. split_all; auto.
Qed.

(** X20. Switching idle detection off while the countdown is paused strands
    the pause.  Saving the settings stops the detector and clears the idle
    flag but does not resume the engine; afterwards, with no manual pause
    countdown in the main loop, no dispatch of any source changes the engine
    or outputs anything: the countdown stays paused with the time it had
    until the user resumes or restarts it. *)
Theorem disabling_idle_detection_strands_the_pause
    (w : world) (i : nat) (minutes threshold : Z) (x : IdleMonitor.X11)
    (es : list event) :
  reachable w ->
  idle_monitor w = Some i ->
  TimerManager._state (engine w) = TimerManager.STATE_PAUSED ->
  MindfulBreakApp._manual_pause_timer_id (MindfulBreakApp.self (app w)) = None ->
  no_manual_source (loop w) = true ->
  Forall dispatch es ->
  let r := TimerManager._remaining_seconds (engine w) in
  let w1 := exec (on_settings_saved minutes false threshold x) w in
  let w2 := exec (run es) w1 in
  calls (outputs (on_settings_saved minutes false threshold x) w)
  = [MindfulBreakApp.m_set_interval (inject_Z minutes)] /\
  paused_without_cause r w1 /\
  paused_without_cause r w2 /\
  outputs (run es) w1 = [].
Proof.
  intros Hr Hi Hst Hmid Hnm Hes. cbn zeta.
  pose proof (reachable_sound Hr) as Hs.
  destruct (current_exists Hs Hi) as [d Hd].
  (* the engine is told the new interval *)
  pose proof (call_set_interval_paused (inject_Z minutes) (app w) Hst) as Ecall.
  set (a1 := {| MindfulBreakApp.self := MindfulBreakApp.self (app w);
                MindfulBreakApp.timer_manager :=
                  {| TimerManager._state := TimerManager.STATE_PAUSED;
                     TimerManager._timer_source_id :=
                       TimerManager._timer_source_id (MindfulBreakApp.timer_manager (app w));
                     TimerManager._remaining_seconds :=
                       TimerManager._remaining_seconds (MindfulBreakApp.timer_manager (app w));
                     TimerManager._configured_interval_seconds :=
                       TimerManager.to_seconds (inject_Z minutes) |};
                MindfulBreakApp.loop := MindfulBreakApp.loop (app w) |}) in Ecall.
  set (wa := {| app := a1; idle_monitor := idle_monitor w;
                _idle_monitor_enabled := _idle_monitor_enabled w;
                _idle_threshold_seconds := _idle_threshold_seconds w;
                detectors := detectors w; bound := bound w |}).
  assert (Ea : lift (MindfulBreakApp.call
                       (MindfulBreakApp.m_set_interval (inject_Z minutes))) w
               = (tt, wa, [App (MindfulBreakApp.Call
                                  (MindfulBreakApp.m_set_interval (inject_Z minutes)))])).
  { rewrite lift_spec, Ecall. reflexivity. }
  assert (Hsa : sound wa).
  { pose proof (@sound_lift _ (MindfulBreakApp.call
                  (MindfulBreakApp.m_set_interval (inject_Z minutes)))
                  (fun c0 => @MindfulBreakAppExtra.consistent_call c0 _) w Hs) as Hx.
    rewrite Ea in Hx. exact Hx. }
  (* the detector is stopped *)
  assert (Hda : nth_error (detectors wa) i = Some d) by exact Hd.
  destruct (@sound_stop wa i d Hsa Hi Hda) as (Hsb & _ & _ & _ & _ & Hallb & Hselfb & Hengb).
  pose proof (@stop_loop wa i d Hda) as Hloopb.
  destruct (detector_method i IdleMonitor.stop wa) as [[u wb] ob] eqn:Estop.
  unfold final in Hsb, Hallb, Hselfb, Hengb, Hloopb; cbn [fst snd] in *.
  assert (Hnmb : no_manual_source (loop wb) = true).
  { rewrite Hloopb. destruct (IdleMonitor._timer_source_id (obj d));
      [apply no_manual_source_remove|]; exact Hnm. }
  assert (Hob : calls ob = []).
  { pose proof (@detector_method_silent _ i IdleMonitor.stop wa d Hda) as Hsil.
    destruct (stop_general {| IdleMonitor.self := obj d; IdleMonitor.loop := loop wa |})
      as [_ Hsig].
    rewrite Hsil in Estop by (rewrite Hsig; destruct (connected d); reflexivity).
    inversion Estop as [[Eu Ew Eo]].
    rewrite (detector_call_spec i IdleMonitor.stop wa Hda). cbn zeta.
    unfold SW.output at 1; cbn [snd].
    apply calls_map_Detector. }
  set (w1 := {| app := {| MindfulBreakApp.self :=
                            {| MindfulBreakApp._paused_due_to_idle := false;
                               MindfulBreakApp._manual_pause_timer_id :=
                                 MindfulBreakApp._manual_pause_timer_id
                                   (MindfulBreakApp.self (app wb));
                               MindfulBreakApp._manual_pause_remaining_seconds :=
                                 MindfulBreakApp._manual_pause_remaining_seconds
                                   (MindfulBreakApp.self (app wb)) |};
                          MindfulBreakApp.timer_manager :=
                            MindfulBreakApp.timer_manager (app wb);
                          MindfulBreakApp.loop := MindfulBreakApp.loop (app wb) |};
                idle_monitor := None; _idle_monitor_enabled := false;
                _idle_threshold_seconds := threshold;
                detectors := detectors wb; bound := bound wb |}).
  assert (E1 : on_settings_saved minutes false threshold x w
               = (tt, w1,
                  App (MindfulBreakApp.Call
                         (MindfulBreakApp.m_set_interval (inject_Z minutes))) :: ob)).
  { unfold on_settings_saved, _update_idle_monitor_state. cbv zeta.
    unfold bind at 1. rewrite Ea. rewrite all_bind_get.
    replace (TimerManager.state_eqb
               (TimerManager._state (MindfulBreakApp.timer_manager (app wa)))
               TimerManager.STATE_STOPPED) with false by reflexivity.
    unfold bind at 1. unfold ret at 1. rewrite all_bind_get.
    change (idle_monitor wa) with (idle_monitor w). rewrite Hi.
    rewrite orb_true_r.
    unfold bind at 1. rewrite Estop.
    unfold bind, set_idle_monitor, set_idle_monitor_enabled, set_idle_threshold_seconds,
      modify, get, lift, MindfulBreakApp.set_paused_due_to_idle, MindfulBreakApp.update;
      cbn.
    rewrite app_nil_r. reflexivity. }
  assert (Hs1 : sound w1).
  { pose proof (@sound_on_settings_saved minutes false threshold x w Hs) as Hx.
    rewrite E1 in Hx. exact Hx. }
  assert (P1 : paused_without_cause (TimerManager._remaining_seconds (engine w)) w1).
  { unfold paused_without_cause, engine, loop; cbn [w1 app idle_monitor
      MindfulBreakApp.self MindfulBreakApp.timer_manager MindfulBreakApp.loop
      MindfulBreakApp._paused_due_to_idle MindfulBreakApp._manual_pause_timer_id].
    unfold engine in Hengb. rewrite Hengb, Hselfb. cbn.
    split_all; auto. }
  assert (Ex : exec (on_settings_saved minutes false threshold x) w = w1)
    by (unfold exec; rewrite E1; reflexivity).
  assert (Eo : outputs (on_settings_saved minutes false threshold x) w
               = App (MindfulBreakApp.Call
                        (MindfulBreakApp.m_set_interval (inject_Z minutes))) :: ob)
    by (unfold outputs; rewrite E1; reflexivity).
  rewrite Ex, Eo.
  split; [cbn [calls flat_map app]; fold (calls ob); rewrite Hob; reflexivity|].
  split; [exact P1|].
  destruct P1 as (Q1 & Q2 & Q3 & Q4 & Q5 & Q6).
  destruct (@run_without_cause es w1 Hs1 Q1 Q5 Hallb Hes) as (Ro & Re & Rs & Ri & Rn).
  split; [|exact Ro].
  unfold paused_without_cause. rewrite Re, Rs, Ri. split_all; auto.
Qed.

Lemma disabling_idle_detection_strands_the_pause_witness :
  let x := {| IdleMonitor.XOpenDisplay := 100; IdleMonitor.XDefaultRootWindow := 7;
              IdleMonitor.XScreenSaverAllocInfo := 200 |} in
  let w := exec (handle (source_fires 2%positive (IdleMonitor.QueryInfo 1 70000)))
             (exec (handle (activate 1)) (exec (do_startup 1 true 60 x) __init__)) in
  let es := [source_fires 1%positive (IdleMonitor.QueryInfo 1 0);
             source_fires 2%positive (IdleMonitor.QueryInfo 1 0);
             source_fires 3%positive IdleMonitor.QueryRaises] in
  MindfulBreakApp._paused_due_to_idle (MindfulBreakApp.self (app w)) = true /\
  paused_without_cause 60
    (exec (run es) (exec (on_settings_saved 1 false 60 x) w)).
Proof.
  cbn zeta. split; [reflexivity|].
  refine (proj1 (proj2 (proj2
    (@disabling_idle_detection_strands_the_pause
       (exec (handle (source_fires 2%positive (IdleMonitor.QueryInfo 1 70000)))
          (exec (handle (activate 1))
             (exec (do_startup 1 true 60
                      {| IdleMonitor.XOpenDisplay := 100;
                         IdleMonitor.XDefaultRootWindow := 7;
                         IdleMonitor.XScreenSaverAllocInfo := 200 |}) __init__)))
       0%nat 1 60
       {| IdleMonitor.XOpenDisplay := 100; IdleMonitor.XDefaultRootWindow := 7;
          IdleMonitor.XScreenSaverAllocInfo := 200 |}
       [source_fires 1%positive (IdleMonitor.QueryInfo 1 0);
        source_fires 2%positive (IdleMonitor.QueryInfo 1 0);
        source_fires 3%positive IdleMonitor.QueryRaises] _ _ _ _ _ _)))).
  - apply (reach_handle (source_fires 2%positive (IdleMonitor.QueryInfo 1 70000))),
          (reach_handle (activate 1)), reach_startup.
  - reflexivity.
  - reflexivity.
  - reflexivity.
  - reflexivity.
  - repeat constructor.
Defined.

End ApplicationFacts.
